(** * ZKP login core: proof codec, chain client, verifier, gates, login flow

    A shallow embedding of [service/zkp.go] and [controller/zkp.go].

    Go strings are byte sequences; they are modelled as [string] (a list of
    8-bit [ascii]).  [*big.Int] is modelled as [Z].  What is not code of
    these two files (configuration, go-ethereum and the chain node behind
    it, the account store, the session layer) is a field of an explicit
    environment record; the calls of the chain node, the store, the
    session, the log and the response writer are recorded in a trace. *)

From Stdlib Require Import ZArith String Ascii List Bool Lia.
From Stdlib Require Import DecimalString DecimalNat DecimalFacts DecimalPos.
Import ListNotations.

Open Scope string_scope.
Open Scope Z_scope.

(* ================================================================== *)
(** * Go standard library: bytes, runes, [strings], [math/big]          *)
(* ================================================================== *)

Module GoStd.

(** The numeric value of a byte. *)
Definition byte_val (c : ascii) : Z := Z.of_N (N_of_ascii c).

(** A byte from its numeric value. *)
Definition byte_of (z : Z) : ascii := ascii_of_N (Z.to_N z).

(** [s[i:]] *)
Fixpoint drop (i : nat) (s : string) : string :=
  match i, s with
  | O, _ => s
  | S k, EmptyString => EmptyString
  | S k, String _ s' => drop k s'
  end.

(** [s[:i]] *)
Fixpoint take (i : nat) (s : string) : string :=
  match i, s with
  | O, _ => EmptyString
  | S k, EmptyString => EmptyString
  | S k, String c s' => String c (take k s')
  end.

(** [s[i]] as a number; 0 out of range (never read there by the model). *)
Definition at_ (s : string) (i : nat) : Z :=
  match String.get i s with
  | Some c => byte_val c
  | None => 0
  end.

(** [strings.HasPrefix(s, p)] *)
Fixpoint HasPrefix (s p : string) : bool :=
  match p, s with
  | EmptyString, _ => true
  | String _ _, EmptyString => false
  | String a p', String b s' => Ascii.eqb a b && HasPrefix s' p'
  end.

(** [strings.ReplaceAll(s, old, new)] for a non-empty [old]: one pass from
    the left over non-overlapping occurrences.  [skip] counts the bytes of
    a matched occurrence still to be passed over. *)
Fixpoint replace_from (old new : string) (skip : nat) (s : string) : string :=
  match s with
  | EmptyString => EmptyString
  | String c s' =>
      match skip with
      | S k => replace_from old new k s'
      | O =>
          if HasPrefix s old
          then new ++ replace_from old new (String.length old - 1) s'
          else String c (replace_from old new O s')
      end
  end.

Definition ReplaceAll (s old new : string) : string :=
  replace_from old new O s.

(** [strings.Split(s, sep)] for a one-byte separator: every field between
    separators, the empty ones included; [Split("", ",")] is [[""]]. *)
Fixpoint Split1 (sep : ascii) (s : string) : list string :=
  match s with
  | EmptyString => [EmptyString]
  | String c s' =>
      if Ascii.eqb c sep then EmptyString :: Split1 sep s'
      else match Split1 sep s' with
           | [] => [String c EmptyString]
           | f :: fs => String c f :: fs
           end
  end.

(** ** [unicode/utf8] *)

Definition RuneError : Z := 65533.
Definition RuneSelf : Z := 128.
Definition UTFMax : nat := 4.

(** What the table [first] and [acceptRanges] of [unicode/utf8] hold for a
    lead byte: the sequence length and the accepted range of the second
    byte; [None] for a byte that starts no multi-byte sequence. *)
Definition lead_info (s0 : Z) : option (nat * Z * Z) :=
  if (194 <=? s0) && (s0 <=? 223) then Some (2%nat, 128, 191)
  else if s0 =? 224 then Some (3%nat, 160, 191)
  else if (225 <=? s0) && (s0 <=? 236) then Some (3%nat, 128, 191)
  else if s0 =? 237 then Some (3%nat, 128, 159)
  else if (238 <=? s0) && (s0 <=? 239) then Some (3%nat, 128, 191)
  else if s0 =? 240 then Some (4%nat, 144, 191)
  else if (241 <=? s0) && (s0 <=? 243) then Some (4%nat, 128, 191)
  else if s0 =? 244 then Some (4%nat, 128, 143)
  else None.

Definition is_cont (b : Z) : bool := (128 <=? b) && (b <=? 191).

(** [utf8.DecodeRuneInString]: the rune and its width in bytes. *)
Definition DecodeRuneInString (s : string) : Z * nat :=
  match s with
  | EmptyString => (RuneError, 0%nat)
  | String c _ =>
      let s0 := byte_val c in
      if s0 <? RuneSelf then (s0, 1%nat)
      else match lead_info s0 with
           | None => (RuneError, 1%nat)
           | Some (sz, lo, hi) =>
               if (String.length s <? sz)%nat then (RuneError, 1%nat)
               else
                 let s1 := at_ s 1 in
                 if (s1 <? lo) || (hi <? s1) then (RuneError, 1%nat)
                 else if (sz <=? 2)%nat
                 then (Z.lor (Z.shiftl (Z.land s0 31) 6) (Z.land s1 63), 2%nat)
                 else
                   let s2 := at_ s 2 in
                   if negb (is_cont s2) then (RuneError, 1%nat)
                   else if (sz <=? 3)%nat
                   then (Z.lor (Z.lor (Z.shiftl (Z.land s0 15) 12)
                                      (Z.shiftl (Z.land s1 63) 6))
                               (Z.land s2 63), 3%nat)
                   else
                     let s3 := at_ s 3 in
                     if negb (is_cont s3) then (RuneError, 1%nat)
                     else (Z.lor (Z.lor (Z.lor (Z.shiftl (Z.land s0 7) 18)
                                               (Z.shiftl (Z.land s1 63) 12))
                                        (Z.shiftl (Z.land s2 63) 6))
                                 (Z.land s3 63), 4%nat)
           end
  end.

(** [utf8.RuneStart] *)
Definition RuneStart (b : Z) : bool := negb (Z.land b 192 =? 128).

(** The backward search of [DecodeLastRuneInString]: from [start] down to
    [lim], the first index holding a rune start, else [lim - 1] (an
    integer: it can be -1). *)
Fixpoint find_start (s : string) (lim : Z) (steps : nat) (start : Z) : Z :=
  match steps with
  | O => start
  | S k =>
      if start <? lim then start
      else if RuneStart (at_ s (Z.to_nat start)) then start
      else find_start s lim k (start - 1)
  end.

(** [utf8.DecodeLastRuneInString] *)
Definition DecodeLastRuneInString (s : string) : Z * nat :=
  let end_ := Z.of_nat (String.length s) in
  if end_ =? 0 then (RuneError, 0%nat)
  else
    let r := at_ s (Z.to_nat (end_ - 1)) in
    if r <? RuneSelf then (r, 1%nat)
    else
      let lim := Z.max 0 (end_ - Z.of_nat UTFMax) in
      let start := Z.max 0 (find_start s lim UTFMax (end_ - 2)) in
      let '(r', size) := DecodeRuneInString (drop (Z.to_nat start) s) in
      if start + Z.of_nat size =? end_ then (r', size) else (RuneError, 1%nat).

(** [unicode.IsSpace] *)
Definition IsSpace (r : Z) : bool :=
  if r <=? 255
  then ((9 <=? r) && (r <=? 13)) || (r =? 32) || (r =? 133) || (r =? 160)
  else (r =? 5760) || ((8192 <=? r) && (r <=? 8202)) || (r =? 8232)
       || (r =? 8233) || (r =? 8239) || (r =? 8287) || (r =? 12288).

(** The table [asciiSpace] of package [strings]. *)
Definition asciiSpace (c : Z) : bool :=
  (c =? 9) || (c =? 10) || (c =? 11) || (c =? 12) || (c =? 13) || (c =? 32).

(** [strings.TrimLeftFunc(s, f)]: [for i, r := range s] up to the first
    rune on which [f] is false. *)
Fixpoint trim_left_loop (f : Z -> bool) (fuel : nat) (s : string) : string :=
  match fuel with
  | O => EmptyString
  | S k =>
      match s with
      | EmptyString => EmptyString
      | String _ _ =>
          let '(r, w) := DecodeRuneInString s in
          if f r then trim_left_loop f k (drop w s) else s
      end
  end.

Definition TrimLeftFunc (s : string) (f : Z -> bool) : string :=
  trim_left_loop f (String.length s) s.

(** [lastIndexFunc(s, f, false)] of package [strings]; [None] is -1. *)
Fixpoint last_index_loop (f : Z -> bool) (fuel : nat) (s : string) (i : nat)
  : option nat :=
  match fuel with
  | O => None
  | S k =>
      match i with
      | O => None
      | S _ =>
          let '(r, size) := DecodeLastRuneInString (take i s) in
          let i' := (i - size)%nat in
          if f r then last_index_loop f k s i' else Some i'
      end
  end.

(** [strings.TrimRightFunc(s, f)] *)
Definition TrimRightFunc (s : string) (f : Z -> bool) : string :=
  match last_index_loop f (String.length s) s (String.length s) with
  | Some i =>
      if RuneSelf <=? at_ s i
      then take (i + snd (DecodeRuneInString (drop i s))) s
      else take (i + 1) s
  | None => take 0 s
  end.

Definition TrimFunc (s : string) (f : Z -> bool) : string :=
  TrimRightFunc (TrimLeftFunc s f) f.

(** The first loop of [strings.TrimSpace]: [inl start] when it stops at an
    ASCII non-space byte or at the end, [inr start] when it meets a byte
    outside ASCII. *)
Fixpoint trim_start (s : string) (start : nat) : nat + nat :=
  match s with
  | EmptyString => inl start
  | String c s' =>
      let b := byte_val c in
      if RuneSelf <=? b then inr start
      else if asciiSpace b then trim_start s' (S start)
      else inl start
  end.

(** The second loop of [strings.TrimSpace], over [s[start:]] kept in [t]
    (so [stop > start] reads [stop > 0] here). *)
Fixpoint trim_stop (t : string) (fuel : nat) (stop : nat) : nat + nat :=
  match fuel with
  | O => inl stop
  | S k =>
      match stop with
      | O => inl stop
      | S p =>
          let b := at_ t p in
          if RuneSelf <=? b then inr stop
          else if asciiSpace b then trim_stop t k p
          else inl stop
      end
  end.

(** [strings.TrimSpace] *)
Definition TrimSpace (s : string) : string :=
  match trim_start s 0 with
  | inr start => TrimFunc (drop start s) IsSpace
  | inl start =>
      let t := drop start s in
      match trim_stop t (String.length t) (String.length t) with
      | inr stop => TrimRightFunc (take stop t) IsSpace
      | inl stop => take stop t
      end
  end.

(** ** [math/big] *)

(** The digit value [d1] of a character in [nat.scan], for a base of at
    most 36; 63 ([MaxBase + 1]) for a character that is no digit. *)
Definition digit_val (ch : Z) : Z :=
  if (48 <=? ch) && (ch <=? 57) then ch - 48
  else if (97 <=? ch) && (ch <=? 122) then ch - 97 + 10
  else if (65 <=? ch) && (ch <=? 90) then ch - 65 + 10
  else 63.

(** The variable [prev] of [nat.scan]: the character seen last was a
    separator ['_'], a digit ['0'], or anything else ['.']. *)
Inductive prev_char := PrevSep | PrevDigit | PrevOther.

Definition is_digit_prev (p : prev_char) : bool :=
  match p with PrevDigit => true | _ => false end.

Definition is_sep_prev (p : prev_char) : bool :=
  match p with PrevSep => true | _ => false end.

(** The variable [prefix] of [nat.scan]. *)
Inductive base_prefix := NoPrefix | Prefix_b | Prefix_o | Prefix_x | Prefix_0.

Record scan_state := {
  sc_prev : prev_char;
  sc_invalSep : bool;
  sc_count : nat;
  sc_z : Z;
  sc_rest : string   (* what the reader still holds *)
}.

(** The digit loop of [nat.scan] (no fraction: [fracOk] is false).
    [base0] says the caller passed base 0, where ['_'] separates digits. *)
Fixpoint scan_loop (base0 : bool) (b : Z) (prev : prev_char) (invalSep : bool)
    (count : nat) (z : Z) (s : string) : scan_state :=
  match s with
  | EmptyString =>
      {| sc_prev := prev; sc_invalSep := invalSep; sc_count := count;
         sc_z := z; sc_rest := EmptyString |}
  | String c s' =>
      let ch := byte_val c in
      if (ch =? 95) && base0
      then scan_loop base0 b PrevSep (invalSep || negb (is_digit_prev prev))
                     count z s'
      else
        let d1 := digit_val ch in
        if b <=? d1
        then {| sc_prev := prev; sc_invalSep := invalSep; sc_count := count;
                sc_z := z; sc_rest := s |}
        else scan_loop base0 b PrevDigit invalSep (S count) (z * b + d1) s'
  end.

(** The base prefix of [nat.scan] for base 0: the actual base, the prefix,
    [prev], [count] and the input left for the digit loop. *)
Definition scan_prefix (s : string)
  : Z * base_prefix * prev_char * nat * string :=
  match s with
  | String c0 s' =>
      if byte_val c0 =? 48 then
        match s' with
        | EmptyString => (10, NoPrefix, PrevDigit, 1%nat, EmptyString)
        | String c1 s'' =>
            let ch := byte_val c1 in
            if (ch =? 98) || (ch =? 66) then (2, Prefix_b, PrevDigit, 0%nat, s'')
            else if (ch =? 111) || (ch =? 79) then (8, Prefix_o, PrevDigit, 0%nat, s'')
            else if (ch =? 120) || (ch =? 88) then (16, Prefix_x, PrevDigit, 0%nat, s'')
            else (8, Prefix_0, PrevDigit, 0%nat, s')
        end
      else (10, NoPrefix, PrevOther, 0%nat, s)
  | EmptyString => (10, NoPrefix, PrevOther, 0%nat, s)
  end.

(** [nat.scan(r, base, false)] for base 0 or 2..36: the value, whether an
    error is returned, and the unread input. *)
Definition nat_scan (s : string) (base : Z) : Z * bool * string :=
  let '(b, prefix, prev, count, s1) :=
    if base =? 0 then scan_prefix s
    else (base, NoPrefix, PrevOther, 0%nat, s) in
  let st := scan_loop (base =? 0) b prev false count 0 s1 in
  let errInvalSep := sc_invalSep st || is_sep_prev (sc_prev st) in
  match sc_count st with
  | O =>
      match prefix with
      | Prefix_0 => (0, errInvalSep, sc_rest st)
      | _ => (sc_z st, true, sc_rest st)
      end
  | S _ => (sc_z st, errInvalSep, sc_rest st)
  end.

(** [new(big.Int).SetString(s, base)]: [Some] value when [ok], with the
    sign read by [scanSign] and the whole input consumed. *)
Definition SetString (s : string) (base : Z) : option Z :=
  match s with
  | EmptyString => None
  | String c s' =>
      let ch := byte_val c in
      let '(neg, s1) :=
        if ch =? 45 then (true, s')
        else if ch =? 43 then (false, s')
        else (false, s) in
      let '(z, err, rest) := nat_scan s1 base in
      if err then None
      else match rest with
           | EmptyString => Some (if neg then - z else z)
           | String _ _ => None
           end
  end.

(** [String()] of [big.Int]: the decimal numeral, ['-'] first when negative. *)
Definition Int_String (z : Z) : string := NilZero.string_of_int (Z.to_int z).

(** Big-endian bytes of a non-negative number, the most significant first,
    on exactly [n] bytes (the higher bytes are dropped when it is longer). *)
Fixpoint be_bytes (n : nat) (z : Z) : list Z :=
  match n with
  | O => []
  | S k => be_bytes k (z / 256) ++ [z mod 256]
  end.

(** [x.FillBytes(buf)] with [len(buf) = n]: the absolute value of [x] as
    big-endian bytes, zero-extended on the left; [None] is the panic
    ["math/big: buffer too small to fit value"]. *)
Definition FillBytes (x : Z) (n : nat) : option (list Z) :=
  if Z.abs x <? 256 ^ Z.of_nat n then Some (be_bytes n (Z.abs x)) else None.

End GoStd.

(* ================================================================== *)
(** * Data of the service and of the controller                         *)
(* ================================================================== *)

(** A Go [error], by its message. *)
Definition error := string.

(** [ethcommon.Address]: a 160-bit number; the zero value is 0. *)
Definition Address := Z.
Definition Bytes := list Z.

(** [ZkpPayload]: [A [2]*big.Int], [B [2][2]*big.Int], [C [2]*big.Int],
    [Input [1]*big.Int] (the one element of [Input] is [Input[0]]). *)
Record ZkpPayload := {
  A : Z * Z;
  B : (Z * Z) * (Z * Z);
  C : Z * Z;
  Input : Z
}.

Record ZkpStatus := {
  IsActive : bool;
  Deployer : string;
  Exists : bool
}.

Record MembershipStatus := {
  IsMember : bool;
  IsPermanent : bool;
  IsTemporary : bool;
  IsTokenBased : bool;
  IsCrossChain : bool
}.

(** The two ABI texts of the service, by name. *)
Inductive AbiText := zkpContractABI | membershipQueryABI.

(** [abi.ABI], as far as the service looks at it: the methods it declares.
    The zero value [ABI{}] declares none. *)
Record ABI := { abi_methods : list string }.
Definition ABI_zero : ABI := {| abi_methods := [] |}.

(** A value of the [[]interface{}] that [Unpack] returns. *)
Inductive AbiValue :=
| VAddress (a : Address)
| VBool (b : bool)
| VOther.

(** An argument given to [Pack] or [Transact]. *)
Inductive AbiArg :=
| ArgUint2 (v : Z * Z)
| ArgUint2x2 (v : (Z * Z) * (Z * Z))
| ArgUint1 (v : Z)
| ArgBytes32 (v : list Z)
| ArgAddress (a : Address)
| ArgString (s : string).

(** [ethereum.CallMsg]: [From] is left at its zero value by the two status
    queries ([None] here). *)
Record CallMsg := {
  msg_From : option Address;
  msg_To : Address;
  msg_Data : Bytes
}.

(** [bind.TransactOpts] as the verifier fills it. *)
Record TransactOpts := {
  opt_From : Address;
  opt_chainID : Z;
  opt_Nonce : option Z;
  opt_GasPrice : option Z;
  opt_GasLimit : Z
}.

(** A submitted transaction, by [tx.Hash().Hex()]. *)
Record Tx := { tx_hash_hex : string }.

(** [model.User], the fields the login flow reads or writes. *)
Record User := {
  Id : Z;
  Username : string;
  DisplayName : string;
  Role : Z;
  Status : Z;
  Group : string;
  WalletAddress : string;
  ZkpHash : string
}.

Definition User_zero (wallet : string) : User :=
  {| Id := 0; Username := ""; DisplayName := ""; Role := 0; Status := 0;
     Group := ""; WalletAddress := wallet; ZkpHash := "" |}.

Record ZkpLoginRequest := {
  ZkpCode : string;
  AffCode : string
}.

(** A value stored in the session. *)
Inductive SessionValue := SInt (z : Z) | SStr (s : string).

(** The ["data"] object of the success response. *)
Record LoginData := {
  d_id : Z;
  d_username : string;
  d_display_name : string;
  d_role : Z;
  d_status : Z;
  d_group : string;
  d_wallet_address : string;
  d_tx_hash : string
}.

(** What [c.JSON(status, gin.H{...})] writes. *)
Record Response := {
  http_status : Z;
  success : bool;
  message : string;
  data : option LoginData
}.

(** The places where the handler writes a response: the calls of [c.JSON]
    in [ZkpOAuth] and [setupZkpLogin], in source order. *)
Inductive Site :=
| AtNotConfigured
| AtBind
| AtParse
| AtVerify
| AtMembership
| AtFill
| AtDeleted
| AtRegisterClosed
| AtInsert
| AtStatus
| AtSessionSave
| AtSuccess.

(** The calls the trace records, with what they returned: the chain node,
    the one-time parses of the ABI texts, the system log, the account
    store, the session and the response writer. *)
Inductive Event :=
| EvDial (url : string)
| EvAbiJSON (t : AbiText)
| EvPendingNonceAt (a : Address) (r : Z + error)
| EvSuggestGasPrice (r : Z + error)
| EvCallContract (msg : CallMsg) (r : Bytes + error)
| EvTransact (opts : TransactOpts) (method : string) (args : list AbiArg)
             (r : Tx + error)
| EvSysLog (line : string)
| EvIsWalletAddressAlreadyTaken (wallet : string) (r : bool)
| EvGetUserIdByAffCode (code : string) (r : Z * option error)
| EvFillUser (u : User) (r : User * option error)
| EvUpdateUser (u : User) (r : User * option error)
| EvInsertUser (u : User) (inviterId : Z) (r : User * option error)
| EvSessionSet (key : string) (v : SessionValue)
| EvSessionSave (r : option error)
| EvJSON (site : Site) (r : Response).

(** The environment of the process: configuration, the go-ethereum
    library, the chain node behind it, the account store and the session
    layer.  None of it is code of the two files embedded here. *)
Record World := {
  (* package common *)
  ZkpPrivateKey : string;
  RegisterEnabled : bool;
  RoleCommonUser : Z;
  UserStatusEnabled : Z;
  (* go-ethereum *)
  ethclient_Dial : string -> Z + error;
  abi_JSON : AbiText -> ABI * option error;
  crypto_HexToECDSA : string -> Z + error;
  crypto_PubkeyToAddress : Z -> Address;
  bind_NewKeyedTransactorWithChainID : Z -> Z -> option error;
  HexToAddress : string -> Address;
  Address_Hex : Address -> string;
  abi_Pack : ABI -> string -> list AbiArg -> Bytes + error;
  abi_Unpack : ABI -> string -> Bytes -> list AbiValue + error;
  (* the chain node, through the client *)
  PendingNonceAt : Z -> Address -> Z + error;
  SuggestGasPrice : Z -> Z + error;
  CallContract : Z -> CallMsg -> Bytes + error;
  Transact : Z -> ABI -> Address -> TransactOpts -> string -> list AbiArg
             -> Tx + error;
  (* gin, package model, sessions *)
  IsWalletAddressAlreadyTaken : string -> bool;
  FillUserByWalletAddress : User -> User * option error;
  Update : User -> bool -> User * option error;
  Insert : User -> Z -> User * option error;
  GetUserIdByAffCode : string -> Z * option error;
  session_Save : list (string * SessionValue) -> option error
}.

(** The package-level variables of the service: the client singleton and
    the parsed ABIs, each behind its [sync.Once]. *)
Record Globals := {
  ethClient : option Z;
  ethClientOnce : bool;
  ethClientErr : option error;
  zkpABI : ABI;
  membershipABI : ABI;
  abiOnce : bool
}.

(** The variables as they are when the process starts. *)
Definition Globals_init : Globals :=
  {| ethClient := None; ethClientOnce := false; ethClientErr := None;
     zkpABI := ABI_zero; membershipABI := ABI_zero; abiOnce := false |}.

(* ================================================================== *)
(** * A monad for Go function bodies                                    *)
(* ================================================================== *)

(** A statement of a function that returns [R] either goes on with a value,
    returns from the function, or panics. *)
Inductive Step (R A : Type) :=
| Next (a : A)
| Return (r : R)
| Panic (msg : string).
Arguments Next {R A} a.
Arguments Return {R A} r.
Arguments Panic {R A} msg.

(** A computation reads and writes the package variables and appends to
    the trace the events of its calls, the oldest first. *)
Definition M (R A : Type) : Type := Globals -> Step R A * Globals * list Event.

Definition ret {R A} (a : A) : M R A := fun g => (Next a, g, []).

Definition bind {R A B} (m : M R A) (k : A -> M R B) : M R B :=
  fun g =>
    match m g with
    | (Next a, g1, t1) =>
        let '(s, g2, t2) := k a g1 in (s, g2, (t1 ++ t2)%list)
    | (Return r, g1, t1) => (Return r, g1, t1)
    | (Panic msg, g1, t1) => (Panic msg, g1, t1)
    end.

Notation "x <- m ;; k" := (bind m (fun x => k))
  (at level 61, m at next level, right associativity).
Notation "m ;; k" := (bind m (fun _ => k))
  (at level 61, right associativity).

Definition return_ {R A} (r : R) : M R A := fun g => (Return r, g, []).
Definition panic {R A} (msg : string) : M R A := fun g => (Panic msg, g, []).
Definition emit {R} (e : Event) : M R unit := fun g => (Next tt, g, [e]).
Definition get {R} : M R Globals := fun g => (Next g, g, []).
Definition put {R} (g : Globals) : M R unit := fun _ => (Next tt, g, []).

(** A call of a function whose body is [f]: what it returns, by [return]
    or by reaching its last expression, is the value of the call. *)
Definition call {R A} (f : M A A) : M R A :=
  fun g =>
    match f g with
    | (Next a, g1, t1) => (Next a, g1, t1)
    | (Return a, g1, t1) => (Next a, g1, t1)
    | (Panic msg, g1, t1) => (Panic msg, g1, t1)
    end.

(** [v, err := f(...); if err != nil { return k(err) }] *)
Definition or_return {R A} (x : A + error) (k : error -> R) : M R A :=
  match x with
  | inl a => ret a
  | inr e => return_ (k e)
  end.

(** How a function ends. *)
Inductive Outcome (R : Type) :=
| Returned (r : R)
| Panicked (msg : string).
Arguments Returned {R} r.
Arguments Panicked {R} msg.

Definition run {R} (f : M R R) (g : Globals) : Outcome R * Globals * list Event :=
  match f g with
  | (Next r, g1, t) => (Returned r, g1, t)
  | (Return r, g1, t) => (Returned r, g1, t)
  | (Panic msg, g1, t) => (Panicked msg, g1, t)
  end.

(* ================================================================== *)
(** * service/zkp.go                                                    *)
(* ================================================================== *)

Module Service.
Import GoStd.

Definition ZkpContractAddress : string :=
  "0x7587CA385f1e10c411638003dA0f1bd3C99b919e".
Definition MembershipQueryAddress : string :=
  "0x2A152405afB201258D66919570BbD4625455a65f".
Definition ZkpRpcUrl : string :=
  "https://base-mainnet.infura.io/v3/64154bb5696a46eb841b6c687260559a".
Definition ZkpChainId : Z := 8453.
Definition AllowedClubName : string := "ai".

(** ** The client and ABI singletons *)

(** [getEthClient]: [ethClientOnce.Do] dials once and keeps client and
    error in package variables. *)
Definition getEthClient (w : World)
  : M (option Z * option error) (option Z * option error) :=
  g <- get ;;
  (if ethClientOnce g then ret tt
   else
     emit (EvDial ZkpRpcUrl) ;;
     match ethclient_Dial w ZkpRpcUrl with
     | inl c =>
         put {| ethClient := Some c; ethClientOnce := true;
                ethClientErr := None; zkpABI := zkpABI g;
                membershipABI := membershipABI g; abiOnce := abiOnce g |}
     | inr e =>
         put {| ethClient := None; ethClientOnce := true;
                ethClientErr := Some e; zkpABI := zkpABI g;
                membershipABI := membershipABI g; abiOnce := abiOnce g |}
     end) ;;
  g' <- get ;;
  ret (ethClient g', ethClientErr g').

Definition set_zkpABI {R} (a : ABI) : M R unit :=
  g <- get ;;
  put {| ethClient := ethClient g; ethClientOnce := ethClientOnce g;
         ethClientErr := ethClientErr g; zkpABI := a;
         membershipABI := membershipABI g; abiOnce := abiOnce g |}.

Definition set_membershipABI {R} (a : ABI) : M R unit :=
  g <- get ;;
  put {| ethClient := ethClient g; ethClientOnce := ethClientOnce g;
         ethClientErr := ethClientErr g; zkpABI := zkpABI g;
         membershipABI := a; abiOnce := abiOnce g |}.

Definition set_abiOnce {R} (b : bool) : M R unit :=
  g <- get ;;
  put {| ethClient := ethClient g; ethClientOnce := ethClientOnce g;
         ethClientErr := ethClientErr g; zkpABI := zkpABI g;
         membershipABI := membershipABI g; abiOnce := b |}.

(** The function literal given to [abiOnce.Do] in [getABIs].  It assigns
    the package variables [zkpABI] and [membershipABI] and the variable
    [err], which is local to the enclosing call of [getABIs]; the value
    returned here is that [err] when the literal ends. *)
Definition getABIs_init (w : World) : M (option error) (option error) :=
  emit (EvAbiJSON zkpContractABI) ;;
  let '(a, err) := abi_JSON w zkpContractABI in
  set_zkpABI a ;;
  match err with
  | Some e => return_ (Some e)
  | None =>
      emit (EvAbiJSON membershipQueryABI) ;;
      let '(m, err') := abi_JSON w membershipQueryABI in
      set_membershipABI m ;;
      ret err'
  end.

(** [getABIs]: [var err error] starts as nil in every call; only a call
    that runs the literal can see it assigned. *)
Definition getABIs (w : World)
  : M (ABI * ABI * option error) (ABI * ABI * option error) :=
  g <- get ;;
  err <- (if abiOnce g then ret None
          else
            e <- call (getABIs_init w) ;;
            set_abiOnce true ;;
            ret e) ;;
  g' <- get ;;
  ret (zkpABI g', membershipABI g', err).

(** ** ProofCodec *)

(** U+200B, U+200C, U+200D and U+FEFF in UTF-8. *)
Definition bytes3 (a b c : Z) : string :=
  String (byte_of a) (String (byte_of b) (String (byte_of c) EmptyString)).
Definition u200B : string := bytes3 226 128 139.
Definition u200C : string := bytes3 226 128 140.
Definition u200D : string := bytes3 226 128 141.
Definition uFEFF : string := bytes3 239 187 191.

(** [cleanStr] of [ParseZkpCode]. *)
Definition cleanStr (code : string) : string :=
  let s := ReplaceAll code u200B "" in
  let s := ReplaceAll s u200C "" in
  let s := ReplaceAll s u200D "" in
  let s := ReplaceAll s uFEFF "" in
  TrimSpace s.

(** [parts] of [ParseZkpCode] after the trimming loop. *)
Definition trimmed_parts (code : string) : list string :=
  map TrimSpace (Split1 "," (cleanStr code)).

(** The parsing loop of [ParseZkpCode] from index [i] on: the values, or
    the index of the first part that [SetString(part, 0)] refuses. *)
Fixpoint parse_values (i : nat) (parts : list string) : list Z + nat :=
  match parts with
  | [] => inl []
  | part :: rest =>
      match SetString part 0 with
      | None => inr i
      | Some val =>
          match parse_values (S i) rest with
          | inl vals => inl (val :: vals)
          | inr j => inr j
          end
      end
  end.

Definition err_field_count : error :=
  "invalid zkpCode: expected 9 comma-separated values".

(** [fmt.Errorf("invalid zkpCode: failed to parse value at index %d", i)] *)
Definition err_field_index (i : nat) : error :=
  "invalid zkpCode: failed to parse value at index "
  ++ NilZero.string_of_uint (Nat.to_uint i).

(** [ParseZkpCode]: the payload, or the error (one of the two is nil). *)
Definition ParseZkpCode (code : string) : ZkpPayload + error :=
  let parts := Split1 "," (cleanStr code) in
  if negb (Nat.eqb (List.length parts) 9) then inr err_field_count
  else
    let parts := map TrimSpace parts in
    match parse_values 0 parts with
    | inr i => inr (err_field_index i)
    | inl values =>
        let v (k : nat) := nth k values 0 in
        inl {| A := (v 0%nat, v 1%nat);
               B := ((v 2%nat, v 3%nat), (v 4%nat, v 5%nat));
               C := (v 6%nat, v 7%nat);
               Input := v 8%nat |}
    end.

(** ** ProofVerifier *)

(** [(walletAddress, txHash, err)] *)
Definition VerifyResult : Type := string * string * option error.

Definition verify_fail (msg : error) : VerifyResult := ("", "", Some msg).

(** A method call on a [*ethclient.Client]: a nil pointer panics. *)
Definition deref {R} (client : option Z) : M R Z :=
  match client with
  | Some c => ret c
  | None => panic "invalid memory address or nil pointer dereference"
  end.

(** [int64(nonce)] for a [uint64]. *)
Definition int64_of_uint64 (n : Z) : Z :=
  if n <? 2 ^ 63 then n else n - 2 ^ 64.

Definition verifyProof_args (payload : ZkpPayload) : list AbiArg :=
  [ArgUint2 (A payload); ArgUint2x2 (B payload); ArgUint2 (C payload);
   ArgUint1 (Input payload)].

Definition VerifyProof (w : World) (payload : ZkpPayload)
  : M VerifyResult VerifyResult :=
  (if String.eqb (ZkpPrivateKey w) ""
   then return_ (verify_fail "ZKP_PRIVATE_KEY not configured")
   else ret tt) ;;
  ce <- call (getEthClient w) ;;
  let client := fst ce in
  match snd ce with
  | Some e =>
      return_ (verify_fail ("failed to connect to ethereum client: " ++ e))
  | None =>
  abis <- call (getABIs w) ;;
  let zkpABI := fst (fst abis) in
  match snd abis with
  | Some e => return_ (verify_fail ("failed to parse ABI: " ++ e))
  | None =>
  (* Parse private key *)
  let privateKeyStr := ZkpPrivateKey w in
  let privateKeyStr :=
    if HasPrefix privateKeyStr "0x" then drop 2 privateKeyStr
    else privateKeyStr in
  privateKey <- or_return (crypto_HexToECDSA w privateKeyStr)
                  (fun e => verify_fail ("invalid private key: " ++ e)) ;;
  let chainID := ZkpChainId in
  (* Create auth *)
  match bind_NewKeyedTransactorWithChainID w privateKey chainID with
  | Some e => return_ (verify_fail ("failed to create transactor: " ++ e))
  | None =>
  (* Get nonce *)
  let fromAddress := crypto_PubkeyToAddress w privateKey in
  c <- deref client ;;
  let nonce_r := PendingNonceAt w c fromAddress in
  emit (EvPendingNonceAt fromAddress nonce_r) ;;
  nonce <- or_return nonce_r
             (fun e => verify_fail ("failed to get nonce: " ++ e)) ;;
  (* Get gas price *)
  let gas_r := SuggestGasPrice w c in
  emit (EvSuggestGasPrice gas_r) ;;
  gasPrice <- or_return gas_r
                (fun e => verify_fail ("failed to get gas price: " ++ e)) ;;
  let auth := {| opt_From := fromAddress; opt_chainID := chainID;
                 opt_Nonce := Some (int64_of_uint64 nonce);
                 opt_GasPrice := Some gasPrice;
                 opt_GasLimit := 300000 |} in
  (* Pack the call data *)
  let contractAddr := HexToAddress w ZkpContractAddress in
  callData <- or_return
                (abi_Pack w zkpABI "verifyProof" (verifyProof_args payload))
                (fun e => verify_fail ("failed to pack call data: " ++ e)) ;;
  (* First, simulate the call to get the result *)
  let callMsg := {| msg_From := Some fromAddress; msg_To := contractAddr;
                    msg_Data := callData |} in
  let call_r := CallContract w c callMsg in
  emit (EvCallContract callMsg call_r) ;;
  result <- or_return call_r
              (fun e => verify_fail ("contract call simulation failed: " ++ e)) ;;
  (* Unpack the result *)
  outputs <- or_return (abi_Unpack w zkpABI "verifyProof" result)
               (fun e => verify_fail ("failed to unpack result: " ++ e)) ;;
  (if negb (Nat.eqb (List.length outputs) 2)
   then return_ (verify_fail "unexpected output length from verifyProof")
   else ret tt) ;;
  hashDeployer <- match nth 0 outputs VOther with
                  | VAddress a => ret a
                  | _ => return_ (verify_fail
                                    "failed to parse hashDeployer from result")
                  end ;;
  isValid <- match nth 1 outputs VOther with
             | VBool b => ret b
             | _ => return_ (verify_fail "failed to parse isValid from result")
             end ;;
  (if negb isValid then return_ (verify_fail "proof verification failed")
   else ret tt) ;;
  let walletAddress := Address_Hex w hashDeployer in
  (* Now send the actual transaction *)
  let tx_r := Transact w c zkpABI contractAddr auth "verifyProof"
                       (verifyProof_args payload) in
  emit (EvTransact auth "verifyProof" (verifyProof_args payload) tx_r) ;;
  tx <- or_return tx_r
          (fun e => (walletAddress, "",
                     Some ("failed to send transaction: " ++ e))) ;;
  ret (walletAddress, tx_hash_hex tx, None)
  end end end.

(** ** HashStatusChecker *)

Definition as_bool (v : AbiValue) : bool :=
  match v with VBool b => b | _ => false end.

Definition as_address (v : AbiValue) : Address :=
  match v with VAddress a => a | _ => 0 end.

Definition GetHashStatus (w : World) (zkpHash : string)
  : M (ZkpStatus + error) (ZkpStatus + error) :=
  ce <- call (getEthClient w) ;;
  let client := fst ce in
  match snd ce with
  | Some e => return_ (inr ("failed to connect to ethereum client: " ++ e))
  | None =>
  abis <- call (getABIs w) ;;
  let zkpABI := fst (fst abis) in
  match snd abis with
  | Some e => return_ (inr ("failed to parse ABI: " ++ e))
  | None =>
  (* Convert decimal string to bytes32 hex *)
  match SetString zkpHash 10 with
  | None => return_ (inr "invalid zkpHash: failed to parse as decimal")
  | Some hashBigInt =>
  (* Pad to 32 bytes *)
  hash32 <- match FillBytes hashBigInt 32 with
            | Some hashBytes => ret hashBytes
            | None => panic "math/big: buffer too small to fit value"
            end ;;
  let contractAddr := HexToAddress w ZkpContractAddress in
  callData <- or_return (abi_Pack w zkpABI "getHashStatus" [ArgBytes32 hash32])
                (fun e => inr ("failed to pack call data: " ++ e)) ;;
  let callMsg := {| msg_From := None; msg_To := contractAddr;
                    msg_Data := callData |} in
  c <- deref client ;;
  let call_r := CallContract w c callMsg in
  emit (EvCallContract callMsg call_r) ;;
  result <- or_return call_r
              (fun e => inr ("contract call failed: " ++ e)) ;;
  outputs <- or_return (abi_Unpack w zkpABI "getHashStatus" result)
               (fun e => inr ("failed to unpack result: " ++ e)) ;;
  (if negb (Nat.eqb (List.length outputs) 3)
   then return_ (inr "unexpected output length from getHashStatus")
   else ret tt) ;;
  let isActive := as_bool (nth 0 outputs VOther) in
  let deployer := as_address (nth 1 outputs VOther) in
  let exists_ := as_bool (nth 2 outputs VOther) in
  ret (inl {| IsActive := isActive; Deployer := Address_Hex w deployer;
              Exists := exists_ |})
  end end end.

Definition IsZkpValid (w : World) (zkpHash : string) : M bool bool :=
  (if String.eqb zkpHash "" then return_ true else ret tt) ;;
  r <- call (GetHashStatus w zkpHash) ;;
  match r with
  | inr err =>
      emit (EvSysLog ("Error checking ZKP status: " ++ err)) ;;
      return_ false
  | inl status => ret (Exists status && IsActive status)
  end.

(** ** MembershipGate *)

Definition CheckClubMembership (w : World) (walletAddress clubName : string)
  : M (MembershipStatus + error) (MembershipStatus + error) :=
  ce <- call (getEthClient w) ;;
  let client := fst ce in
  match snd ce with
  | Some e => return_ (inr ("failed to connect to ethereum client: " ++ e))
  | None =>
  abis <- call (getABIs w) ;;
  let memberABI := snd (fst abis) in
  match snd abis with
  | Some e => return_ (inr ("failed to parse ABI: " ++ e))
  | None =>
  let memberAddr := HexToAddress w walletAddress in
  let contractAddr := HexToAddress w MembershipQueryAddress in
  callData <- or_return
                (abi_Pack w memberABI "checkDetailedMembership"
                          [ArgAddress memberAddr; ArgString clubName])
                (fun e => inr ("failed to pack call data: " ++ e)) ;;
  let callMsg := {| msg_From := None; msg_To := contractAddr;
                    msg_Data := callData |} in
  c <- deref client ;;
  let call_r := CallContract w c callMsg in
  emit (EvCallContract callMsg call_r) ;;
  result <- or_return call_r
              (fun e => inr ("contract call failed: " ++ e)) ;;
  outputs <- or_return
               (abi_Unpack w memberABI "checkDetailedMembership" result)
               (fun e => inr ("failed to unpack result: " ++ e)) ;;
  (if negb (Nat.eqb (List.length outputs) 4)
   then return_ (inr "unexpected output length from checkDetailedMembership")
   else ret tt) ;;
  let isPermanent := as_bool (nth 0 outputs VOther) in
  let isTemporary := as_bool (nth 1 outputs VOther) in
  let isTokenBased := as_bool (nth 2 outputs VOther) in
  let isCrossChain := as_bool (nth 3 outputs VOther) in
  ret (inl {| IsMember := isPermanent || isTemporary || isTokenBased
                          || isCrossChain;
              IsPermanent := isPermanent;
              IsTemporary := isTemporary;
              IsTokenBased := isTokenBased;
              IsCrossChain := isCrossChain |})
  end end.

Definition IsClubMember (w : World) (walletAddress : string) : M bool bool :=
  (if String.eqb walletAddress "" then return_ true else ret tt) ;;
  r <- call (CheckClubMembership w walletAddress AllowedClubName) ;;
  match r with
  | inr err =>
      emit (EvSysLog ("Error checking club membership: " ++ err)) ;;
      return_ false
  | inl status => ret (IsMember status)
  end.

End Service.

(* ================================================================== *)
(** * controller/zkp.go                                                 *)
(* ================================================================== *)

Module Controller.
Import GoStd Service.

(** The part of [*gin.Context] the handler reads: what
    [c.ShouldBindJSON(&req)] yields for the request at hand. *)
Record Context := { ShouldBindJSON : ZkpLoginRequest + error }.

Definition StatusOK : Z := 200.
Definition StatusBadRequest : Z := 400.
Definition StatusUnauthorized : Z := 401.
Definition StatusForbidden : Z := 403.

(** [abbreviateAddress] returns abbreviated wallet address like
    "0x1234...abcd". *)
Definition abbreviateAddress (address : string) : string :=
  if (String.length address <=? 10)%nat then address
  else take 6 address ++ "..." ++ drop (String.length address - 4) address.

(** [c.JSON(status, gin.H{"success": false, "message": msg}); return] *)
Definition deny {A} (site : Site) (status : Z) (msg : string) : M unit A :=
  emit (EvJSON site {| http_status := status; success := false; message := msg;
                  data := None |}) ;;
  return_ tt.

Definition msg_not_configured : string := "ZKP authentication is not configured".
Definition msg_deleted : string := "用户已注销".
Definition msg_register_closed : string := "管理员关闭了新用户注册".
Definition msg_banned : string := "用户已被封禁".
Definition msg_session : string := "无法保存会话信息，请重试".

Definition setupZkpLogin (w : World) (user : User) (txHash : string)
  : M unit unit :=
  emit (EvSessionSet "id" (SInt (Id user))) ;;
  emit (EvSessionSet "username" (SStr (Username user))) ;;
  emit (EvSessionSet "role" (SInt (Role user))) ;;
  emit (EvSessionSet "status" (SInt (Status user))) ;;
  emit (EvSessionSet "group" (SStr (Group user))) ;;
  let err := session_Save w [("id", SInt (Id user));
                             ("username", SStr (Username user));
                             ("role", SInt (Role user));
                             ("status", SInt (Status user));
                             ("group", SStr (Group user))] in
  emit (EvSessionSave err) ;;
  match err with
  | Some _ => deny AtSessionSave StatusOK msg_session
  | None =>
      emit (EvJSON AtSuccess {| http_status := StatusOK; success := true; message := "";
                      data := Some {| d_id := Id user;
                                      d_username := Username user;
                                      d_display_name := DisplayName user;
                                      d_role := Role user;
                                      d_status := Status user;
                                      d_group := Group user;
                                      d_wallet_address := WalletAddress user;
                                      d_tx_hash := txHash |} |})
  end.

(** The account the not-found branch builds before [user.Insert]. *)
Definition new_user (w : World) (walletAddress zkpHash : string) : User :=
  {| Id := 0;
     Username := abbreviateAddress walletAddress;
     DisplayName := abbreviateAddress walletAddress;
     Role := RoleCommonUser w;
     Status := UserStatusEnabled w;
     Group := "vip";
     WalletAddress := walletAddress;
     ZkpHash := zkpHash |}.

Definition with_ZkpHash (user : User) (zkpHash : string) : User :=
  {| Id := Id user; Username := Username user;
     DisplayName := DisplayName user; Role := Role user;
     Status := Status user; Group := Group user;
     WalletAddress := WalletAddress user; ZkpHash := zkpHash |}.

Definition ZkpOAuth (w : World) (c : Context) : M unit unit :=
  (* Check if ZKP private key is configured *)
  (if String.eqb (ZkpPrivateKey w) ""
   then deny AtNotConfigured StatusOK msg_not_configured
   else ret tt) ;;
  req <- match ShouldBindJSON c with
         | inr _ => deny AtBind StatusBadRequest "INVALID_PAYLOAD"
         | inl req => ret req
         end ;;
  (* Parse zkpCode *)
  payload <- match ParseZkpCode (ZkpCode req) with
             | inr _ => deny AtParse StatusBadRequest "INVALID_ZKP_CODE"
             | inl payload => ret payload
             end ;;
  (* Verify proof and write to chain *)
  vr <- call (VerifyProof w payload) ;;
  let walletAddress := fst (fst vr) in
  let txHash := snd (fst vr) in
  match snd vr with
  | Some e =>
      emit (EvSysLog ("ZKP verification failed: " ++ e)) ;;
      deny AtVerify StatusUnauthorized "PROOF_INVALID"
  | None =>
  (* Check club membership *)
  member <- call (IsClubMember w walletAddress) ;;
  (if negb member then deny AtMembership StatusForbidden "NOT_CLUB_MEMBER" else ret tt) ;;
  (* Get zkp hash from payload *)
  let zkpHash := Int_String (Input payload) in
  (* Check if user exists *)
  let user := User_zero walletAddress in
  let taken := IsWalletAddressAlreadyTaken w walletAddress in
  emit (EvIsWalletAddressAlreadyTaken walletAddress taken) ;;
  user <- (if taken then
             (* User exists, fill user data *)
             let filled := FillUserByWalletAddress w user in
             emit (EvFillUser user filled) ;;
             let user := fst filled in
             match snd filled with
             | Some e => deny AtFill StatusOK e
             | None =>
                 (* Check if user has been deleted *)
                 (if Id user =? 0 then deny AtDeleted StatusOK msg_deleted
                  else ret tt) ;;
                 (* Update zkp hash *)
                 let user := with_ZkpHash user zkpHash in
                 let updated := Update w user false in
                 emit (EvUpdateUser user updated) ;;
                 match snd updated with
                 | Some e =>
                     emit (EvSysLog ("Failed to update zkp hash: " ++ e))
                 | None => ret tt
                 end ;;
                 ret (fst updated)
             end
           else
             (* Create new user *)
             (if negb (RegisterEnabled w)
              then deny AtRegisterClosed StatusOK msg_register_closed
              else ret tt) ;;
             let user := new_user w walletAddress zkpHash in
             (* Check for affiliation code from request *)
             inviterId <- (if negb (String.eqb (AffCode req) "")
                           then
                             let r := GetUserIdByAffCode w (AffCode req) in
                             emit (EvGetUserIdByAffCode (AffCode req) r) ;;
                             ret (fst r)
                           else ret 0) ;;
             let inserted := Insert w user inviterId in
             emit (EvInsertUser user inviterId inserted) ;;
             match snd inserted with
             | Some e => deny AtInsert StatusOK e
             | None => ret (fst inserted)
             end) ;;
  (* Check user status *)
  (if negb (Status user =? UserStatusEnabled w) then deny AtStatus StatusOK msg_banned
   else ret tt) ;;
  (* Setup login session *)
  call (setupZkpLogin w user txHash)
  end.

End Controller.

(* ================================================================== *)
(** * Vocabulary of the statements                                      *)
(* ================================================================== *)

Import GoStd Service Controller.

(** ** The codec *)

(** The nine scalars of a payload in the order
    [A[0], A[1], B[0][0], B[0][1], B[1][0], B[1][1], C[0], C[1], Input[0]]. *)
Definition read_back (p : ZkpPayload) : list Z :=
  [fst (A p); snd (A p);
   fst (fst (B p)); snd (fst (B p)); fst (snd (B p)); snd (snd (B p));
   fst (C p); snd (C p); Input p].

(** Following the spec's words: a field is an arbitrary-precision
    non-negative integer, hexadecimal when it has the prefix [0x] and
    decimal otherwise. *)
Fixpoint all_bytes (f : Z -> bool) (s : string) : bool :=
  match s with
  | EmptyString => true
  | String c s' => f (byte_val c) && all_bytes f s'
  end.

Definition dec_digit (v : Z) : bool := (48 <=? v) && (v <=? 57).
Definition hex_digit (v : Z) : bool :=
  dec_digit v || ((97 <=? v) && (v <=? 102)) || ((65 <=? v) && (v <=? 70)).

Definition spec_field_ok (s : string) : bool :=
  if HasPrefix s "0x"
  then negb (String.eqb (drop 2 s) "") && all_bytes hex_digit (drop 2 s)
  else negb (String.eqb s "") && all_bytes dec_digit s.





(** ** The integer literals of Go, as [SetString] with base 0 reads them *)








(** ** Function bodies and their traces *)

(** [wp m g Q]: running [m] from [g] ends in a step, variables and a trace
    that satisfy [Q]. *)
Definition wp {R A} (m : M R A) (g : Globals)
    (Q : Step R A -> Globals -> list Event -> Prop) : Prop :=
  Q (fst (fst (m g))) (snd (fst (m g))) (snd (m g)).

(** The value of a call, whichever way the callee ended. *)
Definition called {R A} (s : Step A A) : Step R A :=
  match s with
  | Next a => Next a
  | Return a => Next a
  | Panic msg => Panic msg
  end.

(** How a step ends the function it belongs to. *)
Definition ended {R} (s : Step R R) : Outcome R :=
  match s with
  | Next r => Returned r
  | Return r => Returned r
  | Panic msg => Panicked msg
  end.

(** A read-only call of a contract: in [VerifyProof], the simulation. *)
Definition is_sim (e : Event) : bool :=
  match e with EvCallContract _ _ => true | _ => false end.

(** A transaction built, signed and sent. *)
Definition is_tx (e : Event) : bool :=
  match e with EvTransact _ _ _ _ => true | _ => false end.

(** The events of setting up the singletons. *)
Definition is_setup (e : Event) : bool :=
  match e with EvDial _ | EvAbiJSON _ => true | _ => false end.

(** A trace of set-up events only. *)
Definition quiet (t : list Event) : Prop :=
  forall e, In e t -> is_setup e = true.

(** The client variables agree: once dialled without error, the client is
    there. *)
Definition consistent (g : Globals) : Prop :=
  ethClientOnce g = true -> ethClientErr g = None ->
  exists c, ethClient g = Some c.

(** [g1] has the client variables of [g]. *)
Definition same_client (g g1 : Globals) : Prop :=
  ethClient g1 = ethClient g /\ ethClientOnce g1 = ethClientOnce g /\
  ethClientErr g1 = ethClientErr g.

(** A function body that returns and leaves the client variables
    consistent. *)
Definition returns_ok {R} (s : Step R R) (g : Globals) : Prop :=
  (exists r, ended s = Returned r) /\ consistent g.

(** The answer [r] of the simulation decodes, with the ABI [abi], to the
    address [a] and the validity [true]. *)
Definition sim_valid (w : World) (abi : ABI) (r : Bytes + error) (a : Address)
  : Prop :=
  exists result,
    r = inl result /\
    abi_Unpack w abi "verifyProof" result = inl [VAddress a; VBool true].

(** Every transaction of the trace comes after a simulation ([seen]: one
    came before the trace). *)
Fixpoint sim_first (seen : bool) (t : list Event) : bool :=
  match t with
  | [] => true
  | e :: t' =>
      if is_tx e then seen && sim_first seen t'
      else sim_first (seen || is_sim e) t'
  end.

(** What every run of [VerifyProof] satisfies. *)
Definition verify_post (w : World) (payload : ZkpPayload)
    (out : Outcome VerifyResult) (g' : Globals) (t : list Event) : Prop :=
  sim_first false t = true /\
  (forall msg r,
      In (EvCallContract msg r) t ->
      (forall a, ~ sim_valid w (zkpABI g') r a) ->
      existsb is_tx t = false /\ exists e, out = Returned ("", "", Some e)) /\
  (forall wa txh,
      out = Returned (wa, txh, None) ->
      exists msg r a opts tx,
        In (EvCallContract msg r) t /\
        sim_valid w (zkpABI g') r a /\
        wa = Address_Hex w a /\
        In (EvTransact opts "verifyProof" (verifyProof_args payload) (inl tx)) t /\
        txh = tx_hash_hex tx).

(** The number a big-endian byte string denotes. *)
Definition be_value (bs : list Z) : Z :=
  fold_left (fun acc b => acc * 256 + b) bs 0.

(** Variables after both singletons were set up without error. *)
Definition ready (g : Globals) : Prop :=
  ethClientOnce g = true /\ (exists c, ethClient g = Some c) /\
  ethClientErr g = None /\ abiOnce g = true.

(** Events of the service: the chain, the set-up, the system log. *)
Definition is_service (e : Event) : bool :=
  match e with
  | EvDial _ | EvAbiJSON _ | EvPendingNonceAt _ _ | EvSuggestGasPrice _
  | EvCallContract _ _ | EvTransact _ _ _ _ | EvSysLog _ => true
  | _ => false
  end.

(** A trace of events of the service only. *)
Definition service_only (t : list Event) : Prop :=
  forall e, In e t -> is_service e = true.

(** ** The login flow *)

(** A response written. *)
Definition is_response (e : Event) : bool :=
  match e with EvJSON _ _ => true | _ => false end.

(** A value set in the session, or the session saved. *)
Definition is_session (e : Event) : bool :=
  match e with EvSessionSet _ _ | EvSessionSave _ => true | _ => false end.

(** A write sent to the account store. *)
Definition is_store_write (e : Event) : bool :=
  match e with EvUpdateUser _ _ | EvInsertUser _ _ _ => true | _ => false end.

(** The reason codes the interface description lists. *)
Definition reason_codes : list string :=
  ["INVALID_PAYLOAD"; "INVALID_ZKP_CODE"; "PROOF_INVALID"; "NOT_CLUB_MEMBER";
   "FEATURE_DISABLED"; "REGISTRATION_DISABLED"; "ACCOUNT_DELETED";
   "ACCOUNT_DISABLED"; "PERSIST_ERROR"; "SESSION_ERROR"].

(** A run that returns has written exactly one response. *)
Definition one_response (out : Outcome unit) (t : list Event) : Prop :=
  out = Returned tt -> exists site r, filter is_response t = [EvJSON site r].

(** The body of a denial. *)
Definition denial (status : Z) (msg : string) : Response :=
  {| http_status := status; success := false; message := msg; data := None |}.

(** A trace in which the session is not touched. *)
Definition session_free (t : list Event) : Prop :=
  forall ev, In ev t -> is_session ev = false.

(** What every run of [ZkpOAuth] satisfies after a failed update and after
    a failed insert. *)
Definition persistence_post (w : World) (t : list Event) : Prop :=
  (forall u u' e,
      In (EvUpdateUser u (u', Some e)) t ->
      In (EvSysLog ("Failed to update zkp hash: " ++ e)) t /\
      (Status u' = UserStatusEnabled w ->
       exists r, In (EvSessionSave r) t /\
                 (r = None ->
                  exists resp, In (EvJSON AtSuccess resp) t /\
                               success resp = true)) /\
      (Status u' <> UserStatusEnabled w ->
       In (EvJSON AtStatus (denial StatusOK msg_banned)) t /\
       session_free t)) /\
  (forall u i u' e,
      In (EvInsertUser u i (u', Some e)) t ->
      In (EvJSON AtInsert (denial StatusOK e)) t /\
      session_free t /\
      (forall site r, In (EvJSON site r) t -> success r = false) /\
      (forall ev, In ev t -> is_store_write ev = true ->
                  ev = EvInsertUser u i (u', Some e))).

(** ** A sample environment *)

Definition demo_wallet : string := "0xAAAAaaaaAAAAaaaaAAAAaaaaAAAAaaaaAAAA123A".

Definition demo_verifier_abi : ABI :=
  {| abi_methods := ["verifyProof"; "getHashStatus"] |}.
Definition demo_membership_abi : ABI :=
  {| abi_methods := ["checkDetailedMembership"] |}.

(** An account as the sample store returns it. *)
Definition stored (u : User) (id : Z) : User :=
  {| Id := id; Username := Username u; DisplayName := DisplayName u;
     Role := Role u; Status := Status u; Group := Group u;
     WalletAddress := WalletAddress u; ZkpHash := ZkpHash u |}.

(** A chain node that answers every call, a verifier that derives the
    address 170 and reports [valid], a membership contract that reports a
    permanent member, and an account store that knows the wallet when
    [taken]; [abi_error], [update_error] and [insert_error] make the
    parse of the verifier ABI, the update and the insert fail. *)
Definition demo_world_of (key : string) (abi_error : option error)
    (valid taken : bool) (update_error insert_error : option error) : World :=
  {| ZkpPrivateKey := key;
     RegisterEnabled := true;
     RoleCommonUser := 1;
     UserStatusEnabled := 1;
     ethclient_Dial := fun _ => inl 1;
     abi_JSON := fun t =>
       match t, abi_error with
       | zkpContractABI, Some e => (ABI_zero, Some e)
       | zkpContractABI, None => (demo_verifier_abi, None)
       | membershipQueryABI, _ => (demo_membership_abi, None)
       end;
     crypto_HexToECDSA := fun _ => inl 7;
     crypto_PubkeyToAddress := fun _ => 77;
     bind_NewKeyedTransactorWithChainID := fun _ _ => None;
     HexToAddress := fun _ => 5;
     Address_Hex := fun a => if a =? 170 then demo_wallet else "0x0";
     abi_Pack := fun _ _ _ => inl [1];
     abi_Unpack := fun _ method _ =>
       if String.eqb method "verifyProof"
       then inl [VAddress 170; VBool valid]
       else if String.eqb method "getHashStatus"
       then inl [VBool true; VAddress 170; VBool true]
       else inl [VBool true; VBool false; VBool false; VBool false];
     PendingNonceAt := fun _ _ => inl 3;
     SuggestGasPrice := fun _ => inl 1000;
     CallContract := fun _ _ => inl [0];
     Transact := fun _ _ _ _ _ _ => inl {| tx_hash_hex := "0xfeed" |};
     IsWalletAddressAlreadyTaken := fun _ => taken;
     FillUserByWalletAddress := fun u =>
       ({| Id := 7; Username := "0xAAAA...123A"; DisplayName := "0xAAAA...123A";
           Role := 1; Status := 1; Group := "vip";
           WalletAddress := WalletAddress u; ZkpHash := "5" |}, None);
     Update := fun u _ => (u, update_error);
     Insert := fun u _ =>
       match insert_error with
       | Some e => (u, Some e)
       | None => (stored u 8, None)
       end;
     GetUserIdByAffCode := fun _ => (0, None);
     session_Save := fun _ => None |}.

Definition demo_world : World :=
  demo_world_of "0xabc" None true false None None.

Definition demo_payload : ZkpPayload :=
  {| A := (1, 2); B := ((3, 4), (5, 6)); C := (7, 8); Input := 9 |}.

Definition demo_request : Context :=
  {| ShouldBindJSON := inl {| ZkpCode := "1,2,3,4,5,6,7,8,9"; AffCode := "" |} |}.

(** The package variables once both singletons are set up. *)
Definition Globals_ready : Globals :=
  {| ethClient := Some 1; ethClientOnce := true; ethClientErr := None;
     zkpABI := demo_verifier_abi; membershipABI := demo_membership_abi;
     abiOnce := true |}.

(** 2^256 in decimal: the least number that does not fit 32 bytes. *)
Definition two_pow_256 : string :=
  "115792089237316195423570985008687907853269984665640564039457584007913129639936".

(** The trace of a successful verification in the sample environment. *)
Definition demo_verify_trace : list Event :=
  Eval vm_compute in snd (run (VerifyProof demo_world demo_payload) Globals_init).

(** The sample environment with a store whose insert fails, and the
    trace of a login there. *)
Definition insert_failing_world : World :=
  demo_world_of "0xabc" None true false None (Some "database is locked").

Definition insert_failing_trace : list Event :=
  Eval vm_compute in snd (run (ZkpOAuth insert_failing_world demo_request) Globals_init).

(** The sample environment with a known wallet and a store whose update
    fails, and the trace of a login there. *)
Definition update_failing_world : World :=
  demo_world_of "0xabc" None true true (Some "database is locked") None.

Definition update_failing_trace : list Event :=
  Eval vm_compute in snd (run (ZkpOAuth update_failing_world demo_request) Globals_init).

(** The trace of a first login in the sample environment. *)
Definition demo_login_trace : list Event :=
  Eval vm_compute in snd (run (ZkpOAuth demo_world demo_request) Globals_init).

(** ** The login flow, step by step *)

(** A call of the account store, read or write. *)
Definition is_store (e : Event) : bool :=
  match e with
  | EvIsWalletAddressAlreadyTaken _ _ | EvGetUserIdByAffCode _ _
  | EvFillUser _ _ | EvUpdateUser _ _ | EvInsertUser _ _ _ => true
  | _ => false
  end.

(** The places that answer before [VerifyProof] is called. *)
Definition before_verify (site : Site) : bool :=
  match site with
  | AtNotConfigured | AtBind | AtParse => true
  | _ => false
  end.

(** The places that answer after [VerifyProof] returned without error. *)
Definition past_verify (site : Site) : bool :=
  match site with
  | AtNotConfigured | AtBind | AtParse | AtVerify => false
  | _ => true
  end.

(** The node accepted a transaction. *)
Definition is_accepted (e : Event) : bool :=
  match e with EvTransact _ _ _ (inl _) => true | _ => false end.

(** What a run of [VerifyProof] tells its caller about the transaction. *)
Definition commit_post (payload : ZkpPayload) (out : Outcome VerifyResult)
    (t : list Event) : Prop :=
  match out with
  | Returned (_, txh, None) =>
      exists opts tx,
        In (EvTransact opts "verifyProof" (verifyProof_args payload) (inl tx)) t /\
        txh = tx_hash_hex tx
  | _ => existsb is_accepted t = false
  end.

(** The session calls of [setupZkpLogin] for the account [u], [r] being
    what [session.Save] answered. *)
Definition session_calls (u : User) (r : option error) : list Event :=
  [EvSessionSet "id" (SInt (Id u));
   EvSessionSet "username" (SStr (Username u));
   EvSessionSet "role" (SInt (Role u));
   EvSessionSet "status" (SInt (Status u));
   EvSessionSet "group" (SStr (Group u));
   EvSessionSave r].

(** The account [u] is what the store returned from the one write of the
    trace. *)
Definition stored_by (t : list Event) (u : User) : Prop :=
  (exists u0 e, In (EvUpdateUser u0 (u, e)) t) \/
  (exists u0 i, In (EvInsertUser u0 i (u, None)) t).

(** The reason codes the handler writes. *)
Definition written_codes : list string :=
  ["INVALID_PAYLOAD"; "INVALID_ZKP_CODE"; "PROOF_INVALID"; "NOT_CLUB_MEMBER"].

(** [u'] is [u] but for its [ZkpHash]. *)
Definition same_but_ZkpHash (u u' : User) : Prop :=
  Id u' = Id u /\ Username u' = Username u /\ DisplayName u' = DisplayName u /\
  Role u' = Role u /\ Status u' = Status u /\ Group u' = Group u /\
  WalletAddress u' = WalletAddress u.

(** ** What makes the handler deny *)

(** The message of a denial, by what made the handler deny in the run of
    [ZkpOAuth w c] from [g] with trace [t]: the configuration, the request,
    what [VerifyProof] and [IsClubMember] returned, and what the account
    store and the session answered. *)
Inductive denial_cause (w : World) (c : Context) (g : Globals)
    (t : list Event) : string -> Prop :=
| cause_not_configured :
    ZkpPrivateKey w = "" ->
    denial_cause w c g t msg_not_configured
| cause_payload e :
    ZkpPrivateKey w <> "" ->
    ShouldBindJSON c = inr e ->
    denial_cause w c g t "INVALID_PAYLOAD"
| cause_code req e :
    ZkpPrivateKey w <> "" ->
    ShouldBindJSON c = inl req ->
    ParseZkpCode (ZkpCode req) = inr e ->
    denial_cause w c g t "INVALID_ZKP_CODE"
| cause_proof req payload wallet txHash e g1 t1 :
    ZkpPrivateKey w <> "" ->
    ShouldBindJSON c = inl req ->
    ParseZkpCode (ZkpCode req) = inl payload ->
    run (VerifyProof w payload) g = (Returned (wallet, txHash, Some e), g1, t1) ->
    denial_cause w c g t "PROOF_INVALID"
| cause_membership req payload wallet txHash g1 t1 g2 t2 :
    ZkpPrivateKey w <> "" ->
    ShouldBindJSON c = inl req ->
    ParseZkpCode (ZkpCode req) = inl payload ->
    run (VerifyProof w payload) g = (Returned (wallet, txHash, None), g1, t1) ->
    run (IsClubMember w wallet) g1 = (Returned false, g2, t2) ->
    denial_cause w c g t "NOT_CLUB_MEMBER"
| cause_load u u' e :
    In (EvFillUser u (u', Some e)) t ->
    denial_cause w c g t e
| cause_deleted u u' :
    In (EvFillUser u (u', None)) t ->
    Id u' = 0 ->
    denial_cause w c g t msg_deleted
| cause_registration wallet :
    In (EvIsWalletAddressAlreadyTaken wallet false) t ->
    RegisterEnabled w = false ->
    denial_cause w c g t msg_register_closed
| cause_insert u i u' e :
    In (EvInsertUser u i (u', Some e)) t ->
    denial_cause w c g t e
| cause_disabled u :
    stored_by t u ->
    Status u <> UserStatusEnabled w ->
    denial_cause w c g t msg_banned
| cause_session e :
    In (EvSessionSave (Some e)) t ->
    denial_cause w c g t msg_session.

(** The HTTP status of a response, by what the run of [ZkpOAuth w c] from
    [g] with trace [t] met: the request, what [VerifyProof] and
    [IsClubMember] returned, or else a missing key or the account store
    reached. *)
Inductive status_cause (w : World) (c : Context) (g : Globals)
    (t : list Event) : Z -> Prop :=
| status_payload e :
    ZkpPrivateKey w <> "" ->
    ShouldBindJSON c = inr e ->
    status_cause w c g t StatusBadRequest
| status_code req e :
    ZkpPrivateKey w <> "" ->
    ShouldBindJSON c = inl req ->
    ParseZkpCode (ZkpCode req) = inr e ->
    status_cause w c g t StatusBadRequest
| status_proof req payload wallet txHash e g1 t1 :
    ZkpPrivateKey w <> "" ->
    ShouldBindJSON c = inl req ->
    ParseZkpCode (ZkpCode req) = inl payload ->
    run (VerifyProof w payload) g = (Returned (wallet, txHash, Some e), g1, t1) ->
    status_cause w c g t StatusUnauthorized
| status_membership req payload wallet txHash g1 t1 g2 t2 :
    ZkpPrivateKey w <> "" ->
    ShouldBindJSON c = inl req ->
    ParseZkpCode (ZkpCode req) = inl payload ->
    run (VerifyProof w payload) g = (Returned (wallet, txHash, None), g1, t1) ->
    run (IsClubMember w wallet) g1 = (Returned false, g2, t2) ->
    status_cause w c g t StatusForbidden
| status_not_configured :
    ZkpPrivateKey w = "" ->
    status_cause w c g t StatusOK
| status_store wallet taken :
    In (EvIsWalletAddressAlreadyTaken wallet taken) t ->
    status_cause w c g t StatusOK.

(** ** The account of a new wallet and the status check *)

(** The account [u] was built by the not-found branch for the request [c]. *)
Definition constructed (w : World) (c : Context) (t : list Event) (u : User)
  : Prop :=
  Status u = UserStatusEnabled w /\
  Role u = RoleCommonUser w /\
  Group u = "vip" /\
  Username u = abbreviateAddress (WalletAddress u) /\
  DisplayName u = abbreviateAddress (WalletAddress u) /\
  (exists req payload,
      ShouldBindJSON c = inl req /\
      ParseZkpCode (ZkpCode req) = inl payload /\
      ZkpHash u = Int_String (Input payload)) /\
  In (EvIsWalletAddressAlreadyTaken (WalletAddress u) false) t.

(** What every run of [ZkpOAuth] satisfies about the account it inserts
    and about the status check that follows. *)
Definition provisioning_post (w : World) (c : Context) (t : list Event)
  : Prop :=
  (forall u i r, In (EvInsertUser u i r) t -> constructed w c t u) /\
  (forall u i u',
      In (EvInsertUser u i (u', None)) t ->
      (Status u' = Status u ->
       (forall site r, In (EvJSON site r) t -> message r <> msg_banned) /\
       exists r, filter is_session t = session_calls u' r) /\
      (Status u' <> Status u ->
       In (EvJSON AtStatus (denial StatusOK msg_banned)) t /\
       (forall site r, In (EvJSON site r) t ->
                       r = denial StatusOK msg_banned) /\
       session_free t)) /\
  (forall r,
      In (EvJSON AtStatus r) t ->
      r = denial StatusOK msg_banned /\
      ((exists wallet u0 u e,
           In (EvIsWalletAddressAlreadyTaken wallet true) t /\
           In (EvUpdateUser u0 (u, e)) t /\
           Status u <> UserStatusEnabled w) \/
       (exists u0 i u,
           In (EvInsertUser u0 i (u, None)) t /\ Status u <> Status u0))).

(** ** Requests to the chain node *)

Inductive Request := ReqNonce | ReqGasPrice | ReqCall | ReqSend.

Definition request_of (e : Event) : option Request :=
  match e with
  | EvPendingNonceAt _ _ => Some ReqNonce
  | EvSuggestGasPrice _ => Some ReqGasPrice
  | EvCallContract _ _ => Some ReqCall
  | EvTransact _ _ _ _ => Some ReqSend
  | _ => None
  end.

(** The requests of a trace, in the order they were made. *)
Fixpoint requests (t : list Event) : list Request :=
  match t with
  | [] => []
  | e :: t' =>
      match request_of e with
      | Some r => r :: requests t'
      | None => requests t'
      end
  end.

(** The key text as [VerifyProof] hands it to [crypto.HexToECDSA]. *)
Definition key_text (w : World) : string :=
  if HasPrefix (ZkpPrivateKey w) "0x" then drop 2 (ZkpPrivateKey w)
  else ZkpPrivateKey w.

(** What the requests of a run of [VerifyProof] are. *)
Definition verify_requests (out : Outcome VerifyResult) (t : list Event)
  : Prop :=
  (exists rest,
      [ReqNonce; ReqGasPrice; ReqCall; ReqSend] = (requests t ++ rest)%list) /\
  (forall wa txh,
      out = Returned (wa, txh, None) ->
      requests t = [ReqNonce; ReqGasPrice; ReqCall; ReqSend]).

(** A trace that asks the chain node for at most one read-only call, sent
    with [From] unset. *)
Definition read_only (t : list Event) : Prop :=
  (requests t = [] \/ requests t = [ReqCall]) /\
  forall msg r, In (EvCallContract msg r) t -> msg_From msg = None.

(** [bs] is the 32-byte big-endian form of the absolute value of [n]. *)
Definition bytes32_of (n : Z) (bs : list Z) : Prop :=
  Z.abs n < 2 ^ 256 /\ List.length bs = 32%nat /\
  Forall (fun b => 0 <= b < 256) bs /\ be_value bs = Z.abs n.

(** What the requests of a run of [IsClubMember] are. *)
Definition member_requests (walletAddress : string) (out : Outcome bool)
    (t : list Event) : Prop :=
  match out with
  | Returned true =>
      requests t = if String.eqb walletAddress "" then [] else [ReqCall]
  | _ => requests t = [] \/ requests t = [ReqCall]
  end.

(** ** The singletons over the life of a process *)

(** The number of dials of a trace, and of parses of each ABI text. *)
Definition dials (t : list Event) : nat :=
  List.length (filter (fun e => match e with EvDial _ => true | _ => false end) t).

Definition parses (a : AbiText) (t : list Event) : nat :=
  List.length
    (filter (fun e => match e, a with
                      | EvAbiJSON zkpContractABI, zkpContractABI => true
                      | EvAbiJSON membershipQueryABI, membershipQueryABI => true
                      | _, _ => false
                      end) t).

(** What a [sync.Once] still allows: one run while it is not done. *)
Definition pending (done : bool) : nat := if done then 0 else 1.

(** Every dial and every parse of the trace [t] from [g] to [g'] used up
    the [sync.Once] that guards it. *)
Definition once_inv (g : Globals) (t : list Event) (g' : Globals) : Prop :=
  (dials t + pending (ethClientOnce g') = pending (ethClientOnce g))%nat /\
  (parses zkpContractABI t + pending (abiOnce g') = pending (abiOnce g))%nat /\
  (parses membershipQueryABI t + pending (abiOnce g')
   <= pending (abiOnce g))%nat.

(** The handler run for each request of a list in turn, each run starting
    from the package variables the run before it left: a process that
    serves the requests one after another. *)
Fixpoint serve (w : World) (cs : list Context) (g : Globals)
  : Globals * list Event :=
  match cs with
  | [] => (g, [])
  | c :: cs' =>
      let '(_, g1, t1) := run (ZkpOAuth w c) g in
      let '(g2, t2) := serve w cs' g1 in
      (g2, (t1 ++ t2)%list)
  end.

(** From [g] to [g'] the trace [t] dials and parses only what was still
    to be done, and marks it done. *)
Definition once_only (g : Globals) (t : list Event) (g' : Globals) : Prop :=
  (ethClientOnce g = true -> ethClientOnce g' = true /\ dials t = 0%nat) /\
  (abiOnce g = true -> abiOnce g' = true /\ forall a, parses a t = 0%nat) /\
  (dials t <= 1)%nat /\ (forall a, parses a t <= 1)%nat /\
  (dials t = 1%nat -> ethClientOnce g' = true) /\
  (forall a, parses a t = 1%nat -> abiOnce g' = true).

(** A call of a function of the service or of the handler. *)
Inductive Call :=
| CallGetEthClient
| CallGetABIs
| CallVerifyProof (payload : ZkpPayload)
| CallGetHashStatus (zkpHash : string)
| CallIsZkpValid (zkpHash : string)
| CallCheckClubMembership (walletAddress clubName : string)
| CallIsClubMember (walletAddress : string)
| CallZkpOAuth (c : Context).

(** The package variables a run leaves, and its trace. *)
Definition effect {R} (f : M R R) (g : Globals) : Globals * list Event :=
  (snd (fst (run f g)), snd (run f g)).

Definition perform (w : World) (k : Call) (g : Globals)
  : Globals * list Event :=
  match k with
  | CallGetEthClient => effect (getEthClient w) g
  | CallGetABIs => effect (getABIs w) g
  | CallVerifyProof payload => effect (VerifyProof w payload) g
  | CallGetHashStatus zkpHash => effect (GetHashStatus w zkpHash) g
  | CallIsZkpValid zkpHash => effect (IsZkpValid w zkpHash) g
  | CallCheckClubMembership walletAddress clubName =>
      effect (CheckClubMembership w walletAddress clubName) g
  | CallIsClubMember walletAddress => effect (IsClubMember w walletAddress) g
  | CallZkpOAuth c => effect (ZkpOAuth w c) g
  end.

(** A process: the calls of a list made one after another, each from the
    package variables the call before it left; the variables at the end and
    the events of all the calls. *)
Fixpoint process (w : World) (ks : list Call) (g : Globals)
  : Globals * list Event :=
  match ks with
  | [] => (g, [])
  | k :: ks' =>
      let '(g1, t1) := perform w k g in
      let '(g2, t2) := process w ks' g1 in
      (g2, (t1 ++ t2)%list)
  end.

(** Once [abiOnce] is done, the package variables hold the descriptors [a]
    and [m]. *)
Definition abi_held (a m : ABI) (g : Globals) : Prop :=
  abiOnce g = true -> zkpABI g = a /\ membershipABI g = m.

(** From [g] to [g'] the trace [t] used up each [sync.Once] it ran, it
    parsed the two texts together, and the descriptors are held after it
    when they were before. *)
Definition abi_kept (a m : ABI) (g : Globals) (t : list Event) (g' : Globals)
  : Prop :=
  once_inv g t g' /\
  parses membershipQueryABI t = parses zkpContractABI t /\
  (abi_held a m g -> abi_held a m g').

(** ** Printed payloads *)

(** [strings.Join(fields, ",")] *)
Fixpoint join_commas (fields : list string) : string :=
  match fields with
  | [] => ""
  | [f] => f
  | f :: rest => f ++ "," ++ join_commas rest
  end.

(** A byte of a decimal numeral: a digit or the minus sign. *)
Definition numeral_byte (v : Z) : bool := dec_digit v || (v =? 45).

(** A byte of ASCII that is no white space. *)
Definition solid_byte (v : Z) : bool := (v <? 128) && negb (asciiSpace v).

(** Fields with white space around them: [pads] gives what stands before
    and after each field. *)
Definition pad_fields (fields : list string) (pads : list (string * string))
  : list string :=
  map (fun x => fst (snd x) ++ fst x ++ snd (snd x)) (combine fields pads).

(** [h] is the field [f] with ASCII white space around it. *)
Definition padded_of (h f : string) : Prop :=
  exists a b, all_bytes asciiSpace a = true /\ all_bytes asciiSpace b = true /\
              h = a ++ f ++ b.

(** ** Zero-width characters in a code *)

(** The four characters [cleanStr] removes: U+200B, U+200C, U+200D and
    U+FEFF. *)
Inductive zero_width := ZWSP | ZWNJ | ZWJ | BOM.

Definition zero_width_text (k : zero_width) : string :=
  match k with
  | ZWSP => u200B
  | ZWNJ => u200C
  | ZWJ => u200D
  | BOM => uFEFF
  end.

(** A text made of bytes and zero-width characters. *)
Inductive token := Plain (c : ascii) | Invisible (k : zero_width).

Fixpoint render (ts : list token) : string :=
  match ts with
  | [] => ""
  | Plain c :: ts' => String c (render ts')
  | Invisible k :: ts' => zero_width_text k ++ render ts'
  end.

(** The text without its zero-width characters. *)
Fixpoint visible (ts : list token) : string :=
  match ts with
  | [] => ""
  | Plain c :: ts' => String c (visible ts')
  | Invisible _ :: ts' => visible ts'
  end.

(** A token whose byte, if it is one, is of ASCII. *)
Definition ascii_token (t : token) : bool :=
  match t with
  | Plain c => byte_val c <? 128
  | Invisible _ => true
  end.

(** The tokens other than the zero-width character [k]. *)
Definition other_than (k : zero_width) (t : token) : bool :=
  match t, k with
  | Invisible ZWSP, ZWSP | Invisible ZWNJ, ZWNJ
  | Invisible ZWJ, ZWJ | Invisible BOM, BOM => false
  | _, _ => true
  end.

(** ** More sample runs *)

(** A request whose code has three fields. *)
Definition short_code_request : Context :=
  {| ShouldBindJSON := inl {| ZkpCode := "1,2,3"; AffCode := "" |} |}.

(** A request that carries an invitation code. *)
Definition invited_request : Context :=
  {| ShouldBindJSON := inl {| ZkpCode := "1,2,3,4,5,6,7,8,9"; AffCode := "abcd" |} |}.

(** The sample environment with a verifier that reports the proof invalid,
    and the trace of a login there. *)
Definition refusing_world : World :=
  demo_world_of "0xabc" None false false None None.

Definition refused_trace : list Event :=
  Eval vm_compute in snd (run (ZkpOAuth refusing_world demo_request) Globals_init).

(** The sample environment with an endpoint that cannot be dialled, and
    the package variables after the first attempt. *)
Definition offline_world : World :=
  {| ZkpPrivateKey := ZkpPrivateKey demo_world;
     RegisterEnabled := RegisterEnabled demo_world;
     RoleCommonUser := RoleCommonUser demo_world;
     UserStatusEnabled := UserStatusEnabled demo_world;
     ethclient_Dial := fun _ => inr "dial tcp: i/o timeout";
     abi_JSON := abi_JSON demo_world;
     crypto_HexToECDSA := crypto_HexToECDSA demo_world;
     crypto_PubkeyToAddress := crypto_PubkeyToAddress demo_world;
     bind_NewKeyedTransactorWithChainID :=
       bind_NewKeyedTransactorWithChainID demo_world;
     HexToAddress := HexToAddress demo_world;
     Address_Hex := Address_Hex demo_world;
     abi_Pack := abi_Pack demo_world;
     abi_Unpack := abi_Unpack demo_world;
     PendingNonceAt := PendingNonceAt demo_world;
     SuggestGasPrice := SuggestGasPrice demo_world;
     CallContract := CallContract demo_world;
     Transact := Transact demo_world;
     IsWalletAddressAlreadyTaken := IsWalletAddressAlreadyTaken demo_world;
     FillUserByWalletAddress := FillUserByWalletAddress demo_world;
     Update := Update demo_world;
     Insert := Insert demo_world;
     GetUserIdByAffCode := GetUserIdByAffCode demo_world;
     session_Save := session_Save demo_world |}.

Definition Globals_offline : Globals :=
  Eval vm_compute in snd (fst (run (getEthClient offline_world) Globals_init)).

(** The success response of the first login in the sample environment. *)
Definition demo_success : Response :=
  {| http_status := 200; success := true; message := "";
     data := Some {| d_id := 8;
                     d_username := "0xAAAA...123A";
                     d_display_name := "0xAAAA...123A";
                     d_role := 1;
                     d_status := 1;
                     d_group := "vip";
                     d_wallet_address := demo_wallet;
                     d_tx_hash := "0xfeed" |} |}.

(** The options of the transaction of the sample verification. *)
Definition demo_opts : TransactOpts :=
  {| opt_From := 77; opt_chainID := 8453; opt_Nonce := Some 3;
     opt_GasPrice := Some 1000; opt_GasLimit := 300000 |}.

(** The sample environment with a node that refuses the transaction. *)
Definition unfunded_world : World :=
  {| ZkpPrivateKey := ZkpPrivateKey demo_world;
     RegisterEnabled := RegisterEnabled demo_world;
     RoleCommonUser := RoleCommonUser demo_world;
     UserStatusEnabled := UserStatusEnabled demo_world;
     ethclient_Dial := ethclient_Dial demo_world;
     abi_JSON := abi_JSON demo_world;
     crypto_HexToECDSA := crypto_HexToECDSA demo_world;
     crypto_PubkeyToAddress := crypto_PubkeyToAddress demo_world;
     bind_NewKeyedTransactorWithChainID :=
       bind_NewKeyedTransactorWithChainID demo_world;
     HexToAddress := HexToAddress demo_world;
     Address_Hex := Address_Hex demo_world;
     abi_Pack := abi_Pack demo_world;
     abi_Unpack := abi_Unpack demo_world;
     PendingNonceAt := PendingNonceAt demo_world;
     SuggestGasPrice := SuggestGasPrice demo_world;
     CallContract := CallContract demo_world;
     Transact := fun _ _ _ _ _ _ => inr "insufficient funds for gas";
     IsWalletAddressAlreadyTaken := IsWalletAddressAlreadyTaken demo_world;
     FillUserByWalletAddress := FillUserByWalletAddress demo_world;
     Update := Update demo_world;
     Insert := Insert demo_world;
     GetUserIdByAffCode := GetUserIdByAffCode demo_world;
     session_Save := session_Save demo_world |}.

(** The sample environment with a store whose insert returns the account
    suspended (status 2), and the trace of a first login there. *)
Definition suspending_world : World :=
  {| ZkpPrivateKey := ZkpPrivateKey demo_world;
     RegisterEnabled := RegisterEnabled demo_world;
     RoleCommonUser := RoleCommonUser demo_world;
     UserStatusEnabled := UserStatusEnabled demo_world;
     ethclient_Dial := ethclient_Dial demo_world;
     abi_JSON := abi_JSON demo_world;
     crypto_HexToECDSA := crypto_HexToECDSA demo_world;
     crypto_PubkeyToAddress := crypto_PubkeyToAddress demo_world;
     bind_NewKeyedTransactorWithChainID :=
       bind_NewKeyedTransactorWithChainID demo_world;
     HexToAddress := HexToAddress demo_world;
     Address_Hex := Address_Hex demo_world;
     abi_Pack := abi_Pack demo_world;
     abi_Unpack := abi_Unpack demo_world;
     PendingNonceAt := PendingNonceAt demo_world;
     SuggestGasPrice := SuggestGasPrice demo_world;
     CallContract := CallContract demo_world;
     Transact := Transact demo_world;
     IsWalletAddressAlreadyTaken := IsWalletAddressAlreadyTaken demo_world;
     FillUserByWalletAddress := FillUserByWalletAddress demo_world;
     Update := Update demo_world;
     Insert := fun u _ =>
       ({| Id := 8; Username := Username u; DisplayName := DisplayName u;
           Role := Role u; Status := 2; Group := Group u;
           WalletAddress := WalletAddress u; ZkpHash := ZkpHash u |}, None);
     GetUserIdByAffCode := GetUserIdByAffCode demo_world;
     session_Save := session_Save demo_world |}.

Definition suspended_trace : list Event :=
  Eval vm_compute in snd (run (ZkpOAuth suspending_world demo_request) Globals_init).

(** A line feed. *)
Definition line_feed : string := String (byte_of 10) "".

(* ================================================================== *)
(** * Lemmas and theorems                                               *)
(* ================================================================== *)

(** ** The proof codec *)

Lemma parse_values_all (parts : list string) (vals : list Z) :
  forall i,
    map (fun part => SetString part 0) parts = map Some vals ->
    parse_values i parts = inl vals.
Proof.
  revert vals.
  induction parts as [|part rest IH]; intros [|v vals] i H; simpl in H;
    try discriminate.
  - reflexivity.
  - injection H as Hv Hrest. simpl. rewrite Hv.
    now rewrite (IH vals (S i) Hrest).
Qed.




Lemma parse_values_refused (parts : list string) :
  forall i j,
    (j < List.length parts)%nat ->
    SetString (nth j parts "") 0 = None ->
    (forall k, (k < j)%nat -> SetString (nth k parts "") 0 <> None) ->
    parse_values i parts = inr (i + j)%nat.
Proof.
  induction parts as [|part rest IH]; intros i j Hlen Hn Hb; simpl in *.
  - lia.
  - destruct j as [|j].
    + rewrite Hn. now rewrite Nat.add_0_r.
    + destruct (SetString part 0) eqn:Ev.
      * rewrite (IH (S i) j).
        -- f_equal. clear. lia.
        -- clear - Hlen. lia.
        -- exact Hn.
        -- intros k Hk. apply (Hb (S k)). clear - Hk. lia.
      * exfalso. apply (Hb 0%nat); [lia|exact Ev].
Qed.

(** C4.  When the cleaned text splits into exactly nine fields and every
    trimmed field parses, [ParseZkpCode] returns a payload, and reading it
    back in the order A[0], A[1], B[0][0], B[0][1], B[1][0], B[1][1], C[0],
    C[1], Input[0] gives the nine parsed values in the order of the input.
    [ParseZkpCode] is a function of its argument alone. *)
Theorem ParseZkpCode_positional (code : string) (vals : list Z) :
  List.length (trimmed_parts code) = 9%nat ->
  map (fun part => SetString part 0) (trimmed_parts code) = map Some vals ->
  exists p, ParseZkpCode code = inl p /\ read_back p = vals.
Proof.
  intros Hlen Hvals.
  unfold ParseZkpCode. unfold trimmed_parts in *.
  rewrite List.length_map in Hlen. rewrite Hlen. simpl.
  rewrite (parse_values_all _ vals 0 Hvals).
  eexists. split; [reflexivity|].
  assert (Hl : List.length vals = 9%nat).
  { apply (f_equal (@List.length _)) in Hvals.
    rewrite !List.length_map in Hvals. lia. }
  do 9 (destruct vals as [|? vals]; [discriminate|]).
  destruct vals; [reflexivity|discriminate].
Qed.

(** ** The integer syntax of [SetString(s, 0)] *)




















(** ** Format errors of the codec *)

Lemma to_uint_nonnil (n : nat) : Nat.to_uint n <> Decimal.Nil.
Proof.
  rewrite <- (DecimalNat.Unsigned.of_to n) at 1.
  rewrite DecimalNat.Unsigned.to_of. apply DecimalFacts.unorm_nonnil.
Qed.






(** ** Fields without a leading zero and without underscores *)













(** A leading zero makes the scanner read octal digits: [017] is read as
    15 and [09] is refused, though both are decimal numerals. *)
Remark ParseZkpCode_leading_zero :
  (ParseZkpCode "017,2,3,4,5,6,7,8,9"
   = inl {| A := (15, 2); B := ((3, 4), (5, 6)); C := (7, 8); Input := 9 |}
   /\ forallb spec_field_ok (trimmed_parts "017,2,3,4,5,6,7,8,9") = true)
  /\
  (ParseZkpCode "09,2,3,4,5,6,7,8,9" = inr (err_field_index 0)
   /\ forallb spec_field_ok (trimmed_parts "09,2,3,4,5,6,7,8,9") = true).
Proof. vm_compute. repeat split. Qed.

(** ** The ABI singleton *)

Lemma getABIs_after_first (w : World) (g : Globals) :
  abiOnce g = true ->
  run (getABIs w) g = (Returned (zkpABI g, membershipABI g, None), g, []).
Proof.
  intros H. unfold run, getABIs, bind, get, ret. rewrite H. reflexivity.
Qed.

Lemma getABIs_marks_done (w : World) (g : Globals) :
  abiOnce (snd (fst (run (getABIs w) g))) = true.
Proof.
  unfold run, getABIs, getABIs_init, bind, get, ret, call.
  destruct (abiOnce g) eqn:E; cbn; [exact E|].
  destruct (abi_JSON w zkpContractABI) as [a [e|]]; cbn; [reflexivity|].
  destruct (abi_JSON w membershipQueryABI) as [m e']; cbn. reflexivity.
Qed.

(** The client singleton keeps what the first call got, the error
    included: a second call returns the same pair and dials no more. *)
Lemma getEthClient_cached (w : World) (g : Globals) :
  run (getEthClient w) (snd (fst (run (getEthClient w) g)))
  = (fst (fst (run (getEthClient w) g)), snd (fst (run (getEthClient w) g)),
     []).
Proof.
  unfold run, getEthClient, bind, get, put, ret, emit.
  destruct (ethClientOnce g) eqn:E; cbn; [now rewrite E|].
  destruct (ethclient_Dial w ZkpRpcUrl); reflexivity.
Qed.

(** Should the parse of the verifier ABI fail, the first call of [getABIs]
    would return that error and the second call no error, with the ABIs
    that were never parsed.  The two texts are constants of the file and
    well formed, so no run of the program gets there. *)
Remark getABIs_error_not_cached (w : World) (a : ABI) (e : error) :
  abi_JSON w zkpContractABI = (a, Some e) ->
  exists g1 t1,
    run (getABIs w) Globals_init = (Returned (a, ABI_zero, Some e), g1, t1) /\
    run (getABIs w) g1 = (Returned (a, ABI_zero, None), g1, []).
Proof.
  intros H.
  unfold run, getABIs, getABIs_init, bind, get, ret, call. cbn.
  rewrite H. cbn. do 2 eexists. split; reflexivity.
Qed.

(** ** Function bodies, the singletons, the verifier *)

Lemma wp_ret {R A} (a : A) g (Q : Step R A -> _) :
  Q (Next a) g [] -> wp (ret a) g Q.
Proof. exact (fun H => H). Qed.

Lemma wp_return {R A} (r : R) g (Q : Step R A -> _) :
  Q (Return r) g [] -> wp (return_ r) g Q.
Proof. exact (fun H => H). Qed.

Lemma wp_panic {R A} msg g (Q : Step R A -> _) :
  Q (Panic msg) g [] -> wp (panic msg) g Q.
Proof. exact (fun H => H). Qed.

Lemma wp_emit {R} e g (Q : Step R unit -> _) :
  Q (Next tt) g [e] -> wp (emit e) g Q.
Proof. exact (fun H => H). Qed.

Lemma wp_get {R} g (Q : Step R Globals -> _) :
  Q (Next g) g [] -> wp get g Q.
Proof. exact (fun H => H). Qed.

Lemma wp_put {R} g0 g (Q : Step R unit -> _) :
  Q (Next tt) g0 [] -> wp (put g0) g Q.
Proof. exact (fun H => H). Qed.

Lemma wp_bind {R A B} (m : M R A) (k : A -> M R B) g (Q : Step R B -> _) :
  wp m g (fun s g1 t1 =>
            match s with
            | Next a => wp (k a) g1 (fun s2 g2 t2 => Q s2 g2 (t1 ++ t2)%list)
            | Return r => Q (Return r) g1 t1
            | Panic msg => Q (Panic msg) g1 t1
            end) ->
  wp (bind m k) g Q.
Proof.
  unfold wp, bind. destruct (m g) as [[[a|r|msg] g1] t1]; cbn; auto.
  destruct (k a g1) as [[s2 g2] t2]; cbn; auto.
Qed.

Lemma wp_call {R A} (f : M A A) g (Q : Step R A -> _) :
  wp f g (fun s g1 t1 => Q (called s) g1 t1) -> wp (call f) g Q.
Proof.
  unfold wp, call. destruct (f g) as [[[a|r|msg] g1] t1]; cbn; auto.
Qed.

Lemma wp_mono {R A} (m : M R A) g (Q Q' : Step R A -> _) :
  (forall s g1 t1, Q s g1 t1 -> Q' s g1 t1) -> wp m g Q -> wp m g Q'.
Proof. unfold wp. auto. Qed.

Lemma wp_run {R} (f : M R R) g (P : Outcome R -> Globals -> list Event -> Prop) :
  wp f g (fun s g1 t1 => P (ended s) g1 t1) ->
  forall out g' t, run f g = (out, g', t) -> P out g' t.
Proof.
  unfold wp, run. destruct (f g) as [[[a|r|msg] g1] t1]; cbn;
    intros H out g' t E; inversion E; subst; exact H.
Qed.

Ltac wp_step :=
  lazymatch goal with
  | |- wp (bind _ _) _ _ => apply wp_bind
  | |- wp (ret _) _ _ => apply wp_ret
  | |- wp (return_ _) _ _ => apply wp_return
  | |- wp (panic _) _ _ => apply wp_panic
  | |- wp (emit _) _ _ => apply wp_emit
  | |- wp get _ _ => apply wp_get
  | |- wp (put _) _ _ => apply wp_put
  | |- wp (call _) _ _ => apply wp_call
  end.

Lemma setup_not_call (e : Event) :
  is_setup e = true -> is_sim e = false /\ is_tx e = false.
Proof. destruct e; simpl; intros H; try discriminate H; now split. Qed.

Lemma getEthClient_spec (w : World) g
    (Q : Step (option Z * option error) (option Z * option error) -> _) :
  (forall g1 t1,
      quiet t1 -> zkpABI g1 = zkpABI g -> membershipABI g1 = membershipABI g ->
      abiOnce g1 = abiOnce g ->
      ethClientOnce g1 = true -> (consistent g -> consistent g1) ->
      Q (Next (ethClient g1, ethClientErr g1)) g1 t1) ->
  wp (getEthClient w) g Q.
Proof.
  intros H. unfold getEthClient.
  wp_step. wp_step. wp_step.
  destruct (ethClientOnce g) eqn:Honce.
  - wp_step. wp_step. wp_step. wp_step.
    apply (H g); auto. intros e [].
  - wp_step. wp_step.
    assert (Hq : quiet [EvDial ZkpRpcUrl]).
    { intros e [<-|[]]. reflexivity. }
    destruct (ethclient_Dial w ZkpRpcUrl) as [c|e];
      wp_step; wp_step; wp_step; wp_step; cbn;
      match goal with |- Q _ ?g1 ?t => apply (H g1 t Hq); try reflexivity end;
      intros _ _ He; cbn in *; [now exists c|discriminate He].
Qed.

Ltac wp_go := repeat (cbv beta iota delta [called]; wp_step).

Lemma getABIs_spec (w : World) g
    (Q : Step (ABI * ABI * option error) (ABI * ABI * option error) -> _) :
  (forall g1 t1 err,
      quiet t1 -> same_client g g1 ->
      Q (Next (zkpABI g1, membershipABI g1, err)) g1 t1) ->
  wp (getABIs w) g Q.
Proof.
  intros H. unfold getABIs, getABIs_init, set_zkpABI, set_membershipABI,
    set_abiOnce.
  wp_go.
  destruct (abiOnce g).
  - wp_go. apply (H g); [intros e []|repeat split].
  - wp_go.
    destruct (abi_JSON w zkpContractABI) as [a [e|]].
    + wp_go. cbn.
      match goal with |- Q _ ?g1 ?t => apply (H g1 t) end;
        [|repeat split].
      intros ev [<-|[]]. reflexivity.
    + wp_go.
      destruct (abi_JSON w membershipQueryABI) as [m e'].
      wp_go. cbn.
      match goal with |- Q _ ?g1 ?t => apply (H g1 t) end;
        [|repeat split].
      intros ev [<-|[<-|[]]]; reflexivity.
Qed.

Lemma same_client_consistent (g g1 : Globals) :
  same_client g g1 -> consistent g -> consistent g1.
Proof.
  intros (Hc & Ho & He) H. unfold consistent. rewrite Hc, Ho, He. exact H.
Qed.

Lemma Globals_init_consistent : consistent Globals_init.
Proof. intros H. discriminate H. Qed.

Lemma sim_first_split (t : list Event) :
  forall seen, sim_first seen t = true ->
  forall pre ev post, t = (pre ++ ev :: post)%list -> is_tx ev = true ->
    seen = true \/ existsb is_sim pre = true.
Proof.
  induction t as [|e t IH]; intros seen H pre ev post Ht Hev.
  - destruct pre; discriminate.
  - destruct pre as [|p pre]; simpl in Ht; injection Ht as He Ht; subst.
    + simpl in H. rewrite Hev in H. apply andb_prop in H. now left.
    + simpl in H. destruct (is_tx p) eqn:Ep.
      * apply andb_prop in H. now left.
      * destruct (IH _ H pre ev post eq_refl Hev) as [Hs|Hs].
        -- apply orb_prop in Hs. destruct Hs as [Hs|Hs]; [now left|].
           right. simpl. now rewrite Hs.
        -- right. simpl. rewrite Hs. now rewrite orb_true_r.
Qed.

Lemma quiet_sim_first t1 : quiet t1 ->
  forall seen t, sim_first seen (t1 ++ t) = sim_first seen t.
Proof.
  induction t1 as [|e t1 IH]; intros Hq seen t; [reflexivity|].
  destruct (setup_not_call e (Hq e (or_introl eq_refl))) as [Hs Ht].
  simpl. rewrite Ht, Hs, orb_false_r. apply IH.
  intros e' He'. apply Hq. now right.
Qed.

Lemma quiet_no_tx t1 : quiet t1 ->
  forall t, existsb is_tx (t1 ++ t) = existsb is_tx t.
Proof.
  induction t1 as [|e t1 IH]; intros Hq t; [reflexivity|].
  destruct (setup_not_call e (Hq e (or_introl eq_refl))) as [Hs Ht].
  simpl. rewrite Ht. apply IH. intros e' He'. apply Hq. now right.
Qed.

Lemma quiet_In_sim t1 : quiet t1 ->
  forall msg r t, In (EvCallContract msg r) (t1 ++ t) ->
                  In (EvCallContract msg r) t.
Proof.
  intros Hq msg r t H. apply in_app_or in H. destruct H as [H|H]; [|exact H].
  destruct (setup_not_call _ (Hq _ H)) as [Hs _]. discriminate.
Qed.

Ltac wp_branch :=
  lazymatch goal with
  | |- wp (getEthClient _) _ _ => apply getEthClient_spec; intros
  | |- wp (getABIs _) _ _ => apply getABIs_spec; intros
  | |- wp (or_return ?x _) _ _ => unfold or_return at 1; destruct x eqn:?
  | |- wp (deref ?x) _ _ => unfold deref at 1; destruct x eqn:?
  | |- wp (match ?x with _ => _ end) _ _ => destruct x eqn:?
  end.

Ltac wp_all :=
  repeat first [ wp_step
               | progress cbv beta iota delta [called fst snd]
               | wp_branch ].

Lemma two_outputs (l : list AbiValue) (x y : AbiValue) :
  negb (List.length l =? 2)%nat = false ->
  nth 0 l VOther = x -> nth 1 l VOther = y -> l = [x; y].
Proof.
  destruct l as [|a [|b [|c l]]]; simpl; try discriminate.
  now intros _ -> ->.
Qed.

Ltac in_trace H :=
  repeat (apply quiet_In_sim in H; [|assumption]);
  simpl in H;
  repeat (destruct H as [H|H]; [try discriminate H|]);
  try contradiction.

Lemma VerifyProof_wp (w : World) (payload : ZkpPayload) (g : Globals) :
  wp (VerifyProof w payload) g
     (fun s g1 t1 => verify_post w payload (ended s) g1 t1).
Proof.
  unfold VerifyProof.
  wp_all.
  all: cbn [ended app]; unfold verify_post, verify_fail.
  all: split; [rewrite ?quiet_sim_first by assumption; reflexivity|].
  all: split;
    [ intros msg r Hin Hinv; in_trace Hin
    | intros wa txh E; try discriminate E ].
  all: try (split; [rewrite ?quiet_no_tx by assumption; reflexivity
                   | eexists; reflexivity]).
  all: try (injection Hin as <- <-; exfalso;
            match goal with
            | Ha : nth 0 _ VOther = VAddress ?a |- _ =>
                apply (Hinv a); eexists; split; [reflexivity|]
            end;
            match goal with
            | Hu : abi_Unpack _ _ _ _ = inl _ |- _ => rewrite Hu
            end;
            f_equal; apply two_outputs; auto;
            match goal with
            | Hb : negb ?b = false |- _ => destruct b; [assumption|discriminate]
            end).
  injection E as <- <-.
  do 5 eexists.
  split; [do 2 (apply in_or_app; right); simpl; do 2 right; left; reflexivity|].
  split; [eexists; split; [reflexivity|];
          match goal with
          | Hu : abi_Unpack _ _ _ _ = inl _ |- _ => rewrite Hu
          end;
          f_equal; apply two_outputs; eauto;
          match goal with
          | Hb : negb ?b = false |- _ => destruct b; [assumption|discriminate]
          end|].
  split; [reflexivity|].
  split; [|reflexivity].
  do 2 (apply in_or_app; right). simpl. do 3 right. left. reflexivity.
Qed.

(** C1.  In every run of [VerifyProof], a transaction is sent only after
    the simulation was called; when the simulation call fails, or its
    result does not decode to an address and the validity [true],
    [VerifyProof] returns an error and the trace holds no transaction; and
    when it returns no error, [walletAddress] is the hex form of the address
    decoded from the simulation result and [txHash] is the hash of the
    transaction sent after it. *)
Theorem VerifyProof_simulate_then_commit
    (w : World) (payload : ZkpPayload) (g : Globals)
    (out : Outcome VerifyResult) (g' : Globals) (t : list Event) :
  run (VerifyProof w payload) g = (out, g', t) ->
  (forall pre ev post,
      t = (pre ++ ev :: post)%list -> is_tx ev = true ->
      existsb is_sim pre = true) /\
  (forall msg r,
      In (EvCallContract msg r) t ->
      (forall a, ~ sim_valid w (zkpABI g') r a) ->
      existsb is_tx t = false /\ exists e, out = Returned ("", "", Some e)) /\
  (forall wa txh,
      out = Returned (wa, txh, None) ->
      exists msg r a opts tx,
        In (EvCallContract msg r) t /\
        sim_valid w (zkpABI g') r a /\
        wa = Address_Hex w a /\
        In (EvTransact opts "verifyProof" (verifyProof_args payload) (inl tx)) t /\
        txh = tx_hash_hex tx).
Proof.
  intros Hrun.
  destruct (wp_run _ _ _ (VerifyProof_wp w payload g) _ _ _ Hrun)
    as (Hfirst & Hinvalid & Hok).
  split; [|split; assumption].
  intros pre ev post Ht Hev.
  destruct (sim_first_split t false Hfirst pre ev post Ht Hev) as [H|H];
    [discriminate|exact H].
Qed.

(** ** The gates and the 32-byte hash *)

Lemma CheckClubMembership_wp (w : World) (walletAddress clubName : string) g :
  wp (CheckClubMembership w walletAddress clubName) g
     (fun s _ _ =>
        forall st, ended s = Returned (inl st) ->
          IsMember st = IsPermanent st || IsTemporary st || IsTokenBased st
                        || IsCrossChain st).
Proof.
  unfold CheckClubMembership.
  wp_all.
  all: cbn [ended]; intros st E; try discriminate E.
  injection E as <-. reflexivity.
Qed.

Lemma IsClubMember_cases (w : World) (a : string) (g : Globals) :
  a <> "" ->
  run (IsClubMember w a) g =
  match run (CheckClubMembership w a AllowedClubName) g with
  | (Returned (inl st), g1, t1) => (Returned (IsMember st), g1, t1)
  | (Returned (inr e), g1, t1) =>
      (Returned false, g1,
       (t1 ++ [EvSysLog ("Error checking club membership: " ++ e)])%list)
  | (Panicked m, g1, t1) => (Panicked m, g1, t1)
  end.
Proof.
  intros Hne. apply String.eqb_neq in Hne.
  unfold run, IsClubMember, bind, call. rewrite Hne. cbn.
  destruct (CheckClubMembership w a AllowedClubName g) as [[[r|r|m] g1] t1];
    cbn; try destruct r; cbn; rewrite ?List.app_nil_r; reflexivity.
Qed.

Lemma IsZkpValid_cases (w : World) (h : string) (g : Globals) :
  h <> "" ->
  run (IsZkpValid w h) g =
  match run (GetHashStatus w h) g with
  | (Returned (inl st), g1, t1) => (Returned (Exists st && IsActive st), g1, t1)
  | (Returned (inr e), g1, t1) =>
      (Returned false, g1,
       (t1 ++ [EvSysLog ("Error checking ZKP status: " ++ e)])%list)
  | (Panicked m, g1, t1) => (Panicked m, g1, t1)
  end.
Proof.
  intros Hne. apply String.eqb_neq in Hne.
  unfold run, IsZkpValid, bind, call. rewrite Hne. cbn.
  destruct (GetHashStatus w h g) as [[[r|r|m] g1] t1]; cbn;
    try destruct r; cbn; rewrite ?List.app_nil_r; reflexivity.
Qed.

(** C2.  [IsZkpValid] returns [true] on the empty identifier; on a
    non-empty one it returns [true] only if [GetHashStatus] returns a
    record that exists and is active, and [false] whenever [GetHashStatus]
    returns an error. *)
Theorem IsZkpValid_fail_closed
    (w : World) (zkpHash : string) (g : Globals)
    (out : Outcome bool) (g' : Globals) (t : list Event) :
  run (IsZkpValid w zkpHash) g = (out, g', t) ->
  (zkpHash = "" -> out = Returned true) /\
  (zkpHash <> "" -> out = Returned true ->
     exists status g1 t1,
       run (GetHashStatus w zkpHash) g = (Returned (inl status), g1, t1) /\
       Exists status = true /\ IsActive status = true) /\
  (zkpHash <> "" ->
     forall err g1 t1,
       run (GetHashStatus w zkpHash) g = (Returned (inr err), g1, t1) ->
       out = Returned false).
Proof.
  intros Hrun. split; [|split].
  - intros ->. cbn in Hrun. now inversion Hrun.
  - intros Hne ->. rewrite (IsZkpValid_cases w zkpHash g Hne) in Hrun.
    destruct (run (GetHashStatus w zkpHash) g) as [[[[st|e]|m] g1] t1];
      try discriminate Hrun.
    injection Hrun as Hb -> ->. apply andb_prop in Hb.
    exists st, g', t. now split.
  - intros Hne err g1 t1 Hq.
    rewrite (IsZkpValid_cases w zkpHash g Hne), Hq in Hrun.
    now inversion Hrun.
Qed.

(** C3.  [IsClubMember] returns [true] on the empty wallet address; on a
    non-empty one it returns [true] only if [CheckClubMembership] returns a
    status with one of the four tier flags set, and [false] whenever
    [CheckClubMembership] returns an error; and in every status that
    [CheckClubMembership] returns, [IsMember] is the disjunction of the
    four tier flags. *)
Theorem IsClubMember_policy
    (w : World) (walletAddress : string) (g : Globals)
    (out : Outcome bool) (g' : Globals) (t : list Event) :
  run (IsClubMember w walletAddress) g = (out, g', t) ->
  (walletAddress = "" -> out = Returned true) /\
  (walletAddress <> "" -> out = Returned true ->
     exists status g1 t1,
       run (CheckClubMembership w walletAddress AllowedClubName) g
       = (Returned (inl status), g1, t1) /\
       IsPermanent status || IsTemporary status || IsTokenBased status
       || IsCrossChain status = true) /\
  (walletAddress <> "" ->
     forall err g1 t1,
       run (CheckClubMembership w walletAddress AllowedClubName) g
       = (Returned (inr err), g1, t1) ->
       out = Returned false) /\
  (forall address clubName g0 status g1 t1,
      run (CheckClubMembership w address clubName) g0
      = (Returned (inl status), g1, t1) ->
      IsMember status
      = IsPermanent status || IsTemporary status || IsTokenBased status
        || IsCrossChain status).
Proof.
  intros Hrun.
  assert (Hor : forall address clubName g0 status g1 t1,
      run (CheckClubMembership w address clubName) g0
      = (Returned (inl status), g1, t1) ->
      IsMember status
      = IsPermanent status || IsTemporary status || IsTokenBased status
        || IsCrossChain status).
  { intros address clubName g0 status g1 t1 E.
    pose proof (wp_run _ _
      (fun out _ _ => forall st, out = Returned (inl st) ->
         IsMember st = IsPermanent st || IsTemporary st || IsTokenBased st
                       || IsCrossChain st)
      (CheckClubMembership_wp w address clubName g0) _ _ _ E) as H.
    exact (H status eq_refl). }
  split; [|split; [|split]]; [| | |exact Hor].
  - intros ->. cbn in Hrun. now inversion Hrun.
  - intros Hne ->. rewrite (IsClubMember_cases w walletAddress g Hne) in Hrun.
    destruct (run (CheckClubMembership w walletAddress AllowedClubName) g)
      as [[[[st|e]|m] g1] t1] eqn:E; try discriminate Hrun.
    injection Hrun as Hb -> ->.
    exists st, g', t. split; [reflexivity|].
    now rewrite <- (Hor _ _ _ _ _ _ E).
  - intros Hne err g1 t1 Hq.
    rewrite (IsClubMember_cases w walletAddress g Hne), Hq in Hrun.
    now inversion Hrun.
Qed.

Lemma be_value_app (bs : list Z) (b : Z) :
  be_value (bs ++ [b]) = be_value bs * 256 + b.
Proof. unfold be_value. now rewrite fold_left_app. Qed.

Lemma be_bytes_spec (n : nat) :
  forall z, 0 <= z ->
    List.length (be_bytes n z) = n /\
    Forall (fun b => 0 <= b < 256) (be_bytes n z) /\
    be_value (be_bytes n z) = z mod 256 ^ Z.of_nat n.
Proof.
  induction n as [|n IH]; intros z Hz.
  - simpl. repeat split; [constructor|]. now rewrite Z.mod_1_r.
  - assert (Hq : 0 <= z / 256) by (apply Z.div_pos; lia).
    destruct (IH (z / 256) Hq) as (Hl & Hf & Hv).
    cbn [be_bytes]. repeat split.
    + rewrite List.length_app, Hl. simpl. lia.
    + apply Forall_app. split; [exact Hf|].
      constructor; [|constructor]. apply Z.mod_pos_bound. lia.
    + rewrite be_value_app, Hv.
      rewrite Nat2Z.inj_succ, Z.pow_succ_r by lia.
      assert (Hp : 0 < 256 ^ Z.of_nat n) by (apply Z.pow_pos_nonneg; lia).
      rewrite Z.rem_mul_r by lia. lia.
Qed.

Lemma FillBytes_in_range (x : Z) (n : nat) :
  Z.abs x < 256 ^ Z.of_nat n ->
  exists bs, FillBytes x n = Some bs /\
             List.length bs = n /\
             Forall (fun b => 0 <= b < 256) bs /\
             be_value bs = Z.abs x.
Proof.
  intros H. unfold FillBytes.
  apply Z.ltb_lt in H. rewrite H. apply Z.ltb_lt in H.
  destruct (be_bytes_spec n (Z.abs x) (Z.abs_nonneg x)) as (Hl & Hf & Hv).
  exists (be_bytes n (Z.abs x)). repeat split; auto.
  rewrite Hv. apply Z.mod_small. split; [apply Z.abs_nonneg|exact H].
Qed.

Lemma FillBytes_out_of_range (x : Z) (n : nat) :
  256 ^ Z.of_nat n <= Z.abs x -> FillBytes x n = None.
Proof.
  intros H. unfold FillBytes.
  destruct (Z.ltb_spec (Z.abs x) (256 ^ Z.of_nat n)); [lia|reflexivity].
Qed.

(** C7.  With the client and the ABIs set up, a decimal numeral whose
    absolute value needs more than 32 bytes makes [GetHashStatus] panic in
    [FillBytes]; it does not return an error. *)
Theorem GetHashStatus_out_of_range_panics
    (w : World) (g : Globals) (zkpHash : string) (n : Z) :
  ready g ->
  SetString zkpHash 10 = Some n ->
  2 ^ 256 <= Z.abs n ->
  run (GetHashStatus w zkpHash) g
  = (Panicked "math/big: buffer too small to fit value", g, []).
Proof.
  intros (Hc & _ & He & Ha) Hn Hbig.
  unfold run, GetHashStatus, getEthClient, getABIs, bind, call, get, ret.
  rewrite Hc. cbn. rewrite He. cbn. rewrite Ha. cbn. rewrite Hn.
  rewrite (FillBytes_out_of_range n 32)
    by (change (256 ^ Z.of_nat 32) with (2 ^ 256); exact Hbig).
  reflexivity.
Qed.

(** ** The status query *)

(** With the singletons set up, an identifier that is no decimal numeral
    is answered with an error and no call of the contract. *)
Lemma GetHashStatus_not_decimal (w : World) (g : Globals) (zkpHash : string) :
  ready g ->
  SetString zkpHash 10 = None ->
  run (GetHashStatus w zkpHash) g
  = (Returned (inr "invalid zkpHash: failed to parse as decimal"), g, []).
Proof.
  intros (Hc & _ & He & Ha) Hn.
  unfold run, GetHashStatus, getEthClient, getABIs, bind, call, get, ret.
  rewrite Hc. cbn. rewrite He. cbn. rewrite Ha. cbn. rewrite Hn.
  reflexivity.
Qed.

(** With the singletons set up, an identifier within 32 bytes does not
    panic, and the one call of the contract carries the packing of its
    32 big-endian bytes. *)
Lemma GetHashStatus_in_range (w : World) (g : Globals) (zkpHash : string)
    (n : Z) :
  ready g ->
  SetString zkpHash 10 = Some n ->
  Z.abs n < 2 ^ 256 ->
  exists out g' t,
    run (GetHashStatus w zkpHash) g = (Returned out, g', t) /\
    forall msg r,
      In (EvCallContract msg r) t ->
      exists hash32,
        abi_Pack w (zkpABI g) "getHashStatus" [ArgBytes32 hash32]
        = inl (msg_Data msg) /\
        List.length hash32 = 32%nat /\
        Forall (fun b => 0 <= b < 256) hash32 /\
        be_value hash32 = Z.abs n.
Proof.
  intros (Hc & (c & Hcl) & He & Ha) Hn Hsmall.
  destruct (FillBytes_in_range n 32 Hsmall) as (bs & Hbs & Hl & Hf & Hv).
  unfold run, GetHashStatus, getEthClient, getABIs, bind, call, get, ret,
    or_return, deref, emit, return_, panic.
  rewrite Hc. cbn. rewrite He. cbn. rewrite Ha. cbn. rewrite Hn, Hbs. cbn.
  destruct (abi_Pack w (zkpABI g) "getHashStatus" [ArgBytes32 bs])
    as [callData|e] eqn:Hp; cbn.
  2: { do 3 eexists. split; [reflexivity|]. intros msg r []. }
  rewrite Hcl. cbn.
  assert (Hev : forall msg r (post : list Event),
             In (EvCallContract msg r)
                (EvCallContract {| msg_From := None;
                                   msg_To := HexToAddress w ZkpContractAddress;
                                   msg_Data := callData |}
                                (CallContract w c
                                   {| msg_From := None;
                                      msg_To := HexToAddress w ZkpContractAddress;
                                      msg_Data := callData |}) :: post) ->
             post = [] ->
             exists hash32,
               abi_Pack w (zkpABI g) "getHashStatus" [ArgBytes32 hash32]
               = inl (msg_Data msg) /\
               List.length hash32 = 32%nat /\
               Forall (fun b => 0 <= b < 256) hash32 /\
               be_value hash32 = Z.abs n).
  { intros msg r post [H|H] ->; [|destruct H].
    injection H as <- _. exists bs. auto. }
  destruct (CallContract w c _) as [result|e]; cbn.
  2: { do 3 eexists. split; [reflexivity|]. intros msg r H.
       now apply (Hev msg r []). }
  destruct (abi_Unpack w (zkpABI g) "getHashStatus" result) as [outs|e]; cbn.
  2: { do 3 eexists. split; [reflexivity|]. intros msg r H.
       now apply (Hev msg r []). }
  destruct (negb (List.length outs =? 3)%nat); cbn;
    do 3 eexists; (split; [reflexivity|]); intros msg r H;
    now apply (Hev msg r []).
Qed.

(** A numeral with a minus sign is taken by its absolute value. *)
Lemma GetHashStatus_sign_dropped :
  SetString "-1" 10 = Some (-1) /\ FillBytes (-1) 32 = FillBytes 1 32.
Proof. split; reflexivity. Qed.

(** ** The login flow *)

Lemma quiet_service t : quiet t -> service_only t.
Proof.
  intros H e He. specialize (H e He). destruct e; try discriminate H;
    reflexivity.
Qed.

Lemma service_only_nil : service_only [].
Proof. intros e []. Qed.

Lemma service_only_cons e t :
  is_service e = true -> service_only t -> service_only (e :: t).
Proof. intros He Ht x [<-|Hx]; auto. Qed.

Lemma service_only_app t1 t2 :
  service_only t1 -> service_only t2 -> service_only (t1 ++ t2).
Proof.
  intros H1 H2 e He. apply in_app_or in He. destruct He; auto.
Qed.

Lemma service_In (t1 t : list Event) (e : Event) :
  service_only t1 -> is_service e = false -> In e (t1 ++ t) -> In e t.
Proof.
  intros H1 He Hin. apply in_app_or in Hin. destruct Hin as [Hin|Hin]; auto.
  rewrite (H1 e Hin) in He. discriminate.
Qed.

Ltac service_leaf :=
  cbn [app];
  repeat first [ apply service_only_nil
               | apply service_only_app
               | apply service_only_cons; [reflexivity|]
               | apply quiet_service; assumption
               | assumption ].

Lemma VerifyProof_service (w : World) (payload : ZkpPayload) g :
  wp (VerifyProof w payload) g (fun _ _ t => service_only t).
Proof. unfold VerifyProof. wp_all. all: service_leaf. Qed.

Lemma CheckClubMembership_service (w : World) (a club : string) g :
  wp (CheckClubMembership w a club) g (fun _ _ t => service_only t).
Proof. unfold CheckClubMembership. wp_all. all: service_leaf. Qed.

Lemma IsClubMember_service (w : World) (a : string) g :
  wp (IsClubMember w a) g (fun _ _ t => service_only t).
Proof.
  unfold IsClubMember. wp_all.
  - service_leaf.
  - eapply wp_mono; [|apply CheckClubMembership_service].
    cbv beta. intros s g1 t1 Ht1. destruct s as [[st|e]| |]; wp_all;
      service_leaf.
Qed.

Lemma wp_call_post {R A} (f : M A A) g (P : Globals -> list Event -> Prop)
    (Q : Step R A -> Globals -> list Event -> Prop) :
  wp f g (fun _ g1 t1 => P g1 t1) ->
  (forall a g1 t1, P g1 t1 -> Q (Next a) g1 t1) ->
  (forall msg g1 t1, P g1 t1 -> Q (Panic msg) g1 t1) ->
  wp (call f) g Q.
Proof.
  unfold wp, call. destruct (f g) as [[[a|r|msg] g1] t1]; cbn; auto.
Qed.

Ltac ctrl_branch :=
  lazymatch goal with
  | |- wp (call (VerifyProof _ _)) _ _ =>
      apply (wp_call_post _ _ (fun _ t => service_only t));
      [ apply VerifyProof_service | intros [[? ?] ?] ? ? ? | intros ? ? ? ? ]
  | |- wp (call (IsClubMember _ _)) _ _ =>
      apply (wp_call_post _ _ (fun _ t => service_only t));
      [ apply IsClubMember_service | intros ? ? ? ? | intros ? ? ? ? ]
  | |- wp (match snd ?p with _ => _ end) _ _ =>
      destruct p as [? ?] eqn:?; cbn [fst snd]
  | |- wp (match ?x with _ => _ end) _ _ => destruct x eqn:?
  end.

Ltac ctrl_all :=
  repeat first [ progress cbn [called fst snd]
               | ctrl_branch
               | wp_step ].

Lemma service_no_response t : service_only t -> filter is_response t = [].
Proof.
  induction t as [|e t IH]; intros H; [reflexivity|].
  simpl. pose proof (H e (or_introl eq_refl)) as He.
  destruct e; try discriminate He; simpl; apply IH;
    intros x Hx; apply H; now right.
Qed.

Lemma service_not_In (t : list Event) (e : Event) :
  service_only t -> is_service e = false -> In e t -> False.
Proof. intros H He Hin. rewrite (H e Hin) in He. discriminate. Qed.

Ltac in_ctrl H :=
  repeat (apply service_In in H; [|assumption|reflexivity]);
  try (exfalso; eapply service_not_In; [| |exact H]; [assumption|reflexivity]);
  simpl in H;
  repeat (destruct H as [H|H]; [try discriminate H|]);
  try contradiction.

Ltac in_now :=
  repeat (apply in_or_app; right); simpl;
  repeat first [ left; reflexivity | right ].

Lemma ZkpOAuth_one_response_wp (w : World) (c : Context) g :
  wp (ZkpOAuth w c) g (fun s _ t => one_response (ended s) t).
Proof.
  unfold ZkpOAuth, setupZkpLogin, deny.
  ctrl_all.
  all: cbn [ended app]; unfold one_response.
  all: intros Hout; try discriminate Hout;
    rewrite ?List.filter_app, ?service_no_response by assumption;
    cbn; do 2 eexists; reflexivity.
Qed.

Lemma service_session_free t : service_only t -> session_free t.
Proof.
  intros H e He. specialize (H e He). destruct e; try discriminate H;
    reflexivity.
Qed.

Lemma session_free_app t1 t2 :
  session_free t1 -> session_free t2 -> session_free (t1 ++ t2).
Proof.
  intros H1 H2 e He. apply in_app_or in He. destruct He; auto.
Qed.

Lemma session_free_cons e t :
  is_session e = false -> session_free t -> session_free (e :: t).
Proof. intros He Ht x [<-|Hx]; auto. Qed.

Lemma session_free_nil : session_free [].
Proof. intros e []. Qed.

Ltac session_leaf :=
  repeat first [ apply session_free_nil
               | apply session_free_app
               | apply session_free_cons; [reflexivity|]
               | apply service_session_free; assumption ].

Lemma service_not_write (t : list Event) (ev : Event) :
  service_only t -> In ev t -> is_store_write ev = true -> False.
Proof.
  intros H Hin Hw. specialize (H ev Hin). destruct ev; discriminate.
Qed.

Lemma status_enabled (w : World) (u : User) :
  negb (Status u =? UserStatusEnabled w) = false ->
  Status u = UserStatusEnabled w.
Proof.
  intros H. apply negb_false_iff in H. now apply Z.eqb_eq.
Qed.

Lemma status_not_enabled (w : World) (u : User) :
  negb (Status u =? UserStatusEnabled w) = true ->
  Status u <> UserStatusEnabled w.
Proof.
  intros H. apply negb_true_iff in H. now apply Z.eqb_neq.
Qed.

Ltac status_facts :=
  repeat match goal with
         | H : negb (Status _ =? UserStatusEnabled _) = false |- _ =>
             apply status_enabled in H
         | H : negb (Status _ =? UserStatusEnabled _) = true |- _ =>
             apply status_not_enabled in H
         end.

Lemma ZkpOAuth_persistence_wp (w : World) (c : Context) g :
  wp (ZkpOAuth w c) g (fun _ _ t => persistence_post w t).
Proof.
  unfold ZkpOAuth, setupZkpLogin, deny.
  ctrl_all.
  all: cbn [ended app]; unfold persistence_post.
  all: split; [intros xu xu' xe Hin|intros xu xi xu' xe Hin]; in_ctrl Hin.
  all: injection Hin as; subst; status_facts.
  1-3: split; [in_now|split; intros Hst; try contradiction].
  - split; [in_now|session_leaf].
  - eexists; split; [in_now|discriminate].
  - eexists; split; [in_now|intros _; eexists; split; [in_now|reflexivity]].
  - split; [in_now|]. split; [session_leaf|]. split.
    + intros site r Hj. in_ctrl Hj. now injection Hj as <- <-.
    + intros ev Hev Hw.
      apply in_app_or in Hev. destruct Hev as [Hev|Hev];
        [destruct (service_not_write _ _ H Hev Hw)|].
      apply in_app_or in Hev. destruct Hev as [Hev|Hev];
        [destruct (service_not_write _ _ H0 Hev Hw)|].
      simpl in Hev.
      repeat (destruct Hev as [Hev|Hev]; [subst ev; try discriminate Hw|]);
        try contradiction; reflexivity.
  - split; [in_now|]. split; [session_leaf|]. split.
    + intros site r Hj. in_ctrl Hj. now injection Hj as <- <-.
    + intros ev Hev Hw.
      apply in_app_or in Hev. destruct Hev as [Hev|Hev];
        [destruct (service_not_write _ _ H Hev Hw)|].
      apply in_app_or in Hev. destruct Hev as [Hev|Hev];
        [destruct (service_not_write _ _ H0 Hev Hw)|].
      simpl in Hev.
      repeat (destruct Hev as [Hev|Hev]; [subst ev; try discriminate Hw|]);
        try contradiction; reflexivity.
Qed.

(** ** Runs that return *)

Ltac returns_leaf :=
  cbn [ended]; unfold returns_ok;
  first
    [ split;
      [ eexists; reflexivity
      | repeat match goal with
               | H : same_client ?a ?b, Hc : consistent ?a |- _ =>
                   pose proof (same_client_consistent a b H Hc); clear H
               end;
        assumption ]
    | exfalso;
      match goal with
      | Hc : consistent ?g, Ho : ethClientOnce ?g = true,
        He : ethClientErr ?g = None, Hn : ethClient ?g = None |- _ =>
          destruct (Hc Ho He) as [c Hsome]; congruence
      end ].

Lemma VerifyProof_returns (w : World) (payload : ZkpPayload) g :
  consistent g ->
  wp (VerifyProof w payload) g (fun s g1 _ => returns_ok s g1).
Proof.
  intros Hg. unfold VerifyProof. wp_all.
  all: try match goal with
           | H : consistent ?g0 -> consistent _, H0 : consistent ?g0 |- _ =>
               specialize (H H0)
           end.
  all: returns_leaf.
Qed.

Lemma CheckClubMembership_returns (w : World) (a club : string) g :
  consistent g ->
  wp (CheckClubMembership w a club) g (fun s g1 _ => returns_ok s g1).
Proof.
  intros Hg. unfold CheckClubMembership. wp_all.
  all: try match goal with
           | H : consistent ?g0 -> consistent _, H0 : consistent ?g0 |- _ =>
               specialize (H H0)
           end.
  all: returns_leaf.
Qed.

Lemma wp_call_returns {R A} (f : M A A) g
    (Q : Step R A -> Globals -> list Event -> Prop) :
  wp f g (fun s g1 _ => returns_ok s g1) ->
  (forall a g1 t1, consistent g1 -> Q (Next a) g1 t1) ->
  wp (call f) g Q.
Proof.
  unfold wp, call, returns_ok.
  destruct (f g) as [[[a|r|msg] g1] t1]; cbn; intros [[x Hx] Hc] H; auto.
  discriminate Hx.
Qed.

Lemma IsClubMember_returns (w : World) (a : string) g :
  consistent g ->
  wp (IsClubMember w a) g (fun s g1 _ => returns_ok s g1).
Proof.
  intros Hg. unfold IsClubMember. wp_all.
  - returns_leaf.
  - eapply wp_mono; [|apply CheckClubMembership_returns; assumption].
    cbv beta. intros s g1 t1 [[r Hr] Hg1].
    destruct s as [[st|e]|[st|e]|]; try discriminate Hr; wp_all;
      returns_leaf.
Qed.

Ltac returns_branch :=
  lazymatch goal with
  | |- wp (call (VerifyProof _ _)) _ _ =>
      apply wp_call_returns;
      [ apply VerifyProof_returns; assumption | intros [[? ?] ?] ? ? ? ]
  | |- wp (call (IsClubMember _ _)) _ _ =>
      apply wp_call_returns;
      [ apply IsClubMember_returns; assumption | intros ? ? ? ? ]
  | |- wp (match snd ?p with _ => _ end) _ _ =>
      destruct p as [? ?] eqn:?; cbn [fst snd]
  | |- wp (match ?x with _ => _ end) _ _ => destruct x eqn:?
  end.

(** From consistent client variables the handler returns, having written
    one response, and leaves the variables consistent: it does so at every
    request of a process. *)
Lemma ZkpOAuth_returns (w : World) (c : Context) (g : Globals) :
  consistent g ->
  exists g' t site r,
    run (ZkpOAuth w c) g = (Returned tt, g', t) /\
    consistent g' /\
    filter is_response t = [EvJSON site r].
Proof.
  intros Hg.
  assert (H : wp (ZkpOAuth w c) g (fun s g1 _ => returns_ok s g1)).
  { unfold ZkpOAuth, setupZkpLogin, deny.
    repeat first [ progress cbn [called fst snd]
                 | returns_branch
                 | wp_step ].
    all: returns_leaf. }
  destruct (run (ZkpOAuth w c) g) as [[out g'] t] eqn:E.
  pose proof (wp_run _ _ (fun out g1 _ => (exists r, out = Returned r) /\ consistent g1)
                     H _ _ _ E) as [[[] Hr] Hc].
  subst out.
  destruct (wp_run _ _ (fun out _ t => one_response out t)
                   (ZkpOAuth_one_response_wp w c g) _ _ _ E eq_refl)
    as (site & r & Hone).
  now exists g', t, site, r.
Qed.

(** ** The claims of the login flow, and sample runs *)

Lemma VerifyProof_simulate_then_commit_witness :
  run (VerifyProof demo_world demo_payload) Globals_init
  = (Returned (demo_wallet, "0xfeed", None), Globals_ready, demo_verify_trace)
  /\
  exists msg r a opts tx,
    In (EvCallContract msg r) demo_verify_trace /\
    sim_valid demo_world (zkpABI Globals_ready) r a /\
    demo_wallet = Address_Hex demo_world a /\
    In (EvTransact opts "verifyProof" (verifyProof_args demo_payload) (inl tx))
       demo_verify_trace /\
    "0xfeed" = tx_hash_hex tx.
Proof.
  assert (E : run (VerifyProof demo_world demo_payload) Globals_init
              = (Returned (demo_wallet, "0xfeed", None), Globals_ready,
                 demo_verify_trace)) by reflexivity.
  split; [exact E|].
  exact (proj2 (proj2 (VerifyProof_simulate_then_commit _ _ _ _ _ _ E))
               _ _ eq_refl).
Defined.

Lemma IsZkpValid_fail_closed_witness :
  run (IsZkpValid demo_world "5") Globals_init
  = (Returned true, Globals_ready,
     snd (run (IsZkpValid demo_world "5") Globals_init))
  /\
  exists status g1 t1,
    run (GetHashStatus demo_world "5") Globals_init
    = (Returned (inl status), g1, t1) /\
    Exists status = true /\ IsActive status = true.
Proof.
  assert (E : run (IsZkpValid demo_world "5") Globals_init
              = (Returned true, Globals_ready,
                 snd (run (IsZkpValid demo_world "5") Globals_init)))
    by reflexivity.
  split; [exact E|].
  apply (proj1 (proj2 (IsZkpValid_fail_closed _ _ _ _ _ _ E)));
    [discriminate|reflexivity].
Defined.

Lemma IsClubMember_policy_witness :
  run (IsClubMember demo_world demo_wallet) Globals_init
  = (Returned true, Globals_ready,
     snd (run (IsClubMember demo_world demo_wallet) Globals_init))
  /\
  exists status g1 t1,
    run (CheckClubMembership demo_world demo_wallet AllowedClubName) Globals_init
    = (Returned (inl status), g1, t1) /\
    IsPermanent status || IsTemporary status || IsTokenBased status
    || IsCrossChain status = true.
Proof.
  assert (E : run (IsClubMember demo_world demo_wallet) Globals_init
              = (Returned true, Globals_ready,
                 snd (run (IsClubMember demo_world demo_wallet) Globals_init)))
    by reflexivity.
  split; [exact E|].
  apply (proj1 (proj2 (IsClubMember_policy _ _ _ _ _ _ E)));
    [discriminate|reflexivity].
Defined.

Lemma ParseZkpCode_positional_witness :
  exists p,
    ParseZkpCode " 1, 0x2 ,3,+4,0b101,6,0o7,8,9 " = inl p /\
    read_back p = [1; 2; 3; 4; 5; 6; 7; 8; 9].
Proof.
  apply ParseZkpCode_positional; reflexivity.
Defined.

Lemma getABIs_error_not_cached_sample :
  exists g1 t1,
    run (getABIs (demo_world_of "0xabc" (Some "bad ABI") true false None None))
        Globals_init
    = (Returned (ABI_zero, ABI_zero, Some "bad ABI"), g1, t1) /\
    run (getABIs (demo_world_of "0xabc" (Some "bad ABI") true false None None))
        g1
    = (Returned (ABI_zero, ABI_zero, None), g1, []).
Proof.
  apply (getABIs_error_not_cached
           (demo_world_of "0xabc" (Some "bad ABI") true false None None)
           ABI_zero "bad ABI").
  reflexivity.
Defined.

Lemma GetHashStatus_out_of_range_panics_witness :
  run (GetHashStatus demo_world two_pow_256) Globals_ready
  = (Panicked "math/big: buffer too small to fit value", Globals_ready, []).
Proof.
  apply (GetHashStatus_out_of_range_panics demo_world Globals_ready
           two_pow_256 (2 ^ 256)).
  - repeat split. now exists 1.
  - vm_compute. reflexivity.
  - vm_compute. discriminate.
Defined.

(** With no signing key the handler answers with a text that is none of
    the listed reason codes. *)
Lemma ZkpOAuth_not_configured_message :
  run (ZkpOAuth (demo_world_of "" None true false None None) demo_request)
      Globals_init
  = (Returned tt, Globals_init,
     [EvJSON AtNotConfigured
        (denial StatusOK "ZKP authentication is not configured")])
  /\ existsb (String.eqb "ZKP authentication is not configured") reason_codes
     = false.
Proof. split; reflexivity. Qed.

(** C9.  In the login flow a failed update of an existing account's hash
    identifier is logged and the attempt goes on: the status of the account
    is checked, and when it is enabled the session is saved and, the save
    succeeding, the success response is written.  A failed insert of a new
    account is fatal: the response is the denial carrying the store's error,
    no session value is set or saved, no response reports success, and the
    failed insert is the only write the flow sends to the store. *)
Theorem ZkpOAuth_persistence_failures
    (w : World) (c : Context) (g : Globals)
    (out : Outcome unit) (g' : Globals) (t : list Event) :
  run (ZkpOAuth w c) g = (out, g', t) ->
  (forall u u' e,
      In (EvUpdateUser u (u', Some e)) t ->
      In (EvSysLog ("Failed to update zkp hash: " ++ e)) t /\
      (Status u' = UserStatusEnabled w ->
       exists r, In (EvSessionSave r) t /\
                 (r = None ->
                  exists resp, In (EvJSON AtSuccess resp) t /\
                               success resp = true)) /\
      (Status u' <> UserStatusEnabled w ->
       In (EvJSON AtStatus (denial StatusOK msg_banned)) t /\
       session_free t)) /\
  (forall u i u' e,
      In (EvInsertUser u i (u', Some e)) t ->
      In (EvJSON AtInsert (denial StatusOK e)) t /\
      session_free t /\
      (forall site r, In (EvJSON site r) t -> success r = false) /\
      (forall ev, In ev t -> is_store_write ev = true ->
                  ev = EvInsertUser u i (u', Some e))).
Proof.
  intros Hrun.
  exact (wp_run _ _ (fun _ _ t => persistence_post w t)
                (ZkpOAuth_persistence_wp w c g) _ _ _ Hrun).
Qed.

Lemma ZkpOAuth_persistence_failures_witness :
  In (EvSysLog "Failed to update zkp hash: database is locked")
     update_failing_trace /\
  exists r, In (EvSessionSave r) update_failing_trace /\
            (r = None ->
             exists resp, In (EvJSON AtSuccess resp) update_failing_trace /\
                          success resp = true).
Proof.
  assert (E : run (ZkpOAuth update_failing_world demo_request) Globals_init
              = (Returned tt, Globals_ready, update_failing_trace))
    by reflexivity.
  pose proof (proj1 (ZkpOAuth_persistence_failures _ _ _ _ _ _ E)) as H.
  assert (Hin : exists u u',
             In (EvUpdateUser u (u', Some "database is locked"))
                update_failing_trace /\
             Status u' = UserStatusEnabled update_failing_world).
  { do 2 eexists. split; [unfold update_failing_trace; simpl; tauto|].
    reflexivity. }
  destruct Hin as (u & u' & Hin & Hst).
  destruct (H u u' _ Hin) as (Hlog & Hok & _).
  split; [exact Hlog|exact (Hok Hst)].
Defined.

(* ================================================================== *)
(** * Further properties of the service and of the login flow          *)
(* ================================================================== *)

(** ** Denials before and after the transaction *)

Lemma wp_call_ended {R A} (f : M A A) g
    (P : Outcome A -> Globals -> list Event -> Prop)
    (Q : Step R A -> Globals -> list Event -> Prop) :
  wp f g (fun s g1 t1 => P (ended s) g1 t1) ->
  (forall a g1 t1, P (Returned a) g1 t1 -> Q (Next a) g1 t1) ->
  (forall msg g1 t1, P (Panicked msg) g1 t1 -> Q (Panic msg) g1 t1) ->
  wp (call f) g Q.
Proof.
  unfold wp, call. destruct (f g) as [[[a|r|msg] g1] t1]; cbn; auto.
Qed.

Lemma quiet_not_accepted t1 : quiet t1 ->
  forall t, existsb is_accepted (t1 ++ t) = existsb is_accepted t.
Proof.
  induction t1 as [|e t1 IH]; intros Hq t; [reflexivity|].
  pose proof (Hq e (or_introl eq_refl)) as He.
  simpl. rewrite IH by (intros e' He'; apply Hq; now right).
  destruct e; try discriminate He; reflexivity.
Qed.

Lemma VerifyProof_commit (w : World) (payload : ZkpPayload) g :
  wp (VerifyProof w payload) g
     (fun s _ t => service_only t /\ commit_post payload (ended s) t).
Proof.
  unfold VerifyProof. wp_all.
  all: split; [service_leaf|].
  all: cbn [ended app commit_post verify_fail].
  all: rewrite ?quiet_not_accepted by assumption; try reflexivity.
  do 2 eexists. split; [|reflexivity].
  do 2 (apply in_or_app; right). simpl. do 3 right. left. reflexivity.
Qed.

Ltac flow_branch :=
  lazymatch goal with
  | |- wp (call (VerifyProof _ ?p)) _ _ =>
      apply (wp_call_ended _ _
               (fun out _ t => service_only t /\ commit_post p out t));
      [ apply VerifyProof_commit
      | intros [[? ?] ?] ? ? [? ?] | intros ? ? ? [? ?] ]
  | |- wp (call (IsClubMember _ _)) _ _ =>
      apply (wp_call_post _ _ (fun _ t => service_only t));
      [ apply IsClubMember_service | intros ? ? ? ? | intros ? ? ? ? ]
  | |- wp (match snd ?p with _ => _ end) _ _ =>
      destruct p as [? ?] eqn:?; cbn [fst snd]
  | |- wp (match ?x with _ => _ end) _ _ => destruct x eqn:?
  end.

Ltac flow_all :=
  repeat first [ progress cbn [called fst snd]
               | flow_branch
               | wp_step ].

Lemma service_not_store (t : list Event) :
  service_only t -> forall ev, In ev t -> is_store ev = false /\ is_session ev = false.
Proof.
  intros H ev Hin. specialize (H ev Hin). destruct ev; try discriminate H;
    split; reflexivity.
Qed.

(** X1.  A request refused before the proof is verified (key not configured,
    body not bound, code not parsed) writes its response and does nothing
    else: the trace is that one response and the package variables are as
    they were. A request refused at the verification has made no call to the
    account store and none to the session. *)
Theorem ZkpOAuth_early_denials
    (w : World) (c : Context) (g : Globals)
    (out : Outcome unit) (g' : Globals) (t : list Event)
    (site : Site) (r : Response) :
  run (ZkpOAuth w c) g = (out, g', t) ->
  In (EvJSON site r) t ->
  (before_verify site = true -> t = [EvJSON site r] /\ g' = g) /\
  (site = AtVerify ->
   forall ev, In ev t -> is_store ev = false /\ is_session ev = false).
Proof.
  revert out g' t.
  apply (wp_run (ZkpOAuth w c) g
           (fun _ g' t =>
              In (EvJSON site r) t ->
              (before_verify site = true -> t = [EvJSON site r] /\ g' = g) /\
              (site = AtVerify ->
               forall ev, In ev t ->
                          is_store ev = false /\ is_session ev = false))).
  unfold ZkpOAuth, setupZkpLogin, deny.
  flow_all.
  all: cbn [ended app]; intros Hin; in_ctrl Hin.
  all: injection Hin as <- <-.
  all: split; [intros E; try discriminate E|intros E; try discriminate E].
  all: try (split; reflexivity).
  intros ev Hev. apply in_app_or in Hev. destruct Hev as [Hev|Hev].
  - eapply service_not_store; eassumption.
  - simpl in Hev. destruct Hev as [<-|[<-|[]]]; split; reflexivity.
Qed.

Lemma In_accepted (t : list Event) opts m a tx :
  In (EvTransact opts m a (inl tx)) t -> existsb is_accepted t = true.
Proof.
  intros H. apply existsb_exists. eexists. split; [exact H|reflexivity].
Qed.

(** X2.  In a run that writes a response, the node has accepted a
    transaction exactly when the response is written after the verification:
    every later denial (not a member, account deleted, registration closed,
    store error, account disabled, session not saved) comes after the
    [verifyProof] transaction of the parsed payload was sent and accepted. *)
Theorem ZkpOAuth_answers_after_commit
    (w : World) (c : Context) (g : Globals)
    (out : Outcome unit) (g' : Globals) (t : list Event)
    (site : Site) (r : Response) :
  run (ZkpOAuth w c) g = (out, g', t) ->
  In (EvJSON site r) t ->
  (existsb is_accepted t = true <-> past_verify site = true) /\
  (past_verify site = true ->
   exists req payload opts tx,
     ShouldBindJSON c = inl req /\
     ParseZkpCode (ZkpCode req) = inl payload /\
     In (EvTransact opts "verifyProof" (verifyProof_args payload) (inl tx)) t).
Proof.
  revert out g' t.
  apply (wp_run (ZkpOAuth w c) g
           (fun _ _ t =>
              In (EvJSON site r) t ->
              (existsb is_accepted t = true <-> past_verify site = true) /\
              (past_verify site = true ->
               exists req payload opts tx,
                 ShouldBindJSON c = inl req /\
                 ParseZkpCode (ZkpCode req) = inl payload /\
                 In (EvTransact opts "verifyProof" (verifyProof_args payload)
                                (inl tx)) t))).
  unfold ZkpOAuth, setupZkpLogin, deny.
  flow_all.
  all: cbn [ended app]; intros Hin; in_ctrl Hin.
  all: injection Hin as <- <-.
  all: cbn [past_verify].
  all: try match goal with
           | H : commit_post _ (Returned (_, _, None)) _ |- _ =>
               destruct H as (xopts & xtx & Hacc & _)
           end.
  all: split;
    [ split; intros E; try reflexivity; try discriminate E
    | intros E; try discriminate E ].
  all: try (eapply In_accepted; apply in_or_app; left; eassumption).
  all: try (do 4 eexists; split; [reflexivity|split; [eassumption|]];
            apply in_or_app; left; eassumption).
  all: rewrite existsb_app in E; cbn [commit_post] in *.
  all: match goal with H : existsb is_accepted _ = false |- _ => rewrite H in E end.
  all: discriminate E.
Qed.

(** ** The success response and the session *)

Lemma service_no_session t : service_only t -> filter is_session t = [].
Proof.
  induction t as [|e t IH]; intros H; [reflexivity|].
  simpl. pose proof (H e (or_introl eq_refl)) as He.
  destruct e; try discriminate He; simpl; apply IH;
    intros x Hx; apply H; now right.
Qed.

(** X3.  The success response is written only after the transaction of the
    parsed payload was accepted; it carries the hash of that transaction and
    the fields of the account as the store returned it from the update or
    the insert, whose status is the enabled one; and the session calls of
    the run are the five values of that account, in source order, followed
    by a save that succeeded. *)
Theorem ZkpOAuth_success
    (w : World) (c : Context) (g : Globals)
    (out : Outcome unit) (g' : Globals) (t : list Event) (r : Response) :
  run (ZkpOAuth w c) g = (out, g', t) ->
  In (EvJSON AtSuccess r) t ->
  exists req payload opts tx u,
    ShouldBindJSON c = inl req /\
    ParseZkpCode (ZkpCode req) = inl payload /\
    In (EvTransact opts "verifyProof" (verifyProof_args payload) (inl tx)) t /\
    stored_by t u /\
    Status u = UserStatusEnabled w /\
    filter is_session t = session_calls u None /\
    r = {| http_status := 200; success := true; message := "";
           data := Some {| d_id := Id u;
                           d_username := Username u;
                           d_display_name := DisplayName u;
                           d_role := Role u;
                           d_status := Status u;
                           d_group := Group u;
                           d_wallet_address := WalletAddress u;
                           d_tx_hash := tx_hash_hex tx |} |}.
Proof.
  revert out g' t.
  apply (wp_run (ZkpOAuth w c) g
           (fun _ _ t =>
              In (EvJSON AtSuccess r) t ->
              exists req payload opts tx u,
                ShouldBindJSON c = inl req /\
                ParseZkpCode (ZkpCode req) = inl payload /\
                In (EvTransact opts "verifyProof" (verifyProof_args payload)
                               (inl tx)) t /\
                stored_by t u /\
                Status u = UserStatusEnabled w /\
                filter is_session t = session_calls u None /\
                r = {| http_status := 200; success := true; message := "";
                       data := Some {| d_id := Id u;
                                       d_username := Username u;
                                       d_display_name := DisplayName u;
                                       d_role := Role u;
                                       d_status := Status u;
                                       d_group := Group u;
                                       d_wallet_address := WalletAddress u;
                                       d_tx_hash := tx_hash_hex tx |} |})).
  unfold ZkpOAuth, setupZkpLogin, deny.
  flow_all.
  all: cbn [ended app]; intros Hin; in_ctrl Hin.
  all: injection Hin as <-.
  all: status_facts.
  all: match goal with
       | H : commit_post _ (Returned (_, _, None)) _ |- _ =>
           destruct H as (xopts & xtx & Hacc & ->)
       end.
  all: do 5 eexists.
  all: split; [reflexivity|split; [eassumption|]].
  all: split; [apply in_or_app; left; eassumption|].
  all: split;
    [ first [ solve [left; do 2 eexists; in_now]
            | solve [right; do 2 eexists; in_now] ] |].
  all: split; [assumption|].
  all: split;
    [rewrite !List.filter_app, !service_no_session by assumption; reflexivity|].
  all: reflexivity.
Qed.

(** X4.  The session is touched only on the way to a login: a run that
    writes a denial other than the one for a failed save makes no session
    call; a run that writes the denial for a failed save has set the five
    values of the stored, enabled account and the save returned an error. *)
Theorem ZkpOAuth_session_only_to_log_in
    (w : World) (c : Context) (g : Globals)
    (out : Outcome unit) (g' : Globals) (t : list Event)
    (site : Site) (r : Response) :
  run (ZkpOAuth w c) g = (out, g', t) ->
  In (EvJSON site r) t ->
  (site <> AtSuccess -> site <> AtSessionSave -> filter is_session t = []) /\
  (site = AtSessionSave ->
   exists u e,
     stored_by t u /\ Status u = UserStatusEnabled w /\
     session_Save w [("id", SInt (Id u)); ("username", SStr (Username u));
                     ("role", SInt (Role u)); ("status", SInt (Status u));
                     ("group", SStr (Group u))] = Some e /\
     filter is_session t = session_calls u (Some e)).
Proof.
  revert out g' t.
  apply (wp_run (ZkpOAuth w c) g
           (fun _ _ t =>
              In (EvJSON site r) t ->
              (site <> AtSuccess -> site <> AtSessionSave ->
               filter is_session t = []) /\
              (site = AtSessionSave ->
               exists u e,
                 stored_by t u /\ Status u = UserStatusEnabled w /\
                 session_Save w [("id", SInt (Id u));
                                 ("username", SStr (Username u));
                                 ("role", SInt (Role u));
                                 ("status", SInt (Status u));
                                 ("group", SStr (Group u))] = Some e /\
                 filter is_session t = session_calls u (Some e)))).
  unfold ZkpOAuth, setupZkpLogin, deny.
  flow_all.
  all: cbn [ended app]; intros Hin; in_ctrl Hin.
  all: injection Hin as <- <-.
  all: status_facts.
  all: split; [intros E1 E2|intros E; try discriminate E].
  all: try (exfalso; first [apply E1; reflexivity|apply E2; reflexivity]).
  all: try (rewrite ?List.filter_app, ?service_no_session by assumption;
            reflexivity).
  all: do 2 eexists.
  all: split;
    [ first [ solve [left; do 2 eexists; in_now]
            | solve [right; do 2 eexists; in_now] ] |].
  all: split; [assumption|].
  all: split; [eassumption|].
  all: rewrite !List.filter_app, !service_no_session by assumption; reflexivity.
Qed.

(** ** The calls to the account store *)

Lemma service_no_store t : service_only t -> filter is_store t = [].
Proof.
  induction t as [|e t IH]; intros H; [reflexivity|].
  simpl. pose proof (H e (or_introl eq_refl)) as He.
  destruct e; try discriminate He; simpl; apply IH;
    intros x Hx; apply H; now right.
Qed.

(** X6.  When the wallet is known to the store, the store is asked to load
    the account of that wallet and then either nothing more (the load
    failed, or the account has id 0: it is never updated) or exactly one
    update, of the loaded account with only its [ZkpHash] replaced by the
    decimal numeral of [Input[0]]; nothing is inserted and no invitation
    code is looked up. *)
Theorem ZkpOAuth_existing_account
    (w : World) (c : Context) (g : Globals)
    (out : Outcome unit) (g' : Globals) (t : list Event)
    (wallet : string) :
  run (ZkpOAuth w c) g = (out, g', t) ->
  In (EvIsWalletAddressAlreadyTaken wallet true) t ->
  exists loaded err,
    FillUserByWalletAddress w (User_zero wallet) = (loaded, err) /\
    ((err <> None \/ Id loaded = 0) /\
     filter is_store t =
       [EvIsWalletAddressAlreadyTaken wallet true;
        EvFillUser (User_zero wallet) (loaded, err)]
     \/
     err = None /\ Id loaded <> 0 /\
     exists req payload u,
       ShouldBindJSON c = inl req /\
       ParseZkpCode (ZkpCode req) = inl payload /\
       same_but_ZkpHash loaded u /\
       ZkpHash u = Int_String (Input payload) /\
       filter is_store t =
         [EvIsWalletAddressAlreadyTaken wallet true;
          EvFillUser (User_zero wallet) (loaded, None);
          EvUpdateUser u (Update w u false)]).
Proof.
  revert out g' t.
  apply (wp_run (ZkpOAuth w c) g
           (fun _ _ t =>
              In (EvIsWalletAddressAlreadyTaken wallet true) t ->
              exists loaded err,
                FillUserByWalletAddress w (User_zero wallet) = (loaded, err) /\
                ((err <> None \/ Id loaded = 0) /\
                 filter is_store t =
                   [EvIsWalletAddressAlreadyTaken wallet true;
                    EvFillUser (User_zero wallet) (loaded, err)]
                 \/
                 err = None /\ Id loaded <> 0 /\
                 exists req payload u,
                   ShouldBindJSON c = inl req /\
                   ParseZkpCode (ZkpCode req) = inl payload /\
                   same_but_ZkpHash loaded u /\
                   ZkpHash u = Int_String (Input payload) /\
                   filter is_store t =
                     [EvIsWalletAddressAlreadyTaken wallet true;
                      EvFillUser (User_zero wallet) (loaded, None);
                      EvUpdateUser u (Update w u false)]))).
  unfold ZkpOAuth, setupZkpLogin, deny.
  flow_all.
  all: cbn [ended app]; intros Hin; in_ctrl Hin.
  all: injection Hin as <-.
  all: do 2 eexists; split; [eassumption|].
  all: rewrite !List.filter_app, !service_no_store by assumption.
  all: cbn [app filter is_store].
  all: first
    [ left; split; [|reflexivity];
      first [ left; discriminate | right; apply Z.eqb_eq; assumption ]
    | right; split; [reflexivity|]; split; [apply Z.eqb_neq; assumption|];
      refine (ex_intro _ _ (ex_intro _ _ (ex_intro _ (with_ZkpHash _ _) _)));
      split; [reflexivity|]; split; [eassumption|];
      split; [unfold same_but_ZkpHash; cbn; repeat split|];
      split; [reflexivity|];
      match goal with Hu : Update _ _ _ = _ |- _ => rewrite Hu end;
      reflexivity ].
Qed.

(** X7.  When the wallet is not known to the store: with registration
    closed, the look-up is the only call to the store and the
    closed-registration denial is written; with registration open, the store
    sees the look-up, then the look-up of the invitation code if the request
    has one, then one insert of the new account, with inviter 0 when there
    is no invitation code and else the id the look-up returned, its error
    ignored. *)
Theorem ZkpOAuth_new_wallet
    (w : World) (c : Context) (g : Globals)
    (out : Outcome unit) (g' : Globals) (t : list Event)
    (wallet : string) :
  run (ZkpOAuth w c) g = (out, g', t) ->
  In (EvIsWalletAddressAlreadyTaken wallet false) t ->
  (RegisterEnabled w = false ->
   filter is_store t = [EvIsWalletAddressAlreadyTaken wallet false] /\
   In (EvJSON AtRegisterClosed (denial StatusOK msg_register_closed)) t) /\
  (RegisterEnabled w = true ->
   exists req payload,
     ShouldBindJSON c = inl req /\
     ParseZkpCode (ZkpCode req) = inl payload /\
     let u := new_user w wallet (Int_String (Input payload)) in
     let inviter := GetUserIdByAffCode w (AffCode req) in
     (AffCode req = "" ->
      filter is_store t =
        [EvIsWalletAddressAlreadyTaken wallet false;
         EvInsertUser u 0 (Insert w u 0)]) /\
     (AffCode req <> "" ->
      filter is_store t =
        [EvIsWalletAddressAlreadyTaken wallet false;
         EvGetUserIdByAffCode (AffCode req) inviter;
         EvInsertUser u (fst inviter) (Insert w u (fst inviter))])).
Proof.
  revert out g' t.
  apply (wp_run (ZkpOAuth w c) g
           (fun _ _ t =>
              In (EvIsWalletAddressAlreadyTaken wallet false) t ->
              (RegisterEnabled w = false ->
               filter is_store t = [EvIsWalletAddressAlreadyTaken wallet false] /\
               In (EvJSON AtRegisterClosed (denial StatusOK msg_register_closed)) t) /\
              (RegisterEnabled w = true ->
               exists req payload,
                 ShouldBindJSON c = inl req /\
                 ParseZkpCode (ZkpCode req) = inl payload /\
                 let u := new_user w wallet (Int_String (Input payload)) in
                 let inviter := GetUserIdByAffCode w (AffCode req) in
                 (AffCode req = "" ->
                  filter is_store t =
                    [EvIsWalletAddressAlreadyTaken wallet false;
                     EvInsertUser u 0 (Insert w u 0)]) /\
                 (AffCode req <> "" ->
                  filter is_store t =
                    [EvIsWalletAddressAlreadyTaken wallet false;
                     EvGetUserIdByAffCode (AffCode req) inviter;
                     EvInsertUser u (fst inviter) (Insert w u (fst inviter))])))).
  unfold ZkpOAuth, setupZkpLogin, deny.
  flow_all.
  all: cbn [ended app]; intros Hin; in_ctrl Hin.
  all: injection Hin as <-.
  all: rewrite !List.filter_app, !service_no_store by assumption.
  all: cbn [app filter is_store].
  all: match goal with
       | H : negb (RegisterEnabled _) = _ |- _ =>
           destruct (RegisterEnabled w); try discriminate H
       end.
  all: split; intros E; try discriminate E.
  all: try (split; [reflexivity|in_now]).
  all: do 2 eexists; split; [reflexivity|]; split; [eassumption|].
  all: cbv zeta.
  all: match goal with
       | H : negb (AffCode _ =? "")%string = true |- _ =>
           apply negb_true_iff, String.eqb_neq in H
       | H : negb (AffCode _ =? "")%string = false |- _ =>
           apply negb_false_iff, String.eqb_eq in H
       end.
  all: split; intros E'; try contradiction; try congruence.
  all: repeat match goal with
              | Hi : Insert _ _ _ = _ |- _ => rewrite Hi; clear Hi
              | Ha : GetUserIdByAffCode _ _ = _ |- _ => rewrite Ha; clear Ha
              end.
  all: reflexivity.
Qed.

(** ** The requests of the verifier *)

Lemma requests_app (t1 t2 : list Event) :
  requests (t1 ++ t2) = (requests t1 ++ requests t2)%list.
Proof.
  induction t1 as [|e t1 IH]; [reflexivity|].
  simpl. destruct (request_of e); simpl; now rewrite IH.
Qed.

Lemma quiet_requests (t : list Event) : quiet t -> requests t = [].
Proof.
  induction t as [|e t IH]; intros H; [reflexivity|].
  pose proof (H e (or_introl eq_refl)) as He.
  simpl. rewrite IH by (intros x Hx; apply H; now right).
  destruct e; try discriminate He; reflexivity.
Qed.

Lemma quiet_In (t1 t : list Event) (e : Event) :
  quiet t1 -> is_setup e = false -> In e (t1 ++ t) -> In e t.
Proof.
  intros H1 He Hin. apply in_app_or in Hin. destruct Hin as [Hin|Hin]; auto.
  rewrite (H1 e Hin) in He. discriminate.
Qed.

Ltac in_quiet H :=
  repeat (apply quiet_In in H; [|assumption|reflexivity]);
  simpl in H;
  repeat (destruct H as [H|H]; [try discriminate H|]);
  try contradiction.

Lemma VerifyProof_requests_wp (w : World) (payload : ZkpPayload) g :
  wp (VerifyProof w payload) g
     (fun s _ t => service_only t /\ verify_requests (ended s) t).
Proof.
  unfold VerifyProof. wp_all.
  all: split; [service_leaf|].
  all: cbn [ended app]; unfold verify_requests, verify_fail.
  all: rewrite ?requests_app, ?quiet_requests by assumption; cbn.
  all: split; [eexists; reflexivity|intros wa txh E; try discriminate E].
  reflexivity.
Qed.

(** X8.  The requests [VerifyProof] sends to the chain node are an initial
    part of: pending nonce, gas price, simulation, transaction, each at most
    once in this order; a run that returns no error has sent all four. *)
Theorem VerifyProof_requests_in_order
    (w : World) (payload : ZkpPayload) (g : Globals)
    (out : Outcome VerifyResult) (g' : Globals) (t : list Event) :
  run (VerifyProof w payload) g = (out, g', t) ->
  (exists rest,
      [ReqNonce; ReqGasPrice; ReqCall; ReqSend] = (requests t ++ rest)%list) /\
  (forall wa txh,
      out = Returned (wa, txh, None) ->
      requests t = [ReqNonce; ReqGasPrice; ReqCall; ReqSend]).
Proof.
  intros Hrun.
  exact (proj2 (wp_run _ _
                  (fun out _ t => service_only t /\ verify_requests out t)
                  (VerifyProof_requests_wp w payload g) _ _ _ Hrun)).
Qed.

(** X9.  Every transaction [VerifyProof] sends calls [verifyProof] with the
    four arguments of the payload, on chain 8453 with gas limit 300000, from
    the address of the configured key (read after an optional 0x), with the
    nonce and the gas price the node answered in this run, and goes to the
    contract, with the payload, that the simulation of this run was sent to
    from the same address. *)
Theorem VerifyProof_transaction
    (w : World) (payload : ZkpPayload) (g : Globals)
    (out : Outcome VerifyResult) (g' : Globals) (t : list Event)
    (opts : TransactOpts) (m : string) (args : list AbiArg) (r : Tx + error) :
  run (VerifyProof w payload) g = (out, g', t) ->
  In (EvTransact opts m args r) t ->
  m = "verifyProof" /\ args = verifyProof_args payload /\
  opt_chainID opts = 8453 /\ opt_GasLimit opts = 300000 /\
  exists key client nonce gasPrice msg result,
    crypto_HexToECDSA w (key_text w) = inl key /\
    opt_From opts = crypto_PubkeyToAddress w key /\
    ethClient g' = Some client /\
    In (EvPendingNonceAt (opt_From opts) (inl nonce)) t /\
    opt_Nonce opts = Some (int64_of_uint64 nonce) /\
    In (EvSuggestGasPrice (inl gasPrice)) t /\
    opt_GasPrice opts = Some gasPrice /\
    In (EvCallContract msg (inl result)) t /\
    msg_From msg = Some (opt_From opts) /\
    msg_To msg = HexToAddress w ZkpContractAddress /\
    abi_Pack w (zkpABI g') "verifyProof" args = inl (msg_Data msg) /\
    r = Transact w client (zkpABI g') (msg_To msg) opts m args.
Proof.
  revert out g' t.
  apply (wp_run (VerifyProof w payload) g
           (fun _ g' t =>
              In (EvTransact opts m args r) t ->
              m = "verifyProof" /\ args = verifyProof_args payload /\
              opt_chainID opts = 8453 /\ opt_GasLimit opts = 300000 /\
              exists key client nonce gasPrice msg result,
                crypto_HexToECDSA w (key_text w) = inl key /\
                opt_From opts = crypto_PubkeyToAddress w key /\
                ethClient g' = Some client /\
                In (EvPendingNonceAt (opt_From opts) (inl nonce)) t /\
                opt_Nonce opts = Some (int64_of_uint64 nonce) /\
                In (EvSuggestGasPrice (inl gasPrice)) t /\
                opt_GasPrice opts = Some gasPrice /\
                In (EvCallContract msg (inl result)) t /\
                msg_From msg = Some (opt_From opts) /\
                msg_To msg = HexToAddress w ZkpContractAddress /\
                abi_Pack w (zkpABI g') "verifyProof" args = inl (msg_Data msg) /\
                r = Transact w client (zkpABI g') (msg_To msg) opts m args)).
  unfold VerifyProof. wp_all.
  all: cbn [ended app]; intros Hin; in_quiet Hin.
  all: injection Hin as <- <- <- <-.
  all: do 4 (split; [reflexivity|]).
  all: do 6 eexists.
  all: split; [unfold key_text; eassumption|].
  all: split; [reflexivity|].
  all: split;
    [ match goal with
      | Hs : same_client _ ?g0 |- ethClient ?g0 = _ =>
          destruct Hs as (Hc & _); rewrite Hc; eassumption
      end |].
  all: split; [in_now|].
  all: split; [reflexivity|].
  all: split; [in_now|].
  all: split; [reflexivity|].
  all: split; [in_now|].
  all: cbn [msg_From msg_To msg_Data opt_From].
  all: split; [reflexivity|].
  all: split; [reflexivity|].
  all: split; [eassumption|].
  all: symmetry; eassumption.
Qed.

(** X10.  Every error result of [VerifyProof] has an empty transaction hash;
    its wallet address is empty unless a transaction was sent; and a
    transaction in the trace of an error result was refused by the node, the
    error being failed to send transaction followed by the node's error. *)
Theorem VerifyProof_error_results
    (w : World) (payload : ZkpPayload) (g g' : Globals) (t : list Event)
    (wa txh : string) (e : error) :
  run (VerifyProof w payload) g = (Returned (wa, txh, Some e), g', t) ->
  txh = "" /\
  (existsb is_tx t = false -> wa = "") /\
  (forall opts m a r,
      In (EvTransact opts m a r) t ->
      exists err, r = inr err /\ e = "failed to send transaction: " ++ err).
Proof.
  intros Hrun.
  refine (wp_run (VerifyProof w payload) g
            (fun out _ t =>
               out = Returned (wa, txh, Some e) ->
               txh = "" /\
               (existsb is_tx t = false -> wa = "") /\
               (forall opts m a r,
                   In (EvTransact opts m a r) t ->
                   exists err,
                     r = inr err /\ e = "failed to send transaction: " ++ err))
            _ _ _ _ Hrun eq_refl).
  unfold VerifyProof. wp_all.
  all: cbn [ended app]; unfold verify_fail; intros E; try discriminate E.
  all: injection E as <- <- <-.
  all: split; [reflexivity|].
  all: split;
    [ intros Hno; try reflexivity
    | intros xopts xm xa xr Hin; in_quiet Hin ].
  - rewrite !quiet_no_tx in Hno by assumption. discriminate Hno.
  - injection Hin as <- <- <- <-. eexists. split; reflexivity.
Qed.

(** ** The status queries *)

Lemma FillBytes_Some (x : Z) (bs : list Z) :
  FillBytes x 32 = Some bs -> bytes32_of x bs.
Proof.
  intros H.
  destruct (Z.ltb_spec (Z.abs x) (2 ^ 256)) as [Hlt|Hge].
  - destruct (FillBytes_in_range x 32 Hlt) as (bs' & Hbs & Hl & Hf & Hv).
    rewrite Hbs in H. injection H as <-. repeat split; assumption.
  - rewrite (FillBytes_out_of_range x 32) in H by exact Hge. discriminate H.
Qed.

(** X11.  [GetHashStatus] sends at most one request, a read-only call with
    [From] unset; an identifier that is no decimal numeral gives an error
    and no request; and every call goes to the verifier contract with the
    packing of the 32 big-endian bytes of the absolute value of the numeral,
    which is below 2^256. *)
Theorem GetHashStatus_query
    (w : World) (zkpHash : string) (g : Globals)
    (out : Outcome (ZkpStatus + error)) (g' : Globals) (t : list Event) :
  run (GetHashStatus w zkpHash) g = (out, g', t) ->
  read_only t /\
  (SetString zkpHash 10 = None ->
   requests t = [] /\ exists e, out = Returned (inr e)) /\
  (forall msg r,
      In (EvCallContract msg r) t ->
      msg_To msg = HexToAddress w ZkpContractAddress /\
      exists n hash32,
        SetString zkpHash 10 = Some n /\
        bytes32_of n hash32 /\
        abi_Pack w (zkpABI g') "getHashStatus" [ArgBytes32 hash32]
        = inl (msg_Data msg)).
Proof.
  revert out g' t.
  apply (wp_run (GetHashStatus w zkpHash) g
           (fun out g' t =>
              read_only t /\
              (SetString zkpHash 10 = None ->
               requests t = [] /\ exists e, out = Returned (inr e)) /\
              (forall msg r,
                  In (EvCallContract msg r) t ->
                  msg_To msg = HexToAddress w ZkpContractAddress /\
                  exists n hash32,
                    SetString zkpHash 10 = Some n /\
                    bytes32_of n hash32 /\
                    abi_Pack w (zkpABI g') "getHashStatus" [ArgBytes32 hash32]
                    = inl (msg_Data msg)))).
  unfold GetHashStatus. wp_all.
  all: cbn [ended app]; unfold read_only.
  all: rewrite ?requests_app, ?quiet_requests by assumption; cbn [requests request_of app].
  all: split;
    [ split; [auto|intros xmsg xr Hin; in_quiet Hin; injection Hin as <- _; reflexivity]
    | split;
      [ intros Hnone;
        first [congruence|split; [reflexivity|eexists; reflexivity]]
      | intros xmsg xr Hin; in_quiet Hin ] ].
  all: injection Hin as <- _; split; [reflexivity|].
  all: do 2 eexists; split; [reflexivity|].
  all: split; [apply FillBytes_Some; eassumption|eassumption].
Qed.

Lemma GetHashStatus_answer
    (w : World) (zkpHash : string) (g : Globals)
    (out : Outcome (ZkpStatus + error)) (g' : Globals) (t : list Event) :
  run (GetHashStatus w zkpHash) g = (out, g', t) ->
  read_only t /\
  forall st,
    out = Returned (inl st) ->
    requests t = [ReqCall] /\
    exists msg result outs,
      In (EvCallContract msg (inl result)) t /\
      abi_Unpack w (zkpABI g') "getHashStatus" result = inl outs /\
      List.length outs = 3%nat /\
      IsActive st = as_bool (nth 0 outs VOther) /\
      Exists st = as_bool (nth 2 outs VOther).
Proof.
  revert out g' t.
  apply (wp_run (GetHashStatus w zkpHash) g
           (fun out g' t =>
              read_only t /\
              forall st,
                out = Returned (inl st) ->
                requests t = [ReqCall] /\
                exists msg result outs,
                  In (EvCallContract msg (inl result)) t /\
                  abi_Unpack w (zkpABI g') "getHashStatus" result = inl outs /\
                  List.length outs = 3%nat /\
                  IsActive st = as_bool (nth 0 outs VOther) /\
                  Exists st = as_bool (nth 2 outs VOther))).
  unfold GetHashStatus. wp_all.
  all: cbn [ended app]; unfold read_only.
  all: rewrite ?requests_app, ?quiet_requests by assumption;
    cbn [requests request_of app].
  all: split;
    [ split; [auto|intros xmsg xr Hin; in_quiet Hin; injection Hin as <- _;
                   reflexivity]
    | intros st E; try discriminate E ].
  injection E as <-. split; [reflexivity|].
  do 3 eexists. split; [in_now|]. split; [eassumption|].
  split; [|split; reflexivity].
  match goal with
  | Hl : negb (_ =? 3)%nat = false |- _ =>
      apply negb_false_iff, Nat.eqb_eq in Hl; exact Hl
  end.
Qed.

Lemma CheckClubMembership_answer
    (w : World) (walletAddress clubName : string) (g : Globals)
    (out : Outcome (MembershipStatus + error)) (g' : Globals)
    (t : list Event) :
  run (CheckClubMembership w walletAddress clubName) g = (out, g', t) ->
  read_only t /\
  (forall msg r,
      In (EvCallContract msg r) t ->
      msg_To msg = HexToAddress w MembershipQueryAddress /\
      abi_Pack w (membershipABI g') "checkDetailedMembership"
               [ArgAddress (HexToAddress w walletAddress); ArgString clubName]
      = inl (msg_Data msg)) /\
  forall st,
    out = Returned (inl st) ->
    requests t = [ReqCall] /\
    exists msg result outs,
      In (EvCallContract msg (inl result)) t /\
      abi_Unpack w (membershipABI g') "checkDetailedMembership" result
      = inl outs /\
      List.length outs = 4%nat /\
      IsMember st = existsb as_bool outs.
Proof.
  revert out g' t.
  apply (wp_run (CheckClubMembership w walletAddress clubName) g
           (fun out g' t =>
              read_only t /\
              (forall msg r,
                  In (EvCallContract msg r) t ->
                  msg_To msg = HexToAddress w MembershipQueryAddress /\
                  abi_Pack w (membershipABI g') "checkDetailedMembership"
                           [ArgAddress (HexToAddress w walletAddress);
                            ArgString clubName]
                  = inl (msg_Data msg)) /\
              forall st,
                out = Returned (inl st) ->
                requests t = [ReqCall] /\
                exists msg result outs,
                  In (EvCallContract msg (inl result)) t /\
                  abi_Unpack w (membershipABI g') "checkDetailedMembership"
                             result = inl outs /\
                  List.length outs = 4%nat /\
                  IsMember st = existsb as_bool outs)).
  unfold CheckClubMembership. wp_all.
  all: cbn [ended app]; unfold read_only.
  all: rewrite ?requests_app, ?quiet_requests by assumption;
    cbn [requests request_of app].
  all: split;
    [ split; [auto|intros xmsg xr Hin; in_quiet Hin; injection Hin as <- _;
                   reflexivity]
    | split;
      [ intros xmsg xr Hin; in_quiet Hin;
        (injection Hin as <- _; split; [reflexivity|eassumption])
      | intros st E; try discriminate E ] ].
  injection E as <-. split; [reflexivity|].
  do 3 eexists. split; [in_now|]. split; [eassumption|].
  match goal with
  | Hl : negb (List.length ?l =? 4)%nat = false |- _ =>
      apply negb_false_iff, Nat.eqb_eq in Hl;
      destruct l as [|o1 [|o2 [|o3 [|o4 [|o5 l]]]]]; try discriminate Hl
  end.
  split; [reflexivity|]. cbn. now rewrite orb_false_r, !orb_assoc.
Qed.

Lemma as_bool_true (v : AbiValue) : as_bool v = true -> v = VBool true.
Proof. destruct v as [a|[|]|]; simpl; intros H; now try discriminate H. Qed.

Lemma read_only_log (t : list Event) (line : string) :
  read_only t -> read_only (t ++ [EvSysLog line]).
Proof.
  intros [Hr Hf]. split.
  - rewrite requests_app. cbn. now rewrite List.app_nil_r.
  - intros msg r Hin. apply in_app_or in Hin. destruct Hin as [Hin|[Hin|[]]];
      [now apply (Hf msg r)|discriminate Hin].
Qed.

Lemma read_only_nil : read_only [].
Proof. split; [now left|intros msg r []]. Qed.

(** X12.  On a non-empty identifier [IsZkpValid] returns true only after
    exactly one call whose answer unpacks to three outputs, the first
    (active) and the third (exists) being the boolean true. *)
Theorem IsZkpValid_true_from_chain
    (w : World) (zkpHash : string) (g g' : Globals) (t : list Event) :
  run (IsZkpValid w zkpHash) g = (Returned true, g', t) ->
  zkpHash <> "" ->
  requests t = [ReqCall] /\
  exists msg result deployer,
    In (EvCallContract msg (inl result)) t /\
    abi_Unpack w (zkpABI g') "getHashStatus" result
    = inl [VBool true; deployer; VBool true].
Proof.
  intros Hrun Hne. rewrite (IsZkpValid_cases w zkpHash g Hne) in Hrun.
  destruct (run (GetHashStatus w zkpHash) g) as [[[[st|e]|m] g1] t1] eqn:E;
    try discriminate Hrun.
  injection Hrun as Hb -> ->.
  destruct (proj2 (GetHashStatus_answer _ _ _ _ _ _ E) st eq_refl)
    as (Hreq & msg & result & outs & Hin & Hun & Hlen & Hact & Hex).
  split; [exact Hreq|].
  apply andb_prop in Hb. destruct Hb as [Hb1 Hb2].
  rewrite Hex in Hb1. rewrite Hact in Hb2.
  destruct outs as [|o1 [|o2 [|o3 [|o4 outs]]]]; try discriminate Hlen.
  cbn in Hb1, Hb2. apply as_bool_true in Hb1, Hb2. subst o1 o3.
  now exists msg, result, o2.
Qed.

(** X13.  On a non-empty wallet [IsClubMember] returns true only after
    exactly one read-only call of the membership contract for this wallet
    and the club ai, whose answer unpacks to four outputs one of which is
    the boolean true. *)
Theorem IsClubMember_true_from_chain
    (w : World) (walletAddress : string) (g g' : Globals) (t : list Event) :
  run (IsClubMember w walletAddress) g = (Returned true, g', t) ->
  walletAddress <> "" ->
  requests t = [ReqCall] /\
  exists msg result outs,
    In (EvCallContract msg (inl result)) t /\
    msg_From msg = None /\
    msg_To msg = HexToAddress w MembershipQueryAddress /\
    abi_Pack w (membershipABI g') "checkDetailedMembership"
             [ArgAddress (HexToAddress w walletAddress); ArgString "ai"]
    = inl (msg_Data msg) /\
    abi_Unpack w (membershipABI g') "checkDetailedMembership" result
    = inl outs /\
    List.length outs = 4%nat /\
    In (VBool true) outs.
Proof.
  intros Hrun Hne. rewrite (IsClubMember_cases w walletAddress g Hne) in Hrun.
  destruct (run (CheckClubMembership w walletAddress AllowedClubName) g)
    as [[[[st|e]|m] g1] t1] eqn:E; try discriminate Hrun.
  injection Hrun as Hb -> ->.
  destruct (CheckClubMembership_answer _ _ _ _ _ _ _ E) as ([_ Hfrom] & Hto & Hst).
  destruct (Hst st eq_refl)
    as (Hreq & msg & result & outs & Hin & Hun & Hlen & Hmem).
  split; [exact Hreq|].
  exists msg, result, outs.
  destruct (Hto _ _ Hin) as [Hto1 Hto2].
  repeat split; try assumption.
  - exact (Hfrom _ _ Hin).
  - rewrite Hmem in Hb. apply existsb_exists in Hb.
    destruct Hb as (x & Hx & Hb). apply as_bool_true in Hb. now subst x.
Qed.

(** X14.  The four status queries are read-only: from any state of the
    package variables each sends at most one request to the chain node, a
    call with [From] unset; none asks for a nonce or a gas price or sends a
    transaction. *)
Theorem status_queries_read_only (w : World) (g : Globals) :
  (forall zkpHash, read_only (snd (run (GetHashStatus w zkpHash) g))) /\
  (forall zkpHash, read_only (snd (run (IsZkpValid w zkpHash) g))) /\
  (forall walletAddress clubName,
      read_only (snd (run (CheckClubMembership w walletAddress clubName) g))) /\
  (forall walletAddress, read_only (snd (run (IsClubMember w walletAddress) g))).
Proof.
  assert (H1 : forall h, read_only (snd (run (GetHashStatus w h) g))).
  { intros h. destruct (run (GetHashStatus w h) g) as [[out g1] t1] eqn:E.
    exact (proj1 (GetHashStatus_answer _ _ _ _ _ _ E)). }
  assert (H2 : forall a club,
             read_only (snd (run (CheckClubMembership w a club) g))).
  { intros a club.
    destruct (run (CheckClubMembership w a club) g) as [[out g1] t1] eqn:E.
    exact (proj1 (CheckClubMembership_answer _ _ _ _ _ _ _ E)). }
  split; [exact H1|]. split; [|split; [exact H2|]].
  - intros h. destruct (String.eqb_spec h "") as [->|Hne];
      [apply read_only_nil|].
    rewrite (IsZkpValid_cases w h g Hne). specialize (H1 h).
    destruct (run (GetHashStatus w h) g) as [[[[st|e]|m] g1] t1];
      cbn [snd] in *; auto using read_only_log.
  - intros a. destruct (String.eqb_spec a "") as [->|Hne];
      [apply read_only_nil|].
    rewrite (IsClubMember_cases w a g Hne). specialize (H2 a AllowedClubName).
    destruct (run (CheckClubMembership w a AllowedClubName) g)
      as [[[[st|e]|m] g1] t1]; cbn [snd] in *; auto using read_only_log.
Qed.

(** ** The requests of a login *)

Lemma run_wp {R} (f : M R R) (g : Globals)
    (P : Outcome R -> Globals -> list Event -> Prop) :
  (forall out g' t, run f g = (out, g', t) -> P out g' t) ->
  wp f g (fun s g1 t1 => P (ended s) g1 t1).
Proof.
  unfold wp, run. intros H.
  destruct (f g) as [[[a|r|msg] g1] t1]; cbn; apply H; reflexivity.
Qed.

Lemma IsClubMember_requests_wp (w : World) (a : string) g :
  wp (IsClubMember w a) g
     (fun s _ t => service_only t /\ member_requests a (ended s) t).
Proof.
  apply (run_wp (IsClubMember w a) g
           (fun out _ t => service_only t /\ member_requests a out t)).
  intros out g' t Hrun. split.
  { exact (wp_run _ _ (fun _ _ t => service_only t)
                  (IsClubMember_service w a g) _ _ _ Hrun). }
  unfold member_requests.
  destruct (String.eqb_spec a "") as [->|Hne].
  { cbn in Hrun. injection Hrun as <- <- <-. reflexivity. }
  rewrite (IsClubMember_cases w a g Hne) in Hrun.
  destruct (run (CheckClubMembership w a AllowedClubName) g)
    as [[[[st|e]|m] g1] t1] eqn:E; injection Hrun as <- <- <-.
  - destruct (CheckClubMembership_answer _ _ _ _ _ _ _ E) as (_ & _ & Hst).
    destruct (Hst st eq_refl) as (Hreq & _).
    destruct (IsMember st); [exact Hreq|now right].
  - destruct (CheckClubMembership_answer _ _ _ _ _ _ _ E) as ([Hr _] & _).
    rewrite requests_app. cbn. rewrite List.app_nil_r. exact Hr.
  - destruct (CheckClubMembership_answer _ _ _ _ _ _ _ E) as ([Hr _] & _).
    exact Hr.
Qed.

Ltac req_branch :=
  lazymatch goal with
  | |- wp (call (VerifyProof _ _)) _ _ =>
      apply (wp_call_ended _ _
               (fun out _ t => service_only t /\ verify_requests out t));
      [ apply VerifyProof_requests_wp
      | intros [[? ?] ?] ? ? [? ?] | intros ? ? ? [? ?] ]
  | |- wp (call (IsClubMember _ ?a)) _ _ =>
      apply (wp_call_ended _ _
               (fun out _ t => service_only t /\ member_requests a out t));
      [ apply IsClubMember_requests_wp
      | intros ? ? ? [? ?] | intros ? ? ? [? ?] ]
  | |- wp (match snd ?p with _ => _ end) _ _ =>
      destruct p as [? ?] eqn:?; cbn [fst snd]
  | |- wp (match ?x with _ => _ end) _ _ => destruct x eqn:?
  end.

(** X15.  A login sends at most five requests to the chain node, an initial
    part of: nonce, gas price, simulation, transaction, membership query; a
    run that reaches the account store has sent the first four and then the
    membership query, except that no membership query is made for an empty
    wallet text. *)
Theorem ZkpOAuth_requests
    (w : World) (c : Context) (g : Globals)
    (out : Outcome unit) (g' : Globals) (t : list Event) :
  run (ZkpOAuth w c) g = (out, g', t) ->
  (exists rest,
      [ReqNonce; ReqGasPrice; ReqCall; ReqSend; ReqCall]
      = (requests t ++ rest)%list) /\
  (forall wallet taken,
      In (EvIsWalletAddressAlreadyTaken wallet taken) t ->
      requests t
      = ([ReqNonce; ReqGasPrice; ReqCall; ReqSend]
           ++ if String.eqb wallet "" then [] else [ReqCall])%list).
Proof.
  revert out g' t.
  apply (wp_run (ZkpOAuth w c) g
           (fun _ _ t =>
              (exists rest,
                  [ReqNonce; ReqGasPrice; ReqCall; ReqSend; ReqCall]
                  = (requests t ++ rest)%list) /\
              (forall wallet taken,
                  In (EvIsWalletAddressAlreadyTaken wallet taken) t ->
                  requests t
                  = ([ReqNonce; ReqGasPrice; ReqCall; ReqSend]
                       ++ if String.eqb wallet "" then [] else [ReqCall])%list))).
  unfold ZkpOAuth, setupZkpLogin, deny.
  repeat first [ progress cbn [called fst snd] | req_branch | wp_step ].
  all: cbn [ended app].
  all: rewrite ?requests_app; cbn [requests request_of].
  all: rewrite ?List.app_nil_r.
  all: try match goal with
           | H : verify_requests (Returned (_, _, None)) _ |- _ =>
               destruct H as [_ Hf]; rewrite (Hf _ _ eq_refl); clear Hf
           end.
  all: try match goal with
           | H : verify_requests _ _ |- _ =>
               destruct H as [[rest Hp] _]
           end.
  all: try match goal with
           | Hb : negb ?a = _, H : member_requests _ (Returned ?a) _ |- _ =>
               destruct a; try discriminate Hb; unfold member_requests in H
           end.
  all: try match goal with
           | H : member_requests _ (Panicked _) _ |- _ =>
               unfold member_requests in H
           end.
  all: try match goal with
           | H : requests _ = [] \/ requests _ = [ReqCall] |- _ =>
               destruct H as [H|H]; rewrite H
           | H : requests _ = (if _ then _ else _) |- _ => rewrite H
           end.
  all: split;
    [ | intros wallet taken Hin; in_ctrl Hin;
        try (injection Hin as <- _; reflexivity) ].
  all: try match goal with
           | |- context [if ?b then _ else _] => destruct b
           end.
  all: try (eexists; reflexivity).
  all: exists (rest ++ [ReqCall])%list; rewrite List.app_assoc, <- Hp;
    reflexivity.
Qed.

(** ** Dials and parses *)

Lemma once_inv_app g t1 g1 t2 g2 :
  once_inv g t1 g1 -> once_inv g1 t2 g2 -> once_inv g (t1 ++ t2) g2.
Proof.
  unfold once_inv, dials, parses.
  rewrite !List.filter_app, !List.length_app. lia.
Qed.

Lemma once_inv_plain g t :
  filter is_setup t = [] -> once_inv g t g.
Proof.
  intros H.
  assert (Hd : dials t = 0%nat /\ forall a, parses a t = 0%nat).
  { unfold dials, parses. induction t as [|e t IH]; [split; reflexivity|].
    simpl in H. destruct e; simpl in *; try discriminate H;
      destruct (IH H) as [IH1 IH2]; split; auto. }
  destruct Hd as [Hd Hp]. unfold once_inv. rewrite Hd, !Hp. lia.
Qed.

Lemma getEthClient_once (w : World) g :
  wp (getEthClient w) g (fun _ g1 t1 => once_inv g t1 g1).
Proof.
  unfold wp, getEthClient, bind, get, put, ret, emit.
  destruct (ethClientOnce g) eqn:E; cbn.
  - unfold once_inv. cbn. lia.
  - destruct (ethclient_Dial w ZkpRpcUrl); cbn; unfold once_inv; cbn;
      rewrite E; cbn; lia.
Qed.

Lemma getABIs_once (w : World) g :
  wp (getABIs w) g (fun _ g1 t1 => once_inv g t1 g1).
Proof.
  unfold wp, getABIs, getABIs_init, set_zkpABI, set_membershipABI,
    set_abiOnce, bind, get, put, ret, emit, call, return_.
  destruct (abiOnce g) eqn:E; cbn.
  - unfold once_inv. cbn. lia.
  - destruct (abi_JSON w zkpContractABI) as [a [e|]]; cbn.
    + unfold once_inv. cbn. rewrite E. cbn. lia.
    + destruct (abi_JSON w membershipQueryABI) as [m e']; cbn.
      unfold once_inv. cbn. rewrite E. cbn. lia.
Qed.

Ltac once_branch :=
  lazymatch goal with
  | |- wp (call (getEthClient _)) ?g _ =>
      apply (wp_call_post _ _ (fun g1 t1 => once_inv g t1 g1));
      [ apply getEthClient_once | intros ? ? ? ? | intros ? ? ? ? ]
  | |- wp (call (getABIs _)) ?g _ =>
      apply (wp_call_post _ _ (fun g1 t1 => once_inv g t1 g1));
      [ apply getABIs_once | intros ? ? ? ? | intros ? ? ? ? ]
  | |- wp (or_return ?x _) _ _ => unfold or_return at 1; destruct x eqn:?
  | |- wp (deref ?x) _ _ => unfold deref at 1; destruct x eqn:?
  | |- wp (match snd ?p with _ => _ end) _ _ =>
      destruct p as [? ?] eqn:?; cbn [fst snd]
  | |- wp (match ?x with _ => _ end) _ _ => destruct x eqn:?
  end.

Ltac once_all :=
  repeat first [ progress cbn [called fst snd]
               | once_branch
               | wp_step ].

Ltac once_leaf :=
  cbn [app];
  repeat (eapply once_inv_app; [eassumption|]);
  first [ eassumption | apply once_inv_plain; reflexivity ].

Lemma VerifyProof_once (w : World) (payload : ZkpPayload) g :
  wp (VerifyProof w payload) g (fun _ g1 t1 => once_inv g t1 g1).
Proof. unfold VerifyProof. once_all. all: once_leaf. Qed.

Lemma GetHashStatus_once (w : World) (h : string) g :
  wp (GetHashStatus w h) g (fun _ g1 t1 => once_inv g t1 g1).
Proof. unfold GetHashStatus. once_all. all: once_leaf. Qed.

Lemma CheckClubMembership_once (w : World) (a club : string) g :
  wp (CheckClubMembership w a club) g (fun _ g1 t1 => once_inv g t1 g1).
Proof. unfold CheckClubMembership. once_all. all: once_leaf. Qed.

Ltac once_calls :=
  lazymatch goal with
  | |- wp (call (VerifyProof _ _)) ?g _ =>
      apply (wp_call_post _ _ (fun g1 t1 => once_inv g t1 g1));
      [ apply VerifyProof_once | intros [[? ?] ?] ? ? ? | intros ? ? ? ? ]
  | |- wp (call (GetHashStatus _ _)) ?g _ =>
      apply (wp_call_post _ _ (fun g1 t1 => once_inv g t1 g1));
      [ apply GetHashStatus_once | intros ? ? ? ? | intros ? ? ? ? ]
  | |- wp (call (CheckClubMembership _ _ _)) ?g _ =>
      apply (wp_call_post _ _ (fun g1 t1 => once_inv g t1 g1));
      [ apply CheckClubMembership_once | intros ? ? ? ? | intros ? ? ? ? ]
  end.

Lemma IsZkpValid_once (w : World) (h : string) g :
  wp (IsZkpValid w h) g (fun _ g1 t1 => once_inv g t1 g1).
Proof.
  unfold IsZkpValid.
  repeat first [ progress cbn [called fst snd] | once_calls | once_branch
               | wp_step ].
  all: once_leaf.
Qed.

Lemma IsClubMember_once (w : World) (a : string) g :
  wp (IsClubMember w a) g (fun _ g1 t1 => once_inv g t1 g1).
Proof.
  unfold IsClubMember.
  repeat first [ progress cbn [called fst snd] | once_calls | once_branch
               | wp_step ].
  all: once_leaf.
Qed.

Lemma ZkpOAuth_once (w : World) (c : Context) g :
  wp (ZkpOAuth w c) g (fun _ g1 t1 => once_inv g t1 g1).
Proof.
  unfold ZkpOAuth, setupZkpLogin, deny.
  repeat first
    [ progress cbn [called fst snd]
    | once_calls
    | lazymatch goal with
      | |- wp (call (IsClubMember _ _)) ?g _ =>
          apply (wp_call_post _ _ (fun g1 t1 => once_inv g t1 g1));
          [ apply IsClubMember_once | intros ? ? ? ? | intros ? ? ? ? ]
      end
    | once_branch
    | wp_step ].
  all: once_leaf.
Qed.

Lemma once_inv_only g t g' : once_inv g t g' -> once_only g t g'.
Proof.
  unfold once_inv, once_only, pending. intros (Hd & Hz & Hm).
  destruct (ethClientOnce g), (ethClientOnce g'), (abiOnce g), (abiOnce g');
    repeat split; intros; try destruct a; try lia.
Qed.

Lemma once_inv_run {R} (f : M R R) (g : Globals) :
  wp f g (fun _ g1 t1 => once_inv g t1 g1) ->
  once_inv g (snd (run f g)) (snd (fst (run f g))).
Proof.
  intros Hwp. destruct (run f g) as [[out g'] t] eqn:E.
  exact (wp_run f g (fun _ g1 t1 => once_inv g t1 g1) Hwp _ _ _ E).
Qed.

(** X16.  From any state of the package variables, a run of [VerifyProof],
    [IsZkpValid], [IsClubMember] or [ZkpOAuth] dials the endpoint at most
    once and parses each ABI text at most once; it does neither when the
    [sync.Once] in question is done, and it leaves done what it ran. *)
Theorem service_initialises_once (w : World) (g : Globals) :
  (forall payload,
      once_only g (snd (run (VerifyProof w payload) g))
                (snd (fst (run (VerifyProof w payload) g)))) /\
  (forall zkpHash,
      once_only g (snd (run (IsZkpValid w zkpHash) g))
                (snd (fst (run (IsZkpValid w zkpHash) g)))) /\
  (forall walletAddress,
      once_only g (snd (run (IsClubMember w walletAddress) g))
                (snd (fst (run (IsClubMember w walletAddress) g)))) /\
  (forall c,
      once_only g (snd (run (ZkpOAuth w c) g))
                (snd (fst (run (ZkpOAuth w c) g)))).
Proof.
  split; [|split; [|split]]; intros x; apply once_inv_only, once_inv_run.
  - apply VerifyProof_once.
  - apply IsZkpValid_once.
  - apply IsClubMember_once.
  - apply ZkpOAuth_once.
Qed.

Lemma serve_once (w : World) (cs : list Context) :
  forall g, once_inv g (snd (serve w cs g)) (fst (serve w cs g)).
Proof.
  induction cs as [|c cs IH]; intros g.
  - cbn. apply once_inv_plain. reflexivity.
  - cbn [serve].
    pose proof (once_inv_run _ g (ZkpOAuth_once w c g)) as H1.
    destruct (run (ZkpOAuth w c) g) as [[out g1] t1]. cbn [fst snd] in H1.
    specialize (IH g1). destruct (serve w cs g1) as [g2 t2]. cbn [fst snd] in *.
    eapply once_inv_app; eassumption.
Qed.

(** X17.  A process that serves any list of login requests one after another
    dials the endpoint at most once and parses each of the two ABI texts at
    most once. *)
Theorem serve_initialises_once (w : World) (cs : list Context) :
  (dials (snd (serve w cs Globals_init)) <= 1)%nat /\
  (parses zkpContractABI (snd (serve w cs Globals_init)) <= 1)%nat /\
  (parses membershipQueryABI (snd (serve w cs Globals_init)) <= 1)%nat.
Proof.
  destruct (serve_once w cs Globals_init) as (Hd & Hz & Hm).
  cbn in Hd, Hz, Hm. lia.
Qed.

(** ** Abbreviated addresses *)

Lemma length_take (n : nat) (s : string) :
  String.length (take n s) = Nat.min n (String.length s).
Proof.
  revert s. induction n as [|n IH]; intros [|c s]; simpl; auto.
Qed.

Lemma length_drop (n : nat) (s : string) :
  String.length (drop n s) = (String.length s - n)%nat.
Proof.
  revert s. induction n as [|n IH]; intros [|c s]; simpl; auto.
Qed.

Lemma length_append (s1 s2 : string) :
  String.length (s1 ++ s2) = (String.length s1 + String.length s2)%nat.
Proof. induction s1 as [|c s1 IH]; simpl; auto. Qed.

Lemma take_append (s1 s2 : string) :
  take (String.length s1) (s1 ++ s2) = s1.
Proof. induction s1 as [|c s1 IH]; simpl; [now destruct s2|now rewrite IH]. Qed.

Lemma drop_append (s1 s2 : string) :
  drop (String.length s1) (s1 ++ s2) = s2.
Proof. induction s1 as [|c s1 IH]; simpl; auto. Qed.

Lemma take_append_at (n : nat) (s1 s2 : string) :
  String.length s1 = n -> take n (s1 ++ s2) = s1.
Proof. intros <-. apply take_append. Qed.

Lemma drop_append_at (n : nat) (s1 s2 : string) :
  String.length s1 = n -> drop n (s1 ++ s2) = s2.
Proof. intros <-. apply drop_append. Qed.

Lemma append_assoc (s1 s2 s3 : string) : (s1 ++ s2) ++ s3 = s1 ++ s2 ++ s3.
Proof. induction s1 as [|c s1 IH]; simpl; [reflexivity|now rewrite IH]. Qed.

Lemma append_inj (s1 s2 r1 r2 : string) :
  String.length s1 = String.length s2 ->
  s1 ++ r1 = s2 ++ r2 -> s1 = s2 /\ r1 = r2.
Proof.
  revert s2. induction s1 as [|c s1 IH]; intros [|d s2] Hl H;
    try discriminate Hl.
  - now split.
  - simpl in H. injection H as -> H. injection Hl as Hl.
    destruct (IH s2 Hl H) as [-> ->]. now split.
Qed.

Lemma abbreviateAddress_long (address : string) :
  (10 < String.length address)%nat ->
  abbreviateAddress address
  = take 6 address ++ "..." ++ drop (String.length address - 4) address /\
  String.length (take 6 address) = 6%nat /\
  String.length (drop (String.length address - 4) address) = 4%nat.
Proof.
  intros H. unfold abbreviateAddress.
  destruct (Nat.leb_spec (String.length address) 10) as [Hle|_]; [lia|].
  rewrite length_take, length_drop. repeat split; lia.
Qed.

(** X19.  [abbreviateAddress] leaves a text of at most 10 bytes as it is and
    turns a longer one into 13 bytes (so a text of 11 or 12 bytes grows);
    and abbreviating twice is abbreviating once. *)
Theorem abbreviateAddress_length (address : string) :
  String.length (abbreviateAddress address)
  = (if (String.length address <=? 10)%nat then String.length address
     else 13%nat) /\
  abbreviateAddress (abbreviateAddress address) = abbreviateAddress address.
Proof.
  destruct (Nat.leb_spec (String.length address) 10) as [Hle|Hgt].
  - unfold abbreviateAddress.
    apply Nat.leb_le in Hle. rewrite Hle. rewrite Hle. now split.
  - destruct (abbreviateAddress_long address Hgt) as (E & H6 & H4).
    assert (Hlen : String.length (abbreviateAddress address) = 13%nat).
    { rewrite E, !length_append, H6, H4. reflexivity. }
    split; [exact Hlen|].
    assert (Hgt' : (10 < String.length (abbreviateAddress address))%nat)
      by (rewrite Hlen; lia).
    destruct (abbreviateAddress_long _ Hgt') as (E' & _ & _).
    rewrite E', Hlen. clear E' Hgt' Hlen.
    set (x := take 6 address) in *.
    set (y := drop (String.length address - 4) address) in *.
    rewrite E.
    rewrite (take_append_at 6 x ("..." ++ y) H6).
    do 2 f_equal. rewrite <- append_assoc.
    apply drop_append_at. rewrite length_append, H6. reflexivity.
Qed.

(** X20.  Two texts longer than 10 bytes have the same abbreviation exactly
    when they agree on their first six and their last four bytes. *)
Theorem abbreviateAddress_collisions (a b : string) :
  (10 < String.length a)%nat -> (10 < String.length b)%nat ->
  (abbreviateAddress a = abbreviateAddress b <->
   take 6 a = take 6 b /\
   drop (String.length a - 4) a = drop (String.length b - 4) b).
Proof.
  intros Ha Hb.
  destruct (abbreviateAddress_long a Ha) as (Ea & Ha6 & Ha4).
  destruct (abbreviateAddress_long b Hb) as (Eb & Hb6 & Hb4).
  rewrite Ea, Eb. split.
  - intros H. apply append_inj in H; [|congruence].
    destruct H as [H1 H2]. split; [exact H1|].
    apply (append_inj "..." "...") in H2; [|reflexivity]. apply H2.
  - intros [-> ->]. reflexivity.
Qed.

Lemma abbreviateAddress_collisions_witness :
  abbreviateAddress "0x1234aaaaaaaaaaaaaaaaaaaaaaaaaaaaaaaaabcd"
  = abbreviateAddress "0x1234bbbbbbbbbbbbbbbbbbbbbbbbbbbbbbbbabcd".
Proof.
  apply (abbreviateAddress_collisions
           "0x1234aaaaaaaaaaaaaaaaaaaaaaaaaaaaaaaaabcd"
           "0x1234bbbbbbbbbbbbbbbbbbbbbbbbbbbbbbbbabcd").
  - simpl. lia.
  - simpl. lia.
  - split; reflexivity.
Defined.

(** ** Decimal numerals read back *)

Lemma scan_digits_pos (base0 : bool) (d : Decimal.uint) :
  forall prev inv count p,
    scan_loop base0 10 prev inv count (Zpos p) (NilEmpty.string_of_uint d)
    = {| sc_prev := match d with Decimal.Nil => prev | _ => PrevDigit end;
         sc_invalSep := inv;
         sc_count := (count + Decimal.nb_digits d)%nat;
         sc_z := Zpos (Pos.of_uint_acc d p);
         sc_rest := "" |}.
Proof.
  induction d; intros prev inv count p.
  1: cbn; now rewrite Nat.add_0_r.
  all: cbn [NilEmpty.string_of_uint scan_loop Pos.of_uint_acc Decimal.nb_digits].
  all: match goal with
    | |- context [byte_val ?c] =>
        let v := eval vm_compute in (byte_val c) in
        change (byte_val c) with v
    end.
  all: destruct base0; cbn [andb Z.eqb Pos.eqb digit_val Z.leb Z.compare
                           Pos.compare Pos.compare_cont].
  all: match goal with
    | |- context [10 <=? ?e] =>
        let v := eval vm_compute in (10 <=? e) in
        change (10 <=? e) with v
    end; cbv iota.
  all: match goal with
    | |- scan_loop _ _ _ _ _ ?z _ = _ =>
        match goal with
        | |- context [Pos.of_uint_acc _ ?q] =>
            replace z with (Zpos q) by lia
        end
    end.
  all: rewrite IHd; rewrite Nat.add_succ_r; destruct d; reflexivity.
Qed.

Lemma scan_digits_zero (base0 : bool) (d : Decimal.uint) :
  forall prev inv count,
    scan_loop base0 10 prev inv count 0 (NilEmpty.string_of_uint d)
    = {| sc_prev := match d with Decimal.Nil => prev | _ => PrevDigit end;
         sc_invalSep := inv;
         sc_count := (count + Decimal.nb_digits d)%nat;
         sc_z := Z.of_N (Pos.of_uint d);
         sc_rest := "" |}.
Proof.
  induction d; intros prev inv count.
  1: cbn; now rewrite Nat.add_0_r.
  all: cbn [NilEmpty.string_of_uint scan_loop Pos.of_uint Decimal.nb_digits].
  all: match goal with
    | |- context [byte_val ?c] =>
        let v := eval vm_compute in (byte_val c) in
        change (byte_val c) with v
    end.
  all: destruct base0; cbn [andb Z.eqb Pos.eqb digit_val Z.leb Z.compare
                           Pos.compare Pos.compare_cont].
  all: match goal with
    | |- context [10 <=? ?e] =>
        let v := eval vm_compute in (10 <=? e) in
        change (10 <=? e) with v
    end; cbv iota.
  all: match goal with
    | |- scan_loop _ _ _ _ _ ?z _ = _ =>
        let v := eval vm_compute in z in change z with v
    end.
  all: first [ rewrite IHd | rewrite scan_digits_pos ].
  all: rewrite Nat.add_succ_r; destruct d; reflexivity.
Qed.

Lemma nzhead_not_D0 (d l : Decimal.uint) : Decimal.nzhead d <> Decimal.D0 l.
Proof. induction d; simpl; try discriminate. exact IHd. Qed.

Lemma to_uint_head (p : positive) :
  exists c s, NilEmpty.string_of_uint (Pos.to_uint p) = String c s /\
              (48 < byte_val c /\ byte_val c <= 57).
Proof.
  pose proof (DecimalPos.Unsigned.to_of (Pos.to_uint p)) as H.
  rewrite DecimalPos.Unsigned.of_to in H. cbn [N.to_uint] in H.
  pose proof (DecimalPos.Unsigned.to_uint_nonzero p) as Hnz.
  unfold Decimal.unorm in H.
  pose proof (nzhead_not_D0 (Pos.to_uint p)) as Hh.
  destruct (Decimal.nzhead (Pos.to_uint p)) eqn:E;
    try (rewrite H; cbn; do 2 eexists; split; [reflexivity|];
         vm_compute; split; [reflexivity|discriminate]).
  - exfalso. apply Hnz. exact H.
  - exfalso. exact (Hh _ eq_refl).
Qed.

Lemma nb_digits_pos (p : positive) :
  exists n, Decimal.nb_digits (Pos.to_uint p) = S n.
Proof.
  pose proof (DecimalPos.Unsigned.to_uint_nonnil p) as H.
  destruct (Pos.to_uint p); [contradiction|..]; cbn; eexists; reflexivity.
Qed.

Lemma nat_scan_decimal (base : Z) (p : positive) :
  base = 0 \/ base = 10 ->
  nat_scan (NilEmpty.string_of_uint (Pos.to_uint p)) base = (Zpos p, false, "").
Proof.
  intros Hb.
  destruct (to_uint_head p) as (c & s & Es & Hc).
  destruct (nb_digits_pos p) as (n & Hn).
  assert (Hpre : (if base =? 0
                  then scan_prefix (NilEmpty.string_of_uint (Pos.to_uint p))
                  else (base, NoPrefix, PrevOther, 0%nat,
                        NilEmpty.string_of_uint (Pos.to_uint p)))
                 = (10, NoPrefix, PrevOther, 0%nat,
                    NilEmpty.string_of_uint (Pos.to_uint p))).
  { destruct Hb as [->| ->]; [|reflexivity].
    cbn [Z.eqb]. rewrite Es. unfold scan_prefix.
    destruct (Z.eqb_spec (byte_val c) 48); [lia|reflexivity]. }
  unfold nat_scan. rewrite Hpre.
  rewrite scan_digits_zero. cbn [sc_count sc_invalSep sc_prev sc_z sc_rest].
  rewrite Hn. cbn [Nat.add].
  rewrite DecimalPos.Unsigned.of_to.
  pose proof (DecimalPos.Unsigned.to_uint_nonnil p) as Hnil.
  destruct (Pos.to_uint p); [contradiction|..]; reflexivity.
Qed.

Lemma SetString_Int_String (base z : Z) :
  base = 0 \/ base = 10 -> SetString (Int_String z) base = Some z.
Proof.
  intros Hb. unfold Int_String.
  destruct z as [|p|p]; cbn [Z.to_int NilZero.string_of_int].
  - destruct Hb as [->| ->]; reflexivity.
  - pose proof (nat_scan_decimal base p Hb) as Hs.
    destruct (to_uint_head p) as (c & s & Es & Hc).
    unfold NilZero.string_of_uint.
    pose proof (DecimalPos.Unsigned.to_uint_nonnil p) as Hnil.
    destruct (Pos.to_uint p) eqn:Ep; [contradiction|..];
      rewrite <- Ep in *; rewrite Es in *; unfold SetString;
      (destruct (Z.eqb_spec (byte_val c) 45); [lia|]);
      (destruct (Z.eqb_spec (byte_val c) 43); [lia|]);
      rewrite Hs; reflexivity.
  - pose proof (nat_scan_decimal base p Hb) as Hs.
    unfold NilZero.string_of_uint.
    pose proof (DecimalPos.Unsigned.to_uint_nonnil p) as Hnil.
    destruct (Pos.to_uint p) eqn:Ep; [contradiction|..];
      rewrite <- Ep in *; unfold SetString;
      change (byte_val "-" =? 45) with true; cbv iota;
      rewrite Hs; reflexivity.
Qed.

(** ** Printed payloads read back *)

Lemma all_bytes_app (f : Z -> bool) (s1 s2 : string) :
  all_bytes f (s1 ++ s2) = all_bytes f s1 && all_bytes f s2.
Proof.
  induction s1 as [|c s1 IH]; simpl; [reflexivity|].
  now rewrite IH, andb_assoc.
Qed.

Lemma all_bytes_impl (f h : Z -> bool) (s : string) :
  (forall v, f v = true -> h v = true) ->
  all_bytes f s = true -> all_bytes h s = true.
Proof.
  intros Hfh. induction s as [|c s IH]; simpl; [reflexivity|].
  intros H. apply andb_prop in H. destruct H as [H1 H2].
  now rewrite (Hfh _ H1), IH.
Qed.

Lemma all_bytes_at (f : Z -> bool) (s : string) :
  all_bytes f s = true ->
  forall p, (p < String.length s)%nat -> f (at_ s p) = true.
Proof.
  unfold at_. induction s as [|c s IH]; simpl; intros H p Hp; [lia|].
  apply andb_prop in H. destruct H as [H1 H2].
  destruct p as [|p]; [exact H1|]. apply IH; [exact H2|lia].
Qed.

Lemma take_all (s : string) : take (String.length s) s = s.
Proof. induction s as [|c s IH]; simpl; [reflexivity|now rewrite IH]. Qed.

Lemma solid_TrimSpace (s : string) :
  all_bytes solid_byte s = true -> TrimSpace s = s.
Proof.
  intros H. unfold TrimSpace.
  destruct s as [|c s]; [reflexivity|].
  pose proof H as H0. simpl in H0. apply andb_prop in H0.
  destruct H0 as [Hc _]. unfold solid_byte in Hc.
  apply andb_prop in Hc. destruct Hc as [Hc1 Hc2].
  apply Z.ltb_lt in Hc1. apply negb_true_iff in Hc2.
  cbn [trim_start]. unfold RuneSelf.
  destruct (Z.leb_spec 128 (byte_val c)); [lia|]. rewrite Hc2.
  cbn [drop].
  set (t := String c s) in *.
  assert (Hlen : String.length t = S (String.length s)) by reflexivity.
  rewrite Hlen. cbn [trim_stop].
  assert (Hl : solid_byte (at_ t (String.length s)) = true)
    by (apply all_bytes_at; [exact H|lia]).
  unfold solid_byte in Hl. apply andb_prop in Hl. destruct Hl as [Hl1 Hl2].
  apply Z.ltb_lt in Hl1. apply negb_true_iff in Hl2.
  unfold RuneSelf.
  destruct (Z.leb_spec 128 (at_ t (String.length s))); [lia|]. rewrite Hl2.
  rewrite <- Hlen. apply take_all.
Qed.

Lemma ascii_replace (o : ascii) (old new : string) (s : string) :
  128 <= byte_val o ->
  all_bytes (fun v => v <? 128) s = true ->
  replace_from (String o old) new 0 s = s.
Proof.
  intros Ho. induction s as [|c s IH]; simpl; [reflexivity|].
  intros H. apply andb_prop in H. destruct H as [Hc Hs].
  apply Z.ltb_lt in Hc.
  destruct (Ascii.eqb_spec o c) as [->|Hne]; [lia|].
  cbn. now rewrite IH.
Qed.

Lemma solid_cleanStr (s : string) :
  all_bytes solid_byte s = true -> cleanStr s = s.
Proof.
  intros H.
  assert (Ha : all_bytes (fun v => v <? 128) s = true).
  { apply (all_bytes_impl solid_byte); [|exact H].
    unfold solid_byte. intros v Hv. apply andb_prop in Hv. apply Hv. }
  unfold cleanStr, ReplaceAll, u200B, u200C, u200D, uFEFF, bytes3.
  do 4 (rewrite (ascii_replace _ _ _ s);
        [|vm_compute; discriminate|exact Ha]).
  now apply solid_TrimSpace.
Qed.

Lemma Split1_one (sep : ascii) (f : string) :
  all_bytes (fun v => negb (v =? byte_val sep)) f = true ->
  Split1 sep f = [f].
Proof.
  induction f as [|c f IH]; simpl; [reflexivity|].
  intros H. apply andb_prop in H. destruct H as [Hc Hf].
  apply negb_true_iff, Z.eqb_neq in Hc.
  destruct (Ascii.eqb_spec c sep) as [->|_]; [contradiction|].
  now rewrite IH.
Qed.

Lemma Split1_cons (sep : ascii) (f rest : string) :
  all_bytes (fun v => negb (v =? byte_val sep)) f = true ->
  Split1 sep (f ++ String sep rest) = f :: Split1 sep rest.
Proof.
  induction f as [|c f IH]; simpl.
  - intros _. now rewrite Ascii.eqb_refl.
  - intros H. apply andb_prop in H. destruct H as [Hc Hf].
    apply negb_true_iff, Z.eqb_neq in Hc.
    destruct (Ascii.eqb_spec c sep) as [->|_]; [contradiction|].
    now rewrite IH.
Qed.

Lemma Split1_join (fields : list string) :
  fields <> [] ->
  Forall (fun f => all_bytes numeral_byte f = true) fields ->
  Split1 "," (join_commas fields) = fields.
Proof.
  assert (Hn : forall f, all_bytes numeral_byte f = true ->
                 all_bytes (fun v => negb (v =? byte_val ",")) f = true).
  { intros f. apply all_bytes_impl. intros v Hv.
    unfold numeral_byte, dec_digit in Hv. change (byte_val ",") with 44.
    apply negb_true_iff, Z.eqb_neq. intros ->. discriminate Hv. }
  induction fields as [|f fields IH]; intros Hne Hall; [contradiction|].
  inversion Hall as [|x l Hf Hrest]; subst.
  destruct fields as [|f' fields].
  - simpl. now apply Split1_one, Hn.
  - change (join_commas (f :: f' :: fields))
      with (f ++ String "," (join_commas (f' :: fields))).
    rewrite Split1_cons by now apply Hn.
    rewrite IH; [reflexivity|discriminate|exact Hrest].
Qed.

Lemma numeral_solid (s : string) :
  all_bytes (fun v => numeral_byte v || (v =? 44)) s = true ->
  all_bytes solid_byte s = true.
Proof.
  apply all_bytes_impl. intros v Hv.
  unfold numeral_byte, dec_digit in Hv. unfold solid_byte, asciiSpace.
  destruct (Z.ltb_spec v 128), (Z.eqb_spec v 9), (Z.eqb_spec v 10),
    (Z.eqb_spec v 11), (Z.eqb_spec v 12), (Z.eqb_spec v 13),
    (Z.eqb_spec v 32); try reflexivity; subst; try discriminate Hv.
  exfalso.
  destruct (Z.leb_spec 48 v), (Z.leb_spec v 57), (Z.eqb_spec v 45),
    (Z.eqb_spec v 44); cbn in Hv; try discriminate Hv; lia.
Qed.

Lemma uint_digits (d : Decimal.uint) :
  all_bytes numeral_byte (NilEmpty.string_of_uint d) = true.
Proof. induction d; simpl; auto. Qed.

Lemma Int_String_numeral (z : Z) : all_bytes numeral_byte (Int_String z) = true.
Proof.
  unfold Int_String.
  destruct z as [|p|p]; cbn [Z.to_int NilZero.string_of_int]; [reflexivity|..];
    unfold NilZero.string_of_uint;
    destruct (Pos.to_uint p) eqn:E; try reflexivity;
    rewrite <- E; try apply uint_digits;
    cbn [all_bytes]; rewrite uint_digits; reflexivity.
Qed.

Lemma join_numeral (fields : list string) :
  Forall (fun f => all_bytes numeral_byte f = true) fields ->
  all_bytes (fun v => numeral_byte v || (v =? 44)) (join_commas fields) = true.
Proof.
  assert (Hn : forall f, all_bytes numeral_byte f = true ->
                 all_bytes (fun v => numeral_byte v || (v =? 44)) f = true).
  { intros f. apply all_bytes_impl. intros v ->. reflexivity. }
  induction fields as [|f fields IH]; intros Hall; [reflexivity|].
  inversion Hall as [|x l Hf Hrest]; subst.
  destruct fields as [|f' fields]; [now apply Hn|].
  change (join_commas (f :: f' :: fields))
    with (f ++ String "," (join_commas (f' :: fields))).
  rewrite all_bytes_app, (Hn f Hf). cbn [all_bytes andb].
  change (numeral_byte (byte_val ",") || (byte_val "," =? 44)) with true.
  cbn [andb]. now apply IH.
Qed.

Lemma parse_values_printed (vals : list Z) :
  forall i, parse_values i (map Int_String vals) = inl vals.
Proof.
  induction vals as [|v vals IH]; intros i; [reflexivity|].
  cbn [map parse_values].
  rewrite SetString_Int_String by now left. now rewrite IH.
Qed.

(** X21.  Parsing the nine scalars of a payload, printed in decimal and
    joined by commas, gives back the payload: negative numbers and zero
    included, and no printed numeral is taken for an octal one. *)
Theorem ParseZkpCode_printed (p : ZkpPayload) :
  ParseZkpCode (join_commas (map Int_String (read_back p))) = inl p.
Proof.
  set (fields := map Int_String (read_back p)).
  assert (Hall : Forall (fun f => all_bytes numeral_byte f = true) fields).
  { apply Forall_map, Forall_forall. intros z _. apply Int_String_numeral. }
  assert (Hsolid : all_bytes solid_byte (join_commas fields) = true)
    by now apply numeral_solid, join_numeral.
  unfold ParseZkpCode.
  rewrite (solid_cleanStr _ Hsolid).
  rewrite (Split1_join fields) by (try discriminate; exact Hall).
  assert (Htrim : map TrimSpace fields = fields).
  { rewrite <- (map_id fields) at 2. apply map_ext_Forall.
    eapply Forall_impl; [|exact Hall]. intros f Hf.
    apply solid_TrimSpace, numeral_solid.
    eapply all_bytes_impl; [|exact Hf]. intros v ->. reflexivity. }
  rewrite Htrim. unfold fields at 1. rewrite length_map. cbn [read_back length Nat.eqb negb].
  unfold fields. rewrite parse_values_printed.
  destruct p as [[a0 a1] [[b00 b01] [b10 b11]] [c0 c1] i0]. reflexivity.
Qed.

(** X22.  The [ZkpHash] of every account the login flow hands to the store,
    for update or insert, is the decimal numeral of [Input[0]] of the parsed
    payload, and [SetString] with base 10 (as [GetHashStatus] calls it)
    reads it back as that integer. *)
Theorem ZkpOAuth_stored_hash
    (w : World) (c : Context) (g : Globals)
    (out : Outcome unit) (g' : Globals) (t : list Event) (u : User) :
  run (ZkpOAuth w c) g = (out, g', t) ->
  (exists r, In (EvUpdateUser u r) t) \/ (exists i r, In (EvInsertUser u i r) t) ->
  exists req payload,
    ShouldBindJSON c = inl req /\
    ParseZkpCode (ZkpCode req) = inl payload /\
    ZkpHash u = Int_String (Input payload) /\
    SetString (ZkpHash u) 10 = Some (Input payload).
Proof.
  revert out g' t.
  apply (wp_run (ZkpOAuth w c) g
           (fun _ _ t =>
              (exists r, In (EvUpdateUser u r) t) \/
              (exists i r, In (EvInsertUser u i r) t) ->
              exists req payload,
                ShouldBindJSON c = inl req /\
                ParseZkpCode (ZkpCode req) = inl payload /\
                ZkpHash u = Int_String (Input payload) /\
                SetString (ZkpHash u) 10 = Some (Input payload))).
  unfold ZkpOAuth, setupZkpLogin, deny.
  flow_all.
  all: cbn [ended app]; intros [[xr Hin]|[xi [xr Hin]]]; in_ctrl Hin.
  all: injection Hin as; subst.
  all: do 2 eexists; split; [reflexivity|]; split; [eassumption|].
  all: cbn [ZkpHash with_ZkpHash new_user]; split; [reflexivity|].
  all: apply SetString_Int_String; now right.
Qed.

(** ** The login flow as a composition; a failed dial *)

Lemma wp_call_run {R A} (f : M A A) g
    (Q : Step R A -> Globals -> list Event -> Prop) :
  (forall a g1 t1, run f g = (Returned a, g1, t1) -> Q (Next a) g1 t1) ->
  (forall msg g1 t1, run f g = (Panicked msg, g1, t1) -> Q (Panic msg) g1 t1) ->
  wp (call f) g Q.
Proof.
  unfold wp, call, run. destruct (f g) as [[[a|r|msg] g1] t1]; cbn; auto.
Qed.

Ltac run_branch :=
  lazymatch goal with
  | |- wp (call (VerifyProof ?w ?p)) ?g _ =>
      let H := fresh "Hverify" in
      apply wp_call_run;
      [ intros [[? ?] ?] ? ? H | intros ? ? ? H ];
      pose proof (wp_run _ _ (fun _ _ t => service_only t)
                         (VerifyProof_service w p g) _ _ _ H)
  | |- wp (call (IsClubMember ?w ?a)) ?g _ =>
      let H := fresh "Hmember" in
      apply wp_call_run;
      [ intros ? ? ? H | intros ? ? ? H ];
      pose proof (wp_run _ _ (fun _ _ t => service_only t)
                         (IsClubMember_service w a g) _ _ _ H)
  | |- wp (match snd ?p with _ => _ end) _ _ =>
      destruct p as [? ?] eqn:?; cbn [fst snd]
  | |- wp (match ?x with _ => _ end) _ _ => destruct x eqn:?
  end.

(** X23.  A run of the handler that asks the store about a wallet is made of
    a run of [VerifyProof] on the parsed payload that returned this wallet
    and no error, then a run of [IsClubMember] on this wallet that returned
    true, then a rest that sends nothing to the chain node; the variables
    are left as [IsClubMember] left them, and a success response carries the
    transaction hash [VerifyProof] returned. *)
Theorem ZkpOAuth_gates_passed
    (w : World) (c : Context) (g : Globals)
    (out : Outcome unit) (g' : Globals) (t : list Event)
    (wallet : string) (taken : bool) :
  run (ZkpOAuth w c) g = (out, g', t) ->
  In (EvIsWalletAddressAlreadyTaken wallet taken) t ->
  exists req payload txHash g1 t1 t2 rest,
    ShouldBindJSON c = inl req /\
    ParseZkpCode (ZkpCode req) = inl payload /\
    run (VerifyProof w payload) g = (Returned (wallet, txHash, None), g1, t1) /\
    run (IsClubMember w wallet) g1 = (Returned true, g', t2) /\
    t = (t1 ++ t2 ++ rest)%list /\
    requests rest = [] /\
    forall r, In (EvJSON AtSuccess r) t ->
              exists d, data r = Some d /\ d_tx_hash d = txHash.
Proof.
  revert out g' t.
  apply (wp_run (ZkpOAuth w c) g
           (fun _ g' t =>
              In (EvIsWalletAddressAlreadyTaken wallet taken) t ->
              exists req payload txHash g1 t1 t2 rest,
                ShouldBindJSON c = inl req /\
                ParseZkpCode (ZkpCode req) = inl payload /\
                run (VerifyProof w payload) g
                = (Returned (wallet, txHash, None), g1, t1) /\
                run (IsClubMember w wallet) g1 = (Returned true, g', t2) /\
                t = (t1 ++ t2 ++ rest)%list /\
                requests rest = [] /\
                forall r, In (EvJSON AtSuccess r) t ->
                          exists d, data r = Some d /\ d_tx_hash d = txHash)).
  unfold ZkpOAuth, setupZkpLogin, deny.
  repeat first [ progress cbn [called fst snd] | run_branch | wp_step ].
  all: cbn [ended app]; intros Hin; in_ctrl Hin.
  all: injection Hin as <- <-.
  all: match goal with
       | Hm : run (IsClubMember _ _) _ = (Returned ?a, _, _),
         Hb : negb ?a = false |- _ => destruct a; [clear Hb|discriminate Hb]
       end.
  all: do 7 eexists.
  all: split; [reflexivity|]; split; [eassumption|].
  all: split; [eassumption|].
  all: split; [eassumption|].
  all: split; [reflexivity|].
  all: split; [reflexivity|].
  all: intros xr Hj; in_ctrl Hj.
  all: injection Hj as <-; eexists; split; reflexivity.
Qed.

(** X24.  Once the dial has failed, the failure is kept for the life of the
    process: with a signing key configured, [VerifyProof] returns the
    connection error, [IsZkpValid] and [IsClubMember] log it and return
    false on a non-empty argument, and the handler answers a well-formed
    request with PROOF_INVALID; none of them dials again or changes the
    variables. *)
Theorem dial_failure_is_kept (w : World) (g : Globals) (e : error) :
  ethClientOnce g = true -> ethClientErr g = Some e ->
  ZkpPrivateKey w <> "" ->
  (forall payload,
      run (VerifyProof w payload) g
      = (Returned ("", "", Some ("failed to connect to ethereum client: " ++ e)),
         g, [])) /\
  (forall zkpHash,
      zkpHash <> "" ->
      run (IsZkpValid w zkpHash) g
      = (Returned false, g,
         [EvSysLog ("Error checking ZKP status: "
                    ++ "failed to connect to ethereum client: " ++ e)])) /\
  (forall walletAddress,
      walletAddress <> "" ->
      run (IsClubMember w walletAddress) g
      = (Returned false, g,
         [EvSysLog ("Error checking club membership: "
                    ++ "failed to connect to ethereum client: " ++ e)])) /\
  (forall c req payload,
      ShouldBindJSON c = inl req ->
      ParseZkpCode (ZkpCode req) = inl payload ->
      run (ZkpOAuth w c) g
      = (Returned tt, g,
         [EvSysLog ("ZKP verification failed: "
                    ++ "failed to connect to ethereum client: " ++ e);
          EvJSON AtVerify (denial StatusUnauthorized "PROOF_INVALID")])).
Proof.
  intros Honce Herr Hkey. apply String.eqb_neq in Hkey.
  assert (Hv : forall payload,
             VerifyProof w payload g
             = (Return ("", "", Some ("failed to connect to ethereum client: " ++ e)),
                g, [])).
  { intros payload.
    unfold VerifyProof, getEthClient, bind, call, get, ret, return_.
    rewrite Hkey. cbn. rewrite Honce. cbn. rewrite Herr. reflexivity. }
  split; [|split; [|split]].
  - intros payload. unfold run. now rewrite Hv.
  - intros h Hne. apply String.eqb_neq in Hne.
    unfold run, IsZkpValid, GetHashStatus, getEthClient, bind, call, get, ret,
      return_, emit.
    rewrite Hne. cbn. rewrite Honce. cbn. rewrite Herr. reflexivity.
  - intros a Hne. apply String.eqb_neq in Hne.
    unfold run, IsClubMember, CheckClubMembership, getEthClient, bind, call,
      get, ret, return_, emit.
    rewrite Hne. cbn. rewrite Honce. cbn. rewrite Herr. reflexivity.
  - intros c req payload Hbind Hparse.
    unfold run, ZkpOAuth, deny, bind, call, ret, return_, emit.
    rewrite Hkey, Hbind. cbn. rewrite Hparse. cbn. rewrite Hv. reflexivity.
Qed.

(** ** Sample runs *)

Lemma ZkpOAuth_early_denials_witness :
  snd (run (ZkpOAuth demo_world short_code_request) Globals_init)
  = [EvJSON AtParse (denial StatusBadRequest "INVALID_ZKP_CODE")].
Proof.
  assert (E : run (ZkpOAuth demo_world short_code_request) Globals_init
              = (Returned tt, Globals_init,
                 snd (run (ZkpOAuth demo_world short_code_request)
                          Globals_init)))
    by reflexivity.
  exact (proj1 (proj1 (ZkpOAuth_early_denials _ _ _ _ _ _ AtParse
                         (denial StatusBadRequest "INVALID_ZKP_CODE") E
                         (or_introl eq_refl)) eq_refl)).
Defined.

Lemma ZkpOAuth_answers_after_commit_witness :
  existsb is_accepted insert_failing_trace = true.
Proof.
  assert (E : run (ZkpOAuth insert_failing_world demo_request) Globals_init
              = (Returned tt, Globals_ready, insert_failing_trace))
    by reflexivity.
  assert (Hin : In (EvJSON AtInsert (denial StatusOK "database is locked"))
                   insert_failing_trace)
    by (unfold insert_failing_trace; simpl; tauto).
  apply (proj2 (proj1 (ZkpOAuth_answers_after_commit _ _ _ _ _ _ _ _ E Hin))).
  reflexivity.
Defined.

Lemma ZkpOAuth_success_witness :
  exists req payload opts tx u,
    ShouldBindJSON demo_request = inl req /\
    ParseZkpCode (ZkpCode req) = inl payload /\
    In (EvTransact opts "verifyProof" (verifyProof_args payload) (inl tx))
       demo_login_trace /\
    stored_by demo_login_trace u /\
    Status u = UserStatusEnabled demo_world /\
    filter is_session demo_login_trace = session_calls u None /\
    demo_success
    = {| http_status := 200; success := true; message := "";
         data := Some {| d_id := Id u;
                         d_username := Username u;
                         d_display_name := DisplayName u;
                         d_role := Role u;
                         d_status := Status u;
                         d_group := Group u;
                         d_wallet_address := WalletAddress u;
                         d_tx_hash := tx_hash_hex tx |} |}.
Proof.
  assert (E : run (ZkpOAuth demo_world demo_request) Globals_init
              = (Returned tt, Globals_ready, demo_login_trace))
    by reflexivity.
  apply (ZkpOAuth_success _ _ _ _ _ _ demo_success E).
  unfold demo_login_trace, demo_success, demo_wallet. simpl. tauto.
Defined.

Lemma ZkpOAuth_session_only_to_log_in_witness :
  filter is_session insert_failing_trace = [].
Proof.
  assert (E : run (ZkpOAuth insert_failing_world demo_request) Globals_init
              = (Returned tt, Globals_ready, insert_failing_trace))
    by reflexivity.
  assert (Hin : In (EvJSON AtInsert (denial StatusOK "database is locked"))
                   insert_failing_trace)
    by (unfold insert_failing_trace; simpl; tauto).
  apply (proj1 (ZkpOAuth_session_only_to_log_in _ _ _ _ _ _ _ _ E Hin));
    discriminate.
Defined.

Lemma ZkpOAuth_existing_account_witness :
  exists loaded err,
    FillUserByWalletAddress update_failing_world (User_zero demo_wallet)
    = (loaded, err) /\
    ((err <> None \/ Id loaded = 0) /\
     filter is_store update_failing_trace =
       [EvIsWalletAddressAlreadyTaken demo_wallet true;
        EvFillUser (User_zero demo_wallet) (loaded, err)]
     \/
     err = None /\ Id loaded <> 0 /\
     exists req payload u,
       ShouldBindJSON demo_request = inl req /\
       ParseZkpCode (ZkpCode req) = inl payload /\
       same_but_ZkpHash loaded u /\
       ZkpHash u = Int_String (Input payload) /\
       filter is_store update_failing_trace =
         [EvIsWalletAddressAlreadyTaken demo_wallet true;
          EvFillUser (User_zero demo_wallet) (loaded, None);
          EvUpdateUser u (Update update_failing_world u false)]).
Proof.
  assert (E : run (ZkpOAuth update_failing_world demo_request) Globals_init
              = (Returned tt, Globals_ready, update_failing_trace))
    by reflexivity.
  apply (ZkpOAuth_existing_account _ _ _ _ _ _ demo_wallet E).
  unfold update_failing_trace, demo_wallet. simpl. tauto.
Defined.

Lemma ZkpOAuth_new_wallet_witness :
  exists req payload,
    ShouldBindJSON invited_request = inl req /\
    ParseZkpCode (ZkpCode req) = inl payload /\
    filter is_store (snd (run (ZkpOAuth demo_world invited_request) Globals_init))
    = [EvIsWalletAddressAlreadyTaken demo_wallet false;
       EvGetUserIdByAffCode (AffCode req)
         (GetUserIdByAffCode demo_world (AffCode req));
       EvInsertUser
         (new_user demo_world demo_wallet (Int_String (Input payload)))
         (fst (GetUserIdByAffCode demo_world (AffCode req)))
         (Insert demo_world
            (new_user demo_world demo_wallet (Int_String (Input payload)))
            (fst (GetUserIdByAffCode demo_world (AffCode req))))].
Proof.
  assert (E : run (ZkpOAuth demo_world invited_request) Globals_init
              = (Returned tt, Globals_ready,
                 snd (run (ZkpOAuth demo_world invited_request) Globals_init)))
    by reflexivity.
  assert (Hin : In (EvIsWalletAddressAlreadyTaken demo_wallet false)
                   (snd (run (ZkpOAuth demo_world invited_request)
                             Globals_init)))
    by (vm_compute; tauto).
  destruct (proj2 (ZkpOAuth_new_wallet _ _ _ _ _ _ _ E Hin) eq_refl)
    as (req & payload & Hb & Hp & _ & Haff).
  exists req, payload. split; [exact Hb|]. split; [exact Hp|].
  apply Haff. injection Hb as <-. discriminate.
Defined.

Lemma VerifyProof_requests_in_order_witness :
  requests demo_verify_trace = [ReqNonce; ReqGasPrice; ReqCall; ReqSend].
Proof.
  assert (E : run (VerifyProof demo_world demo_payload) Globals_init
              = (Returned (demo_wallet, "0xfeed", None), Globals_ready,
                 demo_verify_trace)) by reflexivity.
  exact (proj2 (VerifyProof_requests_in_order _ _ _ _ _ _ E) _ _ eq_refl).
Defined.

Lemma VerifyProof_transaction_witness :
  exists key client nonce gasPrice msg result,
    crypto_HexToECDSA demo_world (key_text demo_world) = inl key /\
    opt_From demo_opts = crypto_PubkeyToAddress demo_world key /\
    ethClient Globals_ready = Some client /\
    In (EvPendingNonceAt (opt_From demo_opts) (inl nonce)) demo_verify_trace /\
    opt_Nonce demo_opts = Some (int64_of_uint64 nonce) /\
    In (EvSuggestGasPrice (inl gasPrice)) demo_verify_trace /\
    opt_GasPrice demo_opts = Some gasPrice /\
    In (EvCallContract msg (inl result)) demo_verify_trace /\
    msg_From msg = Some (opt_From demo_opts) /\
    msg_To msg = HexToAddress demo_world ZkpContractAddress /\
    abi_Pack demo_world (zkpABI Globals_ready) "verifyProof"
             (verifyProof_args demo_payload) = inl (msg_Data msg) /\
    inl {| tx_hash_hex := "0xfeed" |}
    = Transact demo_world client (zkpABI Globals_ready) (msg_To msg) demo_opts
               "verifyProof" (verifyProof_args demo_payload).
Proof.
  assert (E : run (VerifyProof demo_world demo_payload) Globals_init
              = (Returned (demo_wallet, "0xfeed", None), Globals_ready,
                 demo_verify_trace)) by reflexivity.
  assert (Hin : In (EvTransact demo_opts "verifyProof"
                               (verifyProof_args demo_payload)
                               (inl {| tx_hash_hex := "0xfeed" |}))
                   demo_verify_trace)
    by (unfold demo_verify_trace; simpl; tauto).
  exact (proj2 (proj2 (proj2 (proj2
           (VerifyProof_transaction _ _ _ _ _ _ _ _ _ _ E Hin))))).
Defined.

Lemma VerifyProof_error_results_witness :
  exists err,
    Transact unfunded_world 1 demo_verifier_abi 5 demo_opts "verifyProof"
             (verifyProof_args demo_payload) = inr err /\
    "failed to send transaction: insufficient funds for gas"
    = "failed to send transaction: " ++ err.
Proof.
  assert (E : run (VerifyProof unfunded_world demo_payload) Globals_init
              = (Returned (demo_wallet, "",
                           Some "failed to send transaction: insufficient funds for gas"),
                 Globals_ready,
                 snd (run (VerifyProof unfunded_world demo_payload)
                          Globals_init)))
    by reflexivity.
  refine (proj2 (proj2 (VerifyProof_error_results _ _ _ _ _ _ _ _ E))
                demo_opts "verifyProof" (verifyProof_args demo_payload) _ _).
  vm_compute. tauto.
Defined.

Lemma GetHashStatus_query_witness :
  exists n hash32,
    SetString "5" 10 = Some n /\
    bytes32_of n hash32 /\
    abi_Pack demo_world (zkpABI Globals_ready) "getHashStatus"
             [ArgBytes32 hash32] = inl [1].
Proof.
  assert (E : run (GetHashStatus demo_world "5") Globals_init
              = (Returned (inl {| IsActive := true; Deployer := demo_wallet;
                                  Exists := true |}),
                 Globals_ready,
                 snd (run (GetHashStatus demo_world "5") Globals_init)))
    by reflexivity.
  refine (proj2 (proj2 (proj2 (GetHashStatus_query _ _ _ _ _ _ E))
                       {| msg_From := None; msg_To := 5; msg_Data := [1] |}
                       (inl [0]) _)).
  vm_compute. tauto.
Defined.

Lemma IsZkpValid_true_from_chain_witness :
  requests (snd (run (IsZkpValid demo_world "5") Globals_init)) = [ReqCall] /\
  exists msg result deployer,
    In (EvCallContract msg (inl result))
       (snd (run (IsZkpValid demo_world "5") Globals_init)) /\
    abi_Unpack demo_world (zkpABI Globals_ready) "getHashStatus" result
    = inl [VBool true; deployer; VBool true].
Proof.
  apply (IsZkpValid_true_from_chain demo_world "5" Globals_init Globals_ready);
    [reflexivity|discriminate].
Defined.

Lemma IsClubMember_true_from_chain_witness :
  requests (snd (run (IsClubMember demo_world demo_wallet) Globals_init))
  = [ReqCall] /\
  exists msg result outs,
    In (EvCallContract msg (inl result))
       (snd (run (IsClubMember demo_world demo_wallet) Globals_init)) /\
    msg_From msg = None /\
    msg_To msg = HexToAddress demo_world MembershipQueryAddress /\
    abi_Pack demo_world (membershipABI Globals_ready) "checkDetailedMembership"
             [ArgAddress (HexToAddress demo_world demo_wallet); ArgString "ai"]
    = inl (msg_Data msg) /\
    abi_Unpack demo_world (membershipABI Globals_ready)
               "checkDetailedMembership" result = inl outs /\
    List.length outs = 4%nat /\
    In (VBool true) outs.
Proof.
  apply (IsClubMember_true_from_chain demo_world demo_wallet Globals_init
                                      Globals_ready);
    [reflexivity|discriminate].
Defined.

Lemma ZkpOAuth_requests_witness :
  requests demo_login_trace
  = [ReqNonce; ReqGasPrice; ReqCall; ReqSend; ReqCall].
Proof.
  assert (E : run (ZkpOAuth demo_world demo_request) Globals_init
              = (Returned tt, Globals_ready, demo_login_trace))
    by reflexivity.
  refine (proj2 (ZkpOAuth_requests _ _ _ _ _ _ E) demo_wallet false _).
  unfold demo_login_trace, demo_wallet. simpl. tauto.
Defined.

Lemma ZkpOAuth_stored_hash_witness :
  exists req payload,
    ShouldBindJSON demo_request = inl req /\
    ParseZkpCode (ZkpCode req) = inl payload /\
    ZkpHash (new_user demo_world demo_wallet "9") = Int_String (Input payload) /\
    SetString (ZkpHash (new_user demo_world demo_wallet "9")) 10
    = Some (Input payload).
Proof.
  assert (E : run (ZkpOAuth demo_world demo_request) Globals_init
              = (Returned tt, Globals_ready, demo_login_trace))
    by reflexivity.
  apply (ZkpOAuth_stored_hash _ _ _ _ _ _ _ E).
  right. exists 0, (stored (new_user demo_world demo_wallet "9") 8, None).
  unfold demo_login_trace. vm_compute. tauto.
Defined.

Lemma ZkpOAuth_gates_passed_witness :
  exists req payload txHash g1 t1 t2 rest,
    ShouldBindJSON demo_request = inl req /\
    ParseZkpCode (ZkpCode req) = inl payload /\
    run (VerifyProof demo_world payload) Globals_init
    = (Returned (demo_wallet, txHash, None), g1, t1) /\
    run (IsClubMember demo_world demo_wallet) g1
    = (Returned true, Globals_ready, t2) /\
    demo_login_trace = (t1 ++ t2 ++ rest)%list /\
    requests rest = [] /\
    forall r, In (EvJSON AtSuccess r) demo_login_trace ->
              exists d, data r = Some d /\ d_tx_hash d = txHash.
Proof.
  assert (E : run (ZkpOAuth demo_world demo_request) Globals_init
              = (Returned tt, Globals_ready, demo_login_trace))
    by reflexivity.
  apply (ZkpOAuth_gates_passed _ _ _ _ _ _ demo_wallet false E).
  unfold demo_login_trace, demo_wallet. simpl. tauto.
Defined.

Lemma dial_failure_is_kept_witness :
  run (getEthClient offline_world) Globals_init
  = (Returned (None, Some "dial tcp: i/o timeout"), Globals_offline,
     [EvDial ZkpRpcUrl]) /\
  run (ZkpOAuth offline_world demo_request) Globals_offline
  = (Returned tt, Globals_offline,
     [EvSysLog ("ZKP verification failed: "
                ++ "failed to connect to ethereum client: "
                ++ "dial tcp: i/o timeout");
      EvJSON AtVerify (denial StatusUnauthorized "PROOF_INVALID")]).
Proof.
  split; [reflexivity|].
  refine (proj2 (proj2 (proj2
            (dial_failure_is_kept offline_world Globals_offline
               "dial tcp: i/o timeout" eq_refl eq_refl _)))
            demo_request _ demo_payload eq_refl eq_refl).
  discriminate.
Defined.

(** ** Second calls; runs that answer *)

(** X18.  A second call of [getEthClient] returns what the first returned,
    client or error, and does not dial; a second call of [getABIs] returns
    the ABIs the variables hold after the first, with a nil error, and
    parses nothing. *)
Theorem singletons_second_call (w : World) (g : Globals) :
  run (getEthClient w) (snd (fst (run (getEthClient w) g)))
  = (fst (fst (run (getEthClient w) g)), snd (fst (run (getEthClient w) g)), [])
  /\
  run (getABIs w) (snd (fst (run (getABIs w) g)))
  = (Returned (zkpABI (snd (fst (run (getABIs w) g))),
               membershipABI (snd (fst (run (getABIs w) g))), None),
     snd (fst (run (getABIs w) g)), []).
Proof.
  split; [apply getEthClient_cached|].
  apply getABIs_after_first, getABIs_marks_done.
Qed.

(** X26.  A process that serves any list of login requests one after
    another, from the variables as they are at its start, writes exactly one
    response per request and leaves the client variables consistent. *)
Theorem serve_always_answers (w : World) (cs : list Context) :
  consistent (fst (serve w cs Globals_init)) /\
  List.length (filter is_response (snd (serve w cs Globals_init)))
  = List.length cs.
Proof.
  assert (H : forall g, consistent g ->
                consistent (fst (serve w cs g)) /\
                List.length (filter is_response (snd (serve w cs g)))
                = List.length cs).
  { induction cs as [|c cs IH]; intros g Hg; [now split|].
    cbn [serve].
    destruct (ZkpOAuth_returns w c g Hg) as (g1 & t1 & site & r & E & Hg1 & Hr).
    rewrite E. specialize (IH g1 Hg1).
    destruct (serve w cs g1) as [g2 t2]. cbn [fst snd] in *.
    destruct IH as [IH1 IH2]. split; [exact IH1|].
    rewrite List.filter_app, List.length_app, Hr, IH2. reflexivity. }
  apply H, Globals_init_consistent.
Qed.

Lemma ZkpOAuth_response_last_wp (w : World) (c : Context) g :
  wp (ZkpOAuth w c) g
     (fun s _ t =>
        ended s = Returned tt ->
        exists pre site r,
          t = (pre ++ [EvJSON site r])%list /\ filter is_response pre = []).
Proof.
  unfold ZkpOAuth, setupZkpLogin, deny.
  ctrl_all.
  all: cbn [ended app]; intros E; try discriminate E; clear E.
  all: rewrite ?List.app_assoc.
  all: match goal with
       | |- exists pre site r, (?P ++ ?L)%list = _ /\ _ =>
           exists (P ++ removelast L)%list
       | |- exists pre site r, ?L = _ /\ _ => exists (removelast L)
       end.
  all: cbn [removelast]; do 2 eexists.
  all: split;
    [ rewrite <- ?List.app_assoc; reflexivity
    | rewrite ?List.filter_app, ?service_no_response by assumption;
      reflexivity ].
Qed.

(** X25.  From consistent client variables the handler returns without panic
    and leaves the variables consistent; the one response it writes is the
    last event of the run: every call to the chain node, the store and the
    session comes before it. *)
Theorem ZkpOAuth_always_answers (w : World) (c : Context) (g : Globals) :
  consistent g ->
  exists g' pre site r,
    run (ZkpOAuth w c) g = (Returned tt, g', (pre ++ [EvJSON site r])%list) /\
    consistent g' /\
    filter is_response pre = [].
Proof.
  intros Hg.
  destruct (ZkpOAuth_returns w c g Hg) as (g' & t & site0 & r0 & E & Hg' & _).
  destruct (wp_run _ _
              (fun out _ t =>
                 out = Returned tt ->
                 exists pre site r,
                   t = (pre ++ [EvJSON site r])%list /\
                   filter is_response pre = [])
              (ZkpOAuth_response_last_wp w c g) _ _ _ E eq_refl)
    as (pre & site & r & -> & Hpre).
  now exists g', pre, site, r.
Qed.

Lemma ZkpOAuth_always_answers_witness :
  exists g' pre site r,
    run (ZkpOAuth demo_world demo_request) Globals_init
    = (Returned tt, g', (pre ++ [EvJSON site r])%list) /\
    consistent g' /\
    filter is_response pre = [].
Proof.
  apply (ZkpOAuth_always_answers demo_world demo_request Globals_init).
  intros H. discriminate H.
Defined.

(** ** White space around the fields *)

Lemma string_snoc (s : string) :
  s <> "" -> exists s' c, s = s' ++ String c "".
Proof.
  induction s as [|c s IH]; intros H; [contradiction|].
  destruct s as [|d s].
  - now exists "", c.
  - destruct IH as (s' & e & E); [discriminate|].
    exists (String c s'), e. simpl. now rewrite <- E.
Qed.

Lemma space_ascii (v : Z) : asciiSpace v = true -> (v <? 128) = true.
Proof.
  unfold asciiSpace. intros H. apply Z.ltb_lt.
  repeat (apply orb_prop in H; destruct H as [H|H]);
    apply Z.eqb_eq in H; lia.
Qed.

Lemma trim_start_spaces (l rest : string) :
  all_bytes asciiSpace l = true ->
  (rest = "" \/ exists c rest', rest = String c rest' /\
                                solid_byte (byte_val c) = true) ->
  forall start,
    trim_start (l ++ rest) start = inl (start + String.length l)%nat.
Proof.
  intros Hl Hrest. induction l as [|c l IH]; intros start.
  - simpl. rewrite Nat.add_0_r.
    destruct Hrest as [->|(c & rest' & -> & Hc)]; [reflexivity|].
    unfold solid_byte in Hc. apply andb_prop in Hc. destruct Hc as [H1 H2].
    apply Z.ltb_lt in H1. apply negb_true_iff in H2.
    cbn [trim_start]. unfold RuneSelf.
    destruct (Z.leb_spec 128 (byte_val c)); [lia|]. now rewrite H2.
  - simpl in Hl. apply andb_prop in Hl. destruct Hl as [Hc Hl].
    pose proof (space_ascii _ Hc) as Ha. apply Z.ltb_lt in Ha.
    cbn [append trim_start]. unfold RuneSelf.
    destruct (Z.leb_spec 128 (byte_val c)); [lia|]. rewrite Hc.
    rewrite (IH Hl). f_equal. simpl. lia.
Qed.

Lemma at_append_right (m r : string) (j : nat) :
  at_ (m ++ r) (String.length m + j) = at_ r j.
Proof.
  unfold at_. induction m as [|c m IH]; simpl; [reflexivity|exact IH].
Qed.

Lemma at_append_last (m' : string) (c : ascii) (r : string) :
  at_ ((m' ++ String c "") ++ r) (String.length m') = byte_val c.
Proof.
  unfold at_. induction m' as [|d m' IH]; simpl; [reflexivity|exact IH].
Qed.

Lemma trim_stop_spaces (m' : string) (c : ascii) (r : string) :
  solid_byte (byte_val c) = true ->
  all_bytes asciiSpace r = true ->
  forall k fuel,
    (k <= String.length r)%nat -> (k < fuel)%nat ->
    trim_stop ((m' ++ String c "") ++ r) fuel
              (String.length (m' ++ String c "") + k)
    = inl (String.length (m' ++ String c "")).
Proof.
  intros Hc Hr.
  unfold solid_byte in Hc. apply andb_prop in Hc. destruct Hc as [H1 H2].
  apply Z.ltb_lt in H1. apply negb_true_iff in H2.
  assert (Hlen : String.length (m' ++ String c "") = S (String.length m'))
    by (rewrite length_append; simpl; lia).
  induction k as [|k IH]; intros fuel Hk Hfuel.
  - destruct fuel as [|fuel]; [lia|].
    rewrite Nat.add_0_r, Hlen. cbn [trim_stop].
    rewrite at_append_last. unfold RuneSelf.
    destruct (Z.leb_spec 128 (byte_val c)); [lia|]. now rewrite H2.
  - destruct fuel as [|fuel]; [lia|].
    rewrite Nat.add_succ_r. cbn [trim_stop].
    rewrite at_append_right.
    assert (Hs : asciiSpace (at_ r k) = true)
      by (apply all_bytes_at; [exact Hr|lia]).
    pose proof (space_ascii _ Hs) as Ha. apply Z.ltb_lt in Ha.
    unfold RuneSelf.
    destruct (Z.leb_spec 128 (at_ r k)); [lia|]. rewrite Hs.
    apply IH; lia.
Qed.

Lemma TrimSpace_sides (l m r : string) :
  all_bytes asciiSpace l = true -> all_bytes asciiSpace r = true ->
  (exists c rest, m = String c rest /\ solid_byte (byte_val c) = true) ->
  (exists m' c, m = m' ++ String c "" /\ solid_byte (byte_val c) = true) ->
  TrimSpace (l ++ m ++ r) = m.
Proof.
  intros Hl Hr (c0 & rest & E0 & Hc0) (m' & c & E & Hc).
  unfold TrimSpace.
  rewrite (trim_start_spaces l (m ++ r) Hl).
  2: { right. exists c0, (rest ++ r). rewrite E0. now split. }
  cbn [Nat.add]. rewrite drop_append.
  rewrite length_append.
  rewrite E at 1 2 3.
  rewrite (trim_stop_spaces m' c r Hc Hr).
  - rewrite <- E. apply take_append.
  - lia.
  - rewrite length_append. simpl. lia.
Qed.

Lemma append_nil_r (s : string) : s ++ "" = s.
Proof. induction s as [|c s IH]; simpl; [reflexivity|now rewrite IH]. Qed.

Lemma Split1_nonempty (sep : ascii) (s : string) : Split1 sep s <> [].
Proof.
  induction s as [|c s IH]; simpl; [discriminate|].
  destruct (Ascii.eqb c sep); [discriminate|].
  destruct (Split1 sep s); discriminate.
Qed.

Lemma Split1_prefix (sep : ascii) (l s : string) :
  all_bytes (fun v => negb (v =? byte_val sep)) l = true ->
  exists h tl, Split1 sep s = h :: tl /\ Split1 sep (l ++ s) = (l ++ h) :: tl.
Proof.
  intros Hl. induction l as [|c l IH].
  - destruct (Split1 sep s) as [|h tl] eqn:E;
      [now destruct (Split1_nonempty sep s)|].
    exists h, tl. now split.
  - simpl in Hl. apply andb_prop in Hl. destruct Hl as [Hc Hl].
    apply negb_true_iff, Z.eqb_neq in Hc.
    destruct (IH Hl) as (h & tl & E1 & E2).
    exists h, tl. split; [exact E1|]. simpl.
    destruct (Ascii.eqb_spec c sep) as [->|_]; [contradiction|].
    now rewrite E2.
Qed.

Lemma numeral_edges (f : string) :
  f <> "" -> all_bytes numeral_byte f = true ->
  (exists c rest, f = String c rest /\ solid_byte (byte_val c) = true) /\
  (exists f' c, f = f' ++ String c "" /\ solid_byte (byte_val c) = true).
Proof.
  intros Hne Hf.
  assert (Hs : all_bytes solid_byte f = true).
  { apply numeral_solid. eapply all_bytes_impl; [|exact Hf].
    intros v ->. reflexivity. }
  split.
  - destruct f as [|c rest]; [contradiction|].
    exists c, rest. split; [reflexivity|].
    simpl in Hs. apply andb_prop in Hs. apply Hs.
  - destruct (string_snoc f Hne) as (f' & c & E). exists f', c.
    split; [exact E|]. rewrite E, all_bytes_app in Hs.
    apply andb_prop in Hs. destruct Hs as [_ Hs]. simpl in Hs.
    apply andb_prop in Hs. apply Hs.
Qed.

Lemma TrimSpace_padded (h f : string) :
  f <> "" -> all_bytes numeral_byte f = true ->
  padded_of h f -> TrimSpace h = f.
Proof.
  intros Hne Hf (a & b & Ha & Hb & ->).
  destruct (numeral_edges f Hne Hf) as [H1 H2].
  now apply TrimSpace_sides.
Qed.

Lemma space_no_comma (s : string) :
  all_bytes asciiSpace s = true ->
  all_bytes (fun v => negb (v =? byte_val ",")) s = true.
Proof.
  apply all_bytes_impl. intros v Hv. change (byte_val ",") with 44.
  apply negb_true_iff, Z.eqb_neq. intros ->. discriminate Hv.
Qed.

Lemma numeral_no_comma (s : string) :
  all_bytes numeral_byte s = true ->
  all_bytes (fun v => negb (v =? byte_val ",")) s = true.
Proof.
  apply all_bytes_impl. intros v Hv. change (byte_val ",") with 44.
  apply negb_true_iff, Z.eqb_neq. intros ->. discriminate Hv.
Qed.

Lemma numeral_ascii (s : string) :
  all_bytes numeral_byte s = true -> all_bytes (fun v => v <? 128) s = true.
Proof.
  intros H.
  assert (Hs : all_bytes solid_byte s = true).
  { apply numeral_solid. eapply all_bytes_impl; [|exact H].
    intros v ->. reflexivity. }
  eapply all_bytes_impl; [|exact Hs]. unfold solid_byte. intros v Hv.
  apply andb_prop in Hv. apply Hv.
Qed.

Lemma spaces_ascii (s : string) :
  all_bytes asciiSpace s = true -> all_bytes (fun v => v <? 128) s = true.
Proof. apply all_bytes_impl, space_ascii. Qed.

(** The text of padded fields: white space, then a text with solid ends
    that splits into the fields with white space around them, then white
    space. *)
Lemma join_padded (fields : list string) :
  forall pads,
    fields <> [] -> List.length pads = List.length fields ->
    Forall (fun f => f <> "" /\ all_bytes numeral_byte f = true) fields ->
    Forall (fun lr => all_bytes asciiSpace (fst lr) = true /\
                      all_bytes asciiSpace (snd lr) = true) pads ->
    exists l m r,
      join_commas (pad_fields fields pads) = l ++ m ++ r /\
      all_bytes asciiSpace l = true /\ all_bytes asciiSpace r = true /\
      all_bytes (fun v => v <? 128) m = true /\
      (exists c rest, m = String c rest /\ solid_byte (byte_val c) = true) /\
      (exists m' c, m = m' ++ String c "" /\ solid_byte (byte_val c) = true) /\
      exists hs, Split1 "," m = hs /\ Forall2 padded_of hs fields.
Proof.
  induction fields as [|f fields IH]; intros pads Hne Hlen Hf Hp;
    [contradiction|].
  destruct pads as [|[l r] pads]; [discriminate Hlen|].
  injection Hlen as Hlen.
  inversion Hf as [|x xs [Hfne Hfn] Hf']; subst.
  inversion Hp as [|y ys [Hl Hr] Hp']; subst. cbn [fst snd] in Hl, Hr.
  destruct (numeral_edges f Hfne Hfn) as [Hstart Hend].
  destruct fields as [|f2 fields].
  - destruct pads; [|discriminate Hlen].
    exists l, f, r. cbn.
    split; [reflexivity|]. split; [exact Hl|]. split; [exact Hr|].
    split; [now apply numeral_ascii|]. split; [exact Hstart|].
    split; [exact Hend|].
    exists [f]. split; [now apply Split1_one, numeral_no_comma|].
    constructor; [|constructor]. exists "", "". cbn.
    repeat split. symmetry. apply append_nil_r.
  - destruct (IH pads) as (l' & m' & r' & E & Hl' & Hr' & Ha & Hs' & He' & hs & Hsp & Hall);
      [discriminate|exact Hlen|exact Hf'|exact Hp'|].
    destruct He' as (m'' & c' & Em & Hc').
    destruct Hstart as (c0 & rest0 & E0 & Hc0).
    exists l, (f ++ r ++ String "," (l' ++ m')), r'.
    assert (Ejoin : join_commas (pad_fields (f :: f2 :: fields) ((l, r) :: pads))
                    = (l ++ f ++ r)
                        ++ String "," (join_commas (pad_fields (f2 :: fields) pads))).
    { destruct pads as [|[l2 r2] pads]; [discriminate Hlen|]. reflexivity. }
    split.
    { rewrite Ejoin, E. rewrite !append_assoc. cbn [append].
      rewrite !append_assoc. reflexivity. }
    split; [exact Hl|]. split; [exact Hr'|].
    split.
    { rewrite !all_bytes_app. cbn [all_bytes].
      rewrite all_bytes_app.
      rewrite (numeral_ascii f Hfn), (spaces_ascii r Hr), (spaces_ascii l' Hl'),
        Ha. reflexivity. }
    split.
    { exists c0, (rest0 ++ r ++ String "," (l' ++ m')). rewrite E0.
      now split. }
    split.
    { exists (f ++ r ++ String "," (l' ++ m'')), c'. split; [|exact Hc'].
      rewrite Em. rewrite !append_assoc. cbn [append].
      rewrite !append_assoc. reflexivity. }
    destruct (Split1_prefix "," l' m' (space_no_comma l' Hl'))
      as (h & tl & Eh & Eh').
    exists ((f ++ r) :: (l' ++ h) :: tl). split.
    { rewrite <- append_assoc.
      rewrite Split1_cons.
      - now rewrite Eh'.
      - rewrite all_bytes_app, (numeral_no_comma f Hfn),
          (space_no_comma r Hr). reflexivity. }
    rewrite Eh in Hsp. subst hs.
    inversion Hall as [|h0 f0 tl0 fs0 Hh Htl]; subst.
    constructor.
    { exists "", r. split; [reflexivity|]. split; [exact Hr|reflexivity]. }
    constructor; [|exact Htl].
    destruct Hh as (a & b & Ha' & Hb' & ->).
    exists (l' ++ a), b. split.
    { rewrite all_bytes_app, Hl', Ha'. reflexivity. }
    split; [exact Hb'|]. now rewrite append_assoc.
Qed.

Lemma ascii_cleanStr (s : string) :
  all_bytes (fun v => v <? 128) s = true -> cleanStr s = TrimSpace s.
Proof.
  intros Ha. unfold cleanStr, ReplaceAll, u200B, u200C, u200D, uFEFF, bytes3.
  do 4 (rewrite (ascii_replace _ _ _ s);
        [|vm_compute; discriminate|exact Ha]).
  reflexivity.
Qed.

Lemma Int_String_nonempty (z : Z) : Int_String z <> "".
Proof.
  unfold Int_String.
  destruct z as [|p|p]; cbn [Z.to_int NilZero.string_of_int]; try discriminate.
  destruct (to_uint_head p) as (c & s & E & _).
  unfold NilZero.string_of_uint.
  destruct (Pos.to_uint p); try discriminate; rewrite E; discriminate.
Qed.

Lemma TrimSpace_all_padded (hs fields : list string) :
  Forall (fun f => f <> "" /\ all_bytes numeral_byte f = true) fields ->
  Forall2 padded_of hs fields -> map TrimSpace hs = fields.
Proof.
  intros Hf H. induction H as [|h f hs fields Hh Hrest IH];
    [reflexivity|].
  inversion Hf as [|x xs [Hne Hn] Hf']; subst. cbn [map].
  rewrite (TrimSpace_padded h f Hne Hn Hh), (IH Hf'). reflexivity.
Qed.

(** X27.  Parsing the nine scalars of a payload, printed in decimal, each
    with any ASCII white space (blank, tab, line feed, carriage return,
    vertical tab, form feed) before and after it, and joined by commas,
    gives back the payload. *)
Theorem ParseZkpCode_printed_padded
    (p : ZkpPayload) (pads : list (string * string)) :
  List.length pads = 9%nat ->
  Forall (fun lr => all_bytes asciiSpace (fst lr) = true /\
                    all_bytes asciiSpace (snd lr) = true) pads ->
  ParseZkpCode (join_commas (pad_fields (map Int_String (read_back p)) pads))
  = inl p.
Proof.
  intros Hlen Hp.
  set (fields := map Int_String (read_back p)).
  assert (Hf : Forall (fun f => f <> "" /\ all_bytes numeral_byte f = true)
                      fields).
  { apply Forall_map, Forall_forall. intros z _.
    split; [apply Int_String_nonempty|apply Int_String_numeral]. }
  destruct (join_padded fields pads) as
    (l & m & r & E & Hl & Hr & Ha & Hs & He & hs & Hsp & Hall);
    [discriminate|exact Hlen|exact Hf|exact Hp|].
  unfold ParseZkpCode. rewrite E.
  rewrite ascii_cleanStr
    by (rewrite !all_bytes_app, (spaces_ascii l Hl), Ha, (spaces_ascii r Hr);
        reflexivity).
  rewrite (TrimSpace_sides l m r Hl Hr Hs He), Hsp.
  rewrite (TrimSpace_all_padded hs fields Hf Hall).
  rewrite (Forall2_length Hall).
  unfold fields at 1. rewrite length_map.
  cbn [read_back length Nat.eqb negb].
  unfold fields. rewrite parse_values_printed.
  destruct p as [[a0 a1] [[b00 b01] [b10 b11]] [c0 c1] i0]. reflexivity.
Qed.

Lemma ParseZkpCode_printed_padded_witness :
  ParseZkpCode
    (join_commas
       (pad_fields (map Int_String (read_back demo_payload))
                   [(" ", ""); ("", " "); ("", ""); ("", ""); ("  ", "");
                    ("", ""); ("", ""); ("", ""); ("", line_feed)]))
  = inl demo_payload.
Proof.
  apply ParseZkpCode_printed_padded; [reflexivity|].
  repeat constructor.
Defined.

(** ** Zero-width characters *)

Lemma HasPrefix_nil (s : string) : HasPrefix s "" = true.
Proof. destruct s; reflexivity. Qed.

Lemma replace_plain (o : ascii) (old new : string) (c : ascii) (rest : string) :
  128 <= byte_val o -> byte_val c < 128 ->
  replace_from (String o old) new 0 (String c rest)
  = String c (replace_from (String o old) new 0 rest).
Proof.
  intros Ho Hc. simpl.
  destruct (Ascii.eqb_spec o c) as [->|_]; [lia|reflexivity].
Qed.

Lemma replace_zero_width (k : zero_width) (ts : list token) :
  forallb ascii_token ts = true ->
  replace_from (zero_width_text k) "" 0 (render ts)
  = render (filter (other_than k) ts).
Proof.
  induction ts as [|t ts IH]; intros H; [reflexivity|].
  cbn [forallb] in H. apply andb_prop in H. destruct H as [Ht Hts].
  specialize (IH Hts).
  destruct t as [c|j].
  - cbn [ascii_token] in Ht. apply Z.ltb_lt in Ht.
    assert (Hstep : replace_from (zero_width_text k) "" 0 (String c (render ts))
                    = String c (replace_from (zero_width_text k) "" 0 (render ts))).
    { destruct k; unfold zero_width_text, u200B, u200C, u200D, uFEFF, bytes3;
        apply replace_plain; try exact Ht; vm_compute; discriminate. }
    cbn [render filter other_than]. rewrite Hstep, IH. reflexivity.
  - destruct j, k; cbn [render filter other_than]; rewrite <- IH;
      unfold zero_width_text, u200B, u200C, u200D, uFEFF, bytes3;
      cbn; rewrite ?HasPrefix_nil; reflexivity.
Qed.

Lemma forallb_filter (f h : token -> bool) (ts : list token) :
  forallb f ts = true -> forallb f (filter h ts) = true.
Proof.
  induction ts as [|t ts IH]; intros H; [reflexivity|].
  cbn [forallb] in H. apply andb_prop in H. destruct H as [Ht Hts].
  cbn [filter]. destruct (h t); cbn [forallb]; [rewrite Ht|]; now apply IH.
Qed.

Lemma render_visible (ts : list token) :
  render (filter (other_than BOM)
            (filter (other_than ZWJ)
               (filter (other_than ZWNJ) (filter (other_than ZWSP) ts))))
  = visible ts.
Proof.
  induction ts as [|t ts IH]; [reflexivity|].
  destruct t as [c|[| | |]]; cbn; try exact IH.
  now rewrite IH.
Qed.

Lemma visible_ascii (ts : list token) :
  forallb ascii_token ts = true ->
  all_bytes (fun v => v <? 128) (visible ts) = true.
Proof.
  induction ts as [|[c|k] ts IH]; intros H; [reflexivity|..];
    cbn [forallb] in H; apply andb_prop in H; destruct H as [Ht Hts].
  - cbn [visible all_bytes]. cbn [ascii_token] in Ht. rewrite Ht.
    now apply IH.
  - now apply IH.
Qed.

Lemma cleanStr_render (ts : list token) :
  forallb ascii_token ts = true ->
  cleanStr (render ts) = TrimSpace (visible ts).
Proof.
  intros H. unfold cleanStr, ReplaceAll.
  change u200B with (zero_width_text ZWSP).
  change u200C with (zero_width_text ZWNJ).
  change u200D with (zero_width_text ZWJ).
  change uFEFF with (zero_width_text BOM).
  rewrite (replace_zero_width ZWSP) by exact H.
  rewrite (replace_zero_width ZWNJ) by now apply forallb_filter.
  rewrite (replace_zero_width ZWJ) by now do 2 apply forallb_filter.
  rewrite (replace_zero_width BOM) by now do 3 apply forallb_filter.
  now rewrite render_visible.
Qed.

(** X28.  In a code that is ASCII but for zero-width characters (U+200B,
    U+200C, U+200D, U+FEFF, anywhere and in any number), the zero-width
    characters are ignored: the code parses as it does without them. *)
Theorem ParseZkpCode_ignores_zero_width (ts : list token) :
  forallb ascii_token ts = true ->
  ParseZkpCode (render ts) = ParseZkpCode (visible ts).
Proof.
  intros H. unfold ParseZkpCode.
  rewrite (cleanStr_render ts H).
  rewrite (ascii_cleanStr (visible ts)) by now apply visible_ascii.
  reflexivity.
Qed.

Lemma ParseZkpCode_ignores_zero_width_witness :
  ParseZkpCode (uFEFF ++ "1,2,3," ++ u200B ++ "4,5,6,7,8" ++ u200D ++ ",9")
  = ParseZkpCode "1,2,3,4,5,6,7,8,9".
Proof.
  apply (ParseZkpCode_ignores_zero_width
           [Invisible BOM; Plain "1"; Plain ","; Plain "2"; Plain ",";
            Plain "3"; Plain ","; Invisible ZWSP; Plain "4"; Plain ",";
            Plain "5"; Plain ","; Plain "6"; Plain ","; Plain "7"; Plain ",";
            Plain "8"; Invisible ZWJ; Plain ","; Plain "9"]).
  reflexivity.
Defined.

(** ** Denials and their causes *)

Ltac cause_facts :=
  status_facts;
  repeat match goal with
         | H : String.eqb _ _ = true |- _ => apply String.eqb_eq in H
         | H : String.eqb _ _ = false |- _ => apply String.eqb_neq in H
         | H : (_ =? _) = true |- _ => apply Z.eqb_eq in H
         | H : (_ =? _) = false |- _ => apply Z.eqb_neq in H
         | H : negb _ = true |- _ => apply negb_true_iff in H
         | H : negb _ = false |- _ => apply negb_false_iff in H
         end.

Lemma ZkpOAuth_causes_wp (w : World) (c : Context) g :
  wp (ZkpOAuth w c) g
     (fun _ _ t =>
        forall site r,
          In (EvJSON site r) t -> success r = false ->
          data r = None /\ denial_cause w c g t (message r)).
Proof.
  unfold ZkpOAuth, setupZkpLogin, deny.
  repeat first [ progress cbn [called fst snd] | run_branch | wp_step ].
  all: cbn [ended app]; intros site r Hin Hs; in_ctrl Hin.
  all: injection Hin as <- <-; try discriminate Hs.
  all: split; [reflexivity|]; cbn [message].
  all: cause_facts; subst.
  all: first
    [ solve [apply cause_not_configured; assumption]
    | solve [eapply cause_payload; eassumption]
    | solve [eapply cause_code; eassumption]
    | solve [eapply cause_proof; eassumption]
    | solve [eapply cause_membership; eassumption]
    | solve [eapply cause_load; in_now]
    | solve [eapply cause_deleted; [in_now|assumption]]
    | solve [eapply cause_registration; [in_now|assumption]]
    | solve [eapply cause_insert; in_now]
    | solve [eapply cause_disabled; [|eassumption];
             first [ solve [left; do 2 eexists; in_now]
                   | solve [right; do 2 eexists; in_now] ]]
    | solve [eapply cause_session; in_now] ].
Qed.

Ltac cause_events :=
  repeat match goal with
         | H : stored_by _ _ |- _ => destruct H as [(? & ? & H)|(? & ? & H)]
         | H : In _ _ |- _ => in_ctrl H; try (injection H as; subst)
         end.

Lemma ZkpOAuth_caused_wp (w : World) (c : Context) g :
  wp (ZkpOAuth w c) g
     (fun _ _ t =>
        forall msg,
          denial_cause w c g t msg ->
          forall site r,
            In (EvJSON site r) t -> success r = false /\ message r = msg).
Proof.
  unfold ZkpOAuth, setupZkpLogin, deny.
  repeat first [ progress cbn [called fst snd] | run_branch | wp_step ].
  all: cbn [ended app]; intros xmsg Hcause site r Hin; in_ctrl Hin.
  all: injection Hin as <- <-; cbn [success message].
  all: cause_facts.
  all: inversion Hcause; subst.
  all: try congruence.
  all: try (split; reflexivity).
  all: cause_events.
  all: try congruence.
  all: split; reflexivity.
Qed.

(** C8.  Every denial the login flow writes has [success:false], no data
    and the message of what made the handler deny: the fixed text "ZKP
    authentication is not configured" when the signing key is empty; with a
    key, INVALID_PAYLOAD when the body does not bind and INVALID_ZKP_CODE
    when the code does not parse; PROOF_INVALID when [VerifyProof] returned
    an error and NOT_CLUB_MEMBER when [IsClubMember] returned false; the
    account store's own error text when loading or inserting the account
    failed; and fixed texts when the loaded account has id 0, when the wallet
    is not known and registration is closed, when the account the store
    returned from the update or the insert is not enabled, and when the
    session could not be saved.  Conversely, each of these conditions allows
    no response but a denial with its message.  A run that returns writes
    exactly one response. *)
Theorem ZkpOAuth_denial_causes
    (w : World) (c : Context) (g : Globals)
    (out : Outcome unit) (g' : Globals) (t : list Event) :
  run (ZkpOAuth w c) g = (out, g', t) ->
  (forall site r,
      In (EvJSON site r) t -> success r = false ->
      data r = None /\ denial_cause w c g t (message r)) /\
  (forall msg,
      denial_cause w c g t msg ->
      forall site r,
        In (EvJSON site r) t -> success r = false /\ message r = msg) /\
  (out = Returned tt -> exists site r, filter is_response t = [EvJSON site r]).
Proof.
  intros Hrun. split; [|split].
  - exact (wp_run _ _
             (fun _ _ t =>
                forall site r,
                  In (EvJSON site r) t -> success r = false ->
                  data r = None /\ denial_cause w c g t (message r))
             (ZkpOAuth_causes_wp w c g) _ _ _ Hrun).
  - exact (wp_run _ _
             (fun _ _ t =>
                forall msg,
                  denial_cause w c g t msg ->
                  forall site r,
                    In (EvJSON site r) t ->
                    success r = false /\ message r = msg)
             (ZkpOAuth_caused_wp w c g) _ _ _ Hrun).
  - exact (wp_run _ _ (fun out _ t => one_response out t)
                  (ZkpOAuth_one_response_wp w c g) _ _ _ Hrun).
Qed.

Lemma ZkpOAuth_denial_causes_witness :
  filter is_response insert_failing_trace
  = [EvJSON AtInsert (denial StatusOK "database is locked")] /\
  denial_cause insert_failing_world demo_request Globals_init
    insert_failing_trace "database is locked".
Proof.
  assert (E : run (ZkpOAuth insert_failing_world demo_request) Globals_init
              = (Returned tt, Globals_ready, insert_failing_trace))
    by reflexivity.
  split; [reflexivity|].
  refine (proj2 (proj1 (ZkpOAuth_denial_causes _ _ _ _ _ _ E) AtInsert
                       (denial StatusOK "database is locked") _ eq_refl)).
  unfold insert_failing_trace. simpl. tauto.
Defined.

(** ** The HTTP status *)

(** X5.  The HTTP status of a response is 400 when, with a key configured,
    the body does not bind or the code does not parse, 401 when
    [VerifyProof] returned an error, 403 when [IsClubMember] returned false,
    and 200 when no key is configured or the run reached the account store,
    whatever the store and the session answered then; no other status is
    written, and none of these conditions comes with another status.  A
    status other than 200 always comes with [success:false] and one of the
    four reason codes. *)
Theorem ZkpOAuth_http_status
    (w : World) (c : Context) (g : Globals)
    (out : Outcome unit) (g' : Globals) (t : list Event)
    (site : Site) (r : Response) :
  run (ZkpOAuth w c) g = (out, g', t) ->
  In (EvJSON site r) t ->
  status_cause w c g t (http_status r) /\
  (forall status, status_cause w c g t status -> http_status r = status) /\
  (http_status r <> 200 -> success r = false /\ In (message r) written_codes).
Proof.
  revert out g' t.
  apply (wp_run (ZkpOAuth w c) g
           (fun _ _ t =>
              In (EvJSON site r) t ->
              status_cause w c g t (http_status r) /\
              (forall status,
                  status_cause w c g t status -> http_status r = status) /\
              (http_status r <> 200 ->
               success r = false /\ In (message r) written_codes))).
  unfold ZkpOAuth, setupZkpLogin, deny.
  repeat first [ progress cbn [called fst snd] | run_branch | wp_step ].
  all: cbn [ended app]; intros Hin; in_ctrl Hin.
  all: injection Hin as <- <-; cbn [http_status success message].
  all: cause_facts.
  all: split; [|split].
  all: lazymatch goal with
       | |- status_cause _ _ _ _ _ =>
           first
             [ solve [apply status_not_configured; assumption]
             | solve [eapply status_payload; eassumption]
             | solve [eapply status_code; eassumption]
             | solve [eapply status_proof; eassumption]
             | solve [subst; eapply status_membership; eassumption]
             | solve [eapply status_store; in_now] ]
       | |- _ <> _ -> _ =>
           first
             [ intros E; exfalso; apply E; reflexivity
             | intros _; split; [reflexivity|];
               unfold written_codes; simpl; tauto ]
       | |- forall status, _ =>
           intros status Hcause; inversion Hcause; subst;
           try congruence; try reflexivity;
           cause_events; try congruence; try reflexivity
       end.
Qed.

Lemma ZkpOAuth_http_status_witness :
  status_cause refusing_world demo_request Globals_init refused_trace 401 /\
  In "PROOF_INVALID" written_codes.
Proof.
  assert (E : run (ZkpOAuth refusing_world demo_request) Globals_init
              = (Returned tt, Globals_ready, refused_trace))
    by reflexivity.
  assert (Hin : In (EvJSON AtVerify (denial StatusUnauthorized "PROOF_INVALID"))
                   refused_trace)
    by (unfold refused_trace; simpl; tauto).
  destruct (ZkpOAuth_http_status _ _ _ _ _ _ _ _ E Hin) as (Hc & _ & Hcode).
  split; [exact Hc|].
  apply Hcode. discriminate.
Defined.

(** ** The account of a new wallet and the status check *)

Lemma ZkpOAuth_provisioning_wp (w : World) (c : Context) g :
  wp (ZkpOAuth w c) g (fun _ _ t => provisioning_post w c t).
Proof.
  unfold ZkpOAuth, setupZkpLogin, deny.
  ctrl_all.
  all: cbn [ended app]; unfold provisioning_post, constructed.
  all: split; [intros xu xi xr Hin|split; [intros xu xi xu' Hin|intros xr Hin]];
    in_ctrl Hin.
  all: injection Hin as; subst; status_facts.
  (* the account handed to the insert *)
  all: try (repeat (split; [reflexivity|]);
            split;
            [ do 2 eexists; split; [eassumption|split; [eassumption|reflexivity]]
            | in_now ]; fail).
  (* the status check after an insert *)
  all: try (cbn [Status new_user]; split; intros Hst;
            [ first
                [ exfalso; congruence
                | split;
                  [ intros site r Hj; in_ctrl Hj; injection Hj as <- <-;
                    cbn [message]; unfold msg_banned, msg_session;
                    discriminate
                  | eexists;
                    rewrite !List.filter_app, !service_no_session by assumption;
                    reflexivity ] ]
            | first
                [ exfalso; congruence
                | split; [in_now|];
                  split;
                  [ intros site r Hj; in_ctrl Hj; injection Hj as <- <-;
                    reflexivity
                  | session_leaf ] ] ]; fail).
  (* the denial of the status check *)
  all: split; [reflexivity|].
  all: first
    [ solve [left; do 4 eexists; split; [in_now|split; [in_now|assumption]]]
    | solve [right; do 3 eexists; split; [in_now|cbn [Status new_user]; assumption]] ].
Qed.

(** C10.  Every account the login flow hands to the store's insert has the
    enabled status, the common-user role, the group "vip", username and
    display name equal to the abbreviated wallet address, and as zkpHash
    the decimal numeral of [Input[0]] of the parsed payload; the wallet was
    looked up and not found.  The status check that follows reads the
    account as the insert returned it.  When the insert returned it with the
    status it was given, no response of the run carries the text of the
    disabled account and the session calls are made for the returned
    account; when it returned another status, the one response of the run is
    the denial of the status check and the session is not touched.  The
    denial of the status check is written only for an account loaded and
    updated with a status other than the enabled one, or for one the insert
    returned with a status other than the one it was given. *)
Theorem ZkpOAuth_new_account
    (w : World) (c : Context) (g : Globals)
    (out : Outcome unit) (g' : Globals) (t : list Event) :
  run (ZkpOAuth w c) g = (out, g', t) ->
  (forall u i r, In (EvInsertUser u i r) t -> constructed w c t u) /\
  (forall u i u',
      In (EvInsertUser u i (u', None)) t ->
      (Status u' = Status u ->
       (forall site r, In (EvJSON site r) t -> message r <> msg_banned) /\
       exists r, filter is_session t = session_calls u' r) /\
      (Status u' <> Status u ->
       In (EvJSON AtStatus (denial StatusOK msg_banned)) t /\
       (forall site r, In (EvJSON site r) t ->
                       r = denial StatusOK msg_banned) /\
       session_free t)) /\
  (forall r,
      In (EvJSON AtStatus r) t ->
      r = denial StatusOK msg_banned /\
      ((exists wallet u0 u e,
           In (EvIsWalletAddressAlreadyTaken wallet true) t /\
           In (EvUpdateUser u0 (u, e)) t /\
           Status u <> UserStatusEnabled w) \/
       (exists u0 i u,
           In (EvInsertUser u0 i (u, None)) t /\ Status u <> Status u0))).
Proof.
  intros Hrun.
  exact (wp_run _ _ (fun _ _ t => provisioning_post w c t)
                (ZkpOAuth_provisioning_wp w c g) _ _ _ Hrun).
Qed.

Lemma ZkpOAuth_new_account_witness :
  constructed demo_world demo_request demo_login_trace
    (new_user demo_world demo_wallet "9") /\
  (forall site r, In (EvJSON site r) demo_login_trace ->
                  message r <> msg_banned) /\
  filter is_session demo_login_trace
  = session_calls (stored (new_user demo_world demo_wallet "9") 8) None.
Proof.
  assert (E : run (ZkpOAuth demo_world demo_request) Globals_init
              = (Returned tt, Globals_ready, demo_login_trace))
    by reflexivity.
  assert (Hin : In (EvInsertUser (new_user demo_world demo_wallet "9") 0
                      (stored (new_user demo_world demo_wallet "9") 8, None))
                   demo_login_trace)
    by (unfold demo_login_trace; simpl; tauto).
  destruct (ZkpOAuth_new_account _ _ _ _ _ _ E) as (Hnew & Hcheck & _).
  split; [exact (Hnew _ _ _ Hin)|].
  destruct (proj1 (Hcheck _ _ _ Hin) eq_refl) as [Hno _].
  split; [exact Hno|reflexivity].
Defined.

(** A store whose insert returns the account suspended: the account was
    built with the enabled status for a wallet that was not found, and the
    run answers with the denial of the status check. *)
Lemma ZkpOAuth_insert_then_disabled :
  run (ZkpOAuth suspending_world demo_request) Globals_init
  = (Returned tt, Globals_ready, suspended_trace) /\
  exists u i u',
    In (EvInsertUser u i (u', None)) suspended_trace /\
    Status u = UserStatusEnabled suspending_world /\
    In (EvIsWalletAddressAlreadyTaken (WalletAddress u) false) suspended_trace /\
    In (EvJSON AtStatus (denial StatusOK msg_banned)) suspended_trace /\
    forall wallet, ~ In (EvIsWalletAddressAlreadyTaken wallet true) suspended_trace.
Proof.
  split; [reflexivity|].
  exists (new_user suspending_world demo_wallet "9"), 0,
    {| Id := 8; Username := "0xAAAA...123A"; DisplayName := "0xAAAA...123A";
       Role := 1; Status := 2; Group := "vip";
       WalletAddress := demo_wallet; ZkpHash := "9" |}.
  unfold suspended_trace.
  split; [simpl; tauto|].
  split; [reflexivity|].
  split; [simpl; tauto|]. split; [simpl; tauto|].
  intros wallet Hin. simpl in Hin.
  repeat (destruct Hin as [Hin|Hin]; [discriminate Hin|]). exact Hin.
Qed.

(** ** The ABI singleton over the life of a process *)

Lemma parses_app (x : AbiText) (t1 t2 : list Event) :
  parses x (t1 ++ t2) = (parses x t1 + parses x t2)%nat.
Proof. unfold parses. now rewrite List.filter_app, List.length_app. Qed.

Lemma parses_plain (x : AbiText) (t : list Event) :
  filter is_setup t = [] -> parses x t = 0%nat.
Proof.
  unfold parses. induction t as [|e t IH]; intros H; [reflexivity|].
  simpl in H. destruct e; simpl in *; try discriminate H; auto.
Qed.

Lemma abi_kept_app a m g t1 g1 t2 g2 :
  abi_kept a m g t1 g1 -> abi_kept a m g1 t2 g2 -> abi_kept a m g (t1 ++ t2) g2.
Proof.
  intros (H1 & P1 & K1) (H2 & P2 & K2).
  split; [eapply once_inv_app; eassumption|].
  split; [rewrite !parses_app; congruence|auto].
Qed.

Lemma abi_kept_plain a m g t :
  filter is_setup t = [] -> abi_kept a m g t g.
Proof.
  intros H. split; [now apply once_inv_plain|].
  split; [now rewrite !parses_plain|auto].
Qed.

Lemma getEthClient_kept (w : World) a m g :
  wp (getEthClient w) g (fun _ g1 t1 => abi_kept a m g t1 g1).
Proof.
  split; [apply getEthClient_once|].
  unfold getEthClient, bind, get, put, ret, emit, abi_held.
  destruct (ethClientOnce g); cbn; [auto|].
  destruct (ethclient_Dial w ZkpRpcUrl); cbn; auto.
Qed.


Lemma getABIs_kept (w : World) a m g :
  abi_JSON w zkpContractABI = (a, None) ->
  abi_JSON w membershipQueryABI = (m, None) ->
  wp (getABIs w) g (fun _ g1 t1 => abi_kept a m g t1 g1).
Proof.
  intros Hz Hm. split; [apply getABIs_once|].
  unfold getABIs, getABIs_init, set_zkpABI, set_membershipABI, set_abiOnce,
    bind, get, put, ret, emit, call, return_, abi_held.
  destruct (abiOnce g) eqn:E; cbn; [auto|].
  rewrite Hz. cbn. rewrite Hm. cbn. auto.
Qed.

Ltac kept_branch a m Hz Hm :=
  lazymatch goal with
  | |- wp (call (getEthClient _)) ?g _ =>
      apply (wp_call_post _ _ (fun g1 t1 => abi_kept a m g t1 g1));
      [ apply getEthClient_kept | intros ? ? ? ? | intros ? ? ? ? ]
  | |- wp (call (getABIs _)) ?g _ =>
      apply (wp_call_post _ _ (fun g1 t1 => abi_kept a m g t1 g1));
      [ apply (getABIs_kept _ a m _ Hz Hm) | intros ? ? ? ? | intros ? ? ? ? ]
  | |- wp (or_return ?x _) _ _ => unfold or_return at 1; destruct x eqn:?
  | |- wp (deref ?x) _ _ => unfold deref at 1; destruct x eqn:?
  | |- wp (match snd ?p with _ => _ end) _ _ =>
      destruct p as [? ?] eqn:?; cbn [fst snd]
  | |- wp (match ?x with _ => _ end) _ _ => destruct x eqn:?
  end.

Ltac kept_leaf :=
  cbn [app];
  repeat (eapply abi_kept_app; [eassumption|]);
  first [ eassumption | apply abi_kept_plain; reflexivity ].

Lemma VerifyProof_kept (w : World) a m (payload : ZkpPayload) g :
  abi_JSON w zkpContractABI = (a, None) ->
  abi_JSON w membershipQueryABI = (m, None) ->
  wp (VerifyProof w payload) g (fun _ g1 t1 => abi_kept a m g t1 g1).
Proof.
  intros Hz Hm. unfold VerifyProof.
  repeat first [ progress cbn [called fst snd] | kept_branch a m Hz Hm | wp_step ].
  all: kept_leaf.
Qed.

Lemma GetHashStatus_kept (w : World) a m (h : string) g :
  abi_JSON w zkpContractABI = (a, None) ->
  abi_JSON w membershipQueryABI = (m, None) ->
  wp (GetHashStatus w h) g (fun _ g1 t1 => abi_kept a m g t1 g1).
Proof.
  intros Hz Hm. unfold GetHashStatus.
  repeat first [ progress cbn [called fst snd] | kept_branch a m Hz Hm | wp_step ].
  all: kept_leaf.
Qed.

Lemma CheckClubMembership_kept (w : World) a m (x club : string) g :
  abi_JSON w zkpContractABI = (a, None) ->
  abi_JSON w membershipQueryABI = (m, None) ->
  wp (CheckClubMembership w x club) g (fun _ g1 t1 => abi_kept a m g t1 g1).
Proof.
  intros Hz Hm. unfold CheckClubMembership.
  repeat first [ progress cbn [called fst snd] | kept_branch a m Hz Hm | wp_step ].
  all: kept_leaf.
Qed.

Ltac kept_calls a m Hz Hm :=
  lazymatch goal with
  | |- wp (call (VerifyProof _ _)) ?g _ =>
      apply (wp_call_post _ _ (fun g1 t1 => abi_kept a m g t1 g1));
      [ apply (VerifyProof_kept _ a m _ _ Hz Hm)
      | intros [[? ?] ?] ? ? ? | intros ? ? ? ? ]
  | |- wp (call (GetHashStatus _ _)) ?g _ =>
      apply (wp_call_post _ _ (fun g1 t1 => abi_kept a m g t1 g1));
      [ apply (GetHashStatus_kept _ a m _ _ Hz Hm)
      | intros ? ? ? ? | intros ? ? ? ? ]
  | |- wp (call (CheckClubMembership _ _ _)) ?g _ =>
      apply (wp_call_post _ _ (fun g1 t1 => abi_kept a m g t1 g1));
      [ apply (CheckClubMembership_kept _ a m _ _ _ Hz Hm)
      | intros ? ? ? ? | intros ? ? ? ? ]
  end.

Lemma IsZkpValid_kept (w : World) a m (h : string) g :
  abi_JSON w zkpContractABI = (a, None) ->
  abi_JSON w membershipQueryABI = (m, None) ->
  wp (IsZkpValid w h) g (fun _ g1 t1 => abi_kept a m g t1 g1).
Proof.
  intros Hz Hm. unfold IsZkpValid.
  repeat first [ progress cbn [called fst snd] | kept_calls a m Hz Hm
               | kept_branch a m Hz Hm | wp_step ].
  all: kept_leaf.
Qed.

Lemma IsClubMember_kept (w : World) a m (x : string) g :
  abi_JSON w zkpContractABI = (a, None) ->
  abi_JSON w membershipQueryABI = (m, None) ->
  wp (IsClubMember w x) g (fun _ g1 t1 => abi_kept a m g t1 g1).
Proof.
  intros Hz Hm. unfold IsClubMember.
  repeat first [ progress cbn [called fst snd] | kept_calls a m Hz Hm
               | kept_branch a m Hz Hm | wp_step ].
  all: kept_leaf.
Qed.

Lemma ZkpOAuth_kept (w : World) a m (c : Context) g :
  abi_JSON w zkpContractABI = (a, None) ->
  abi_JSON w membershipQueryABI = (m, None) ->
  wp (ZkpOAuth w c) g (fun _ g1 t1 => abi_kept a m g t1 g1).
Proof.
  intros Hz Hm. unfold ZkpOAuth, setupZkpLogin, deny.
  repeat first
    [ progress cbn [called fst snd]
    | kept_calls a m Hz Hm
    | lazymatch goal with
      | |- wp (call (IsClubMember _ _)) ?g _ =>
          apply (wp_call_post _ _ (fun g1 t1 => abi_kept a m g t1 g1));
          [ apply (IsClubMember_kept _ a m _ _ Hz Hm)
          | intros ? ? ? ? | intros ? ? ? ? ]
      end
    | kept_branch a m Hz Hm
    | wp_step ].
  all: kept_leaf.
Qed.

Lemma effect_kept {R} (f : M R R) a m (g : Globals) :
  wp f g (fun _ g1 t1 => abi_kept a m g t1 g1) ->
  abi_kept a m g (snd (effect f g)) (fst (effect f g)).
Proof.
  intros Hwp. unfold effect.
  destruct (run f g) as [[out g'] t] eqn:E.
  exact (wp_run f g (fun _ g1 t1 => abi_kept a m g t1 g1) Hwp _ _ _ E).
Qed.

Lemma perform_kept (w : World) a m (k : Call) (g : Globals) :
  abi_JSON w zkpContractABI = (a, None) ->
  abi_JSON w membershipQueryABI = (m, None) ->
  abi_kept a m g (snd (perform w k g)) (fst (perform w k g)).
Proof.
  intros Hz Hm. destruct k; cbn [perform]; apply effect_kept.
  - apply getEthClient_kept.
  - now apply getABIs_kept.
  - now apply VerifyProof_kept.
  - now apply GetHashStatus_kept.
  - now apply IsZkpValid_kept.
  - now apply CheckClubMembership_kept.
  - now apply IsClubMember_kept.
  - now apply ZkpOAuth_kept.
Qed.

Lemma process_kept (w : World) a m (ks : list Call) :
  abi_JSON w zkpContractABI = (a, None) ->
  abi_JSON w membershipQueryABI = (m, None) ->
  forall g, abi_kept a m g (snd (process w ks g)) (fst (process w ks g)).
Proof.
  intros Hz Hm. induction ks as [|k ks IH]; intros g.
  - cbn. apply abi_kept_plain. reflexivity.
  - cbn [process].
    pose proof (perform_kept w a m k g Hz Hm) as H1.
    destruct (perform w k g) as [g1 t1]. cbn [fst snd] in H1.
    specialize (IH g1). destruct (process w ks g1) as [g2 t2].
    cbn [fst snd] in *. eapply abi_kept_app; eassumption.
Qed.

(** C6.  The two ABI texts are constants of the file and well formed, so
    their parse returns the descriptors, [a] and [m], and no error.  Then at
    every point of a process, whatever calls of the service and of the
    handler were made before, a call of [getABIs] returns [a], [m] and no
    error and leaves them in the package variables: every call observes what
    the first one did.  The events of the process up to and including this
    call hold exactly one parse of each text; when a text was parsed before
    the call, the call parses nothing and changes no variable. *)
Theorem getABIs_once_per_process
    (w : World) (a m : ABI) (ks : list Call) (g : Globals) (h : list Event) :
  abi_JSON w zkpContractABI = (a, None) ->
  abi_JSON w membershipQueryABI = (m, None) ->
  process w ks Globals_init = (g, h) ->
  exists g' t,
    run (getABIs w) g = (Returned (a, m, None), g', t) /\
    zkpABI g' = a /\ membershipABI g' = m /\ abiOnce g' = true /\
    parses zkpContractABI (h ++ t) = 1%nat /\
    parses membershipQueryABI (h ++ t) = 1%nat /\
    ((0 < parses zkpContractABI h)%nat -> g' = g /\ t = []).
Proof.
  intros Hz Hm Hp.
  pose proof (process_kept w a m ks Hz Hm Globals_init) as (Hinv & Hsame & Hheld).
  rewrite Hp in Hinv, Hsame, Hheld. cbn [fst snd] in Hinv, Hsame, Hheld.
  destruct Hinv as (_ & Hpz & _). cbn [Globals_init abiOnce pending] in Hpz.
  assert (Hinit : abi_held a m Globals_init) by (intros E; discriminate E).
  specialize (Hheld Hinit).
  destruct (abiOnce g) eqn:Eonce; cbn [pending] in Hpz.
  - destruct (Hheld Eonce) as [Ha Hb].
    exists g, []. rewrite (getABIs_after_first w g Eonce).
    rewrite List.app_nil_r.
    split; [now rewrite Ha, Hb|]. split; [exact Ha|]. split; [exact Hb|].
    split; [exact Eonce|]. split; [lia|]. split; [lia|]. auto.
  - unfold run, getABIs, getABIs_init, set_zkpABI, set_membershipABI,
      set_abiOnce, bind, get, put, ret, emit, call, return_.
    rewrite Eonce. cbn. rewrite Hz. cbn. rewrite Hm. cbn.
    do 2 eexists. split; [reflexivity|]. cbn.
    rewrite !parses_app. cbn.
    repeat split; try lia.
Qed.

Lemma getABIs_once_per_process_witness :
  exists g' t,
    run (getABIs demo_world) Globals_ready
    = (Returned (demo_verifier_abi, demo_membership_abi, None), g', t) /\
    zkpABI g' = demo_verifier_abi /\ membershipABI g' = demo_membership_abi /\
    abiOnce g' = true /\
    parses zkpContractABI (demo_login_trace ++ t) = 1%nat /\
    parses membershipQueryABI (demo_login_trace ++ t) = 1%nat /\
    ((0 < parses zkpContractABI demo_login_trace)%nat ->
     g' = Globals_ready /\ t = []).
Proof.
  apply (getABIs_once_per_process demo_world demo_verifier_abi
           demo_membership_abi [CallZkpOAuth demo_request]
           Globals_ready demo_login_trace); reflexivity.
Defined.
